(** * DastavejSetu: job tracking and result reconciliation of the API gateway

    A shallow embedding of the gateway's extraction path:

    - [api-server/src/storage/storage.service.ts]  (StorageService),
    - [api-server/src/extraction/extraction-queries.ts] (the job table),
    - [api-server/src/extraction/extraction.service.ts] (ExtractionService
      and the process-wide [jobResultsMap]),
    - [api-server/src/extraction/extraction.controller.ts]
      (ExtractionController: upload, status poll, edit, and the retrieval
      of the original).

    The three stores (in-process map, S3 bucket, Postgres table) are fields
    of one [World]; asynchronous methods become computations in a state and
    exception monad over it.  The behaviour of the outside (S3 faults,
    database faults, replies of the Python engine, the clock and the random
    source) is scripted in the world, and every adapter call and every
    warn/error log line is appended to a trace. *)

From Stdlib Require Import String Ascii NArith ZArith List Bool Lia.
From stdpp Require Import base option strings gmap pretty.

Local Set Warnings "-register-all".
Local Open Scope string_scope.
Local Open Scope N_scope.

(** ** JavaScript strings and values *)

(** A JavaScript string is represented by its UTF-8 bytes.  Ill-formed
    UTF-16 (a lone surrogate), on which [encodeURIComponent] raises
    [URIError], has no such representation: file names reach the gateway
    from a multipart header or from a Postgres [text] column, and both are
    well formed. *)

Definition hexDigit (n : N) : ascii :=
  nth (N.to_nat n) (list_ascii_of_string "0123456789ABCDEF") "0"%char.

(** ECMAScript's [uriUnreserved]: letters, decimal digits and the marks
    [- _ . ! ~ * ' ( )]. *)
Definition uriUnreserved (c : ascii) : bool :=
  let n := N_of_ascii c in
  ((65 <=? n) && (n <=? 90)) || ((97 <=? n) && (n <=? 122))
  || ((48 <=? n) && (n <=? 57))
  || existsb (Ascii.eqb c) (list_ascii_of_string "-_.!~*'()").

Fixpoint encodeURIComponent (s : string) : string :=
  match s with
  | EmptyString => EmptyString
  | String c s' =>
      if uriUnreserved c then String c (encodeURIComponent s')
      else
        let n := N_of_ascii c in
        String "%" (String (hexDigit (n / 16))
                     (String (hexDigit (n mod 16)) (encodeURIComponent s')))
  end.

(** [s.substring(n)] *)
Fixpoint substring_from (n : nat) (s : string) : string :=
  match n, s with
  | O, _ => s
  | S n', String _ s' => substring_from n' s'
  | S _, EmptyString => EmptyString
  end.

(** [s.replace(pat, rep)] with a string pattern: the first occurrence. *)
Fixpoint replace_first (pat rep s : string) : string :=
  if String.prefix pat s then rep +:+ substring_from (String.length pat) s
  else match s with
       | EmptyString => EmptyString
       | String c s' => String c (replace_first pat rep s')
       end.

(** [s.replace(/\/$/, '')] *)
Fixpoint strip_trailing_slash (s : string) : string :=
  match s with
  | EmptyString => EmptyString
  | String c s' =>
      if (Ascii.eqb c "/" && String.eqb s' EmptyString)%bool then EmptyString
      else String c (strip_trailing_slash s')
  end.

(** Values that travel as JSON ([ExtractionResult], and the [any] of the
    edit body).  Only the zero test of a number is ever used, so numbers are
    integers here. *)
Inductive Json :=
| JNull
| JBool (b : bool)
| JNumber (n : Z)
| JString (s : string)
| JArray (items : list Json)
| JObject (fields : list (string * Json)).

(** [!v] for a value that may be [undefined] ([None]). *)
Definition falsy (v : option Json) : bool :=
  match v with
  | None | Some JNull | Some (JBool false) | Some (JNumber 0%Z)
  | Some (JString EmptyString) => true
  | Some _ => false
  end.

(** [s || d] on strings that may be [undefined]. *)
Definition or_default (s : option string) (d : string) : string :=
  match s with
  | Some (String c s') => String c s'
  | _ => d
  end.

(** ** Exceptions *)

(** The part of an Axios [error.response] the gateway reads
    ([.status] and [.data?.detail]). *)
Record ErrorResponse := mkErrorResponse {
  resp_status : option N;
  resp_detail : option string;
}.

Inductive Exn :=
| Error (name message : string) (code : option string)
        (response : option ErrorResponse)
| BadRequestException (message : string)
| InternalServerErrorException (message : string).

Definition exn_message (e : Exn) : string :=
  match e with
  | Error _ m _ _ | BadRequestException m | InternalServerErrorException m => m
  end.

Definition exn_name (e : Exn) : string :=
  match e with
  | Error n _ _ _ => n
  | BadRequestException _ => "BadRequestException"
  | InternalServerErrorException _ => "InternalServerErrorException"
  end.

Definition exn_code (e : Exn) : option string :=
  match e with Error _ _ c _ => c | _ => None end.

(** A Nest [HttpException] has a [response] object too, without [status]
    and without [data]. *)
Definition exn_response (e : Exn) : option ErrorResponse :=
  match e with
  | Error _ _ _ r => r
  | _ => Some (mkErrorResponse None None)
  end.

(** [new Error(msg)] *)
Definition new_Error (msg : string) : Exn := Error "Error" msg None None.

(** ** Data model *)

(** [ExtractionStatusResponse.status].  The value type of [jobResultsMap]
    narrows it to ['completed' | 'failed']; the cache is given the wide type
    here and the narrowing is proved of every write ([cache_inv] below). *)
Inductive Status := pending | processing | completed | failed.

Definition status_string (s : Status) : string :=
  match s with
  | pending => "pending"
  | processing => "processing"
  | completed => "completed"
  | failed => "failed"
  end.

(** Value type of [jobResultsMap]. *)
Module CachedJob.
Record t := mk {
  status : Status;
  fileUrl : string;
  fileName : option string;
  data : option Json;
  error : option string;
}.
End CachedJob.

(** A row of the [extraction_jobs] table ([schema.ts]); [None] is SQL NULL.
    The two timestamp columns are left out. *)
Module Row.
Record t := mk {
  id : string;
  userId : string;
  fileName : string;
  fileUrl : string;
  status : string;
  result : option Json;
  error : option string;
}.
End Row.

(** [ExtractedFile]: the columns the queries select and return. *)
Module ExtractedFile.
Record t := mk {
  id : string;
  fileName : string;
  fileUrl : string;
  status : string;
  error : option string;
  result : option Json;
}.
End ExtractedFile.


Module ExtractionResponse.
Record t := mk {
  success : bool;
  message : string;
  job_id : option string;
  file_url : option string;
  data : Json;
}.
End ExtractionResponse.

(** Absent and [undefined] fields are both [None]: the two serialise to the
    same JSON. *)
Module ExtractionStatusResponse.
Record t := mk {
  job_id : string;
  status : Status;
  file_url : option string;
  data : option Json;
  error : option string;
}.
End ExtractionStatusResponse.

(** [Express.Multer.File] *)
Module MulterFile.
Record t := mk {
  buffer : string;
  originalname : string;
  mimetype : string;
}.
End MulterFile.

(** ** The world *)

Inductive Event :=
| S3Put (key body contentType : string) (metadata : list (string * string))
| S3Head (key : string)
| S3Get (key : string)
| DbInsert (id : string)
| DbUpdate (id : string)
| DbSelect (id : string)
| EngineExtract (fileName mimeType targetLanguage preserve_names : string)
| EngineStatus (jobId : string)
| LogWarn (msg : string)
| LogError (msg : string).

Record World := mkWorld {
  (* the three stores *)
  jobResultsMap : gmap string CachedJob.t;
  bucket : gmap string string;
  extractionJobs : gmap string Row.t;
  (* configuration *)
  bucketName : string;
  TIGRIS_ENDPOINT : string;
  (* the outside: one entry is consumed per call; [None] lets an S3 or
     database call through, and so does an exhausted list *)
  s3_faults : list (option Exn);
  db_faults : list (option Exn);
  extract_replies : list (Exn + Json);
  status_replies : list (Exn + ExtractionStatusResponse.t);
  Date_now : N;
  Math_random : list string;   (* [Math.random().toString(36)] *)
  uuids : list string;         (* [uuidv4()] *)
  (* adapter calls and warn/error log lines, oldest first *)
  trace : list Event;
}.

Definition set_jobResultsMap (f : gmap string CachedJob.t -> gmap string CachedJob.t)
    (w : World) : World :=
  mkWorld (f (jobResultsMap w)) (bucket w) (extractionJobs w) (bucketName w)
          (TIGRIS_ENDPOINT w) (s3_faults w) (db_faults w) (extract_replies w)
          (status_replies w) (Date_now w) (Math_random w) (uuids w) (trace w).

Definition set_bucket (f : gmap string string -> gmap string string)
    (w : World) : World :=
  mkWorld (jobResultsMap w) (f (bucket w)) (extractionJobs w) (bucketName w)
          (TIGRIS_ENDPOINT w) (s3_faults w) (db_faults w) (extract_replies w)
          (status_replies w) (Date_now w) (Math_random w) (uuids w) (trace w).

Definition set_extractionJobs (f : gmap string Row.t -> gmap string Row.t)
    (w : World) : World :=
  mkWorld (jobResultsMap w) (bucket w) (f (extractionJobs w)) (bucketName w)
          (TIGRIS_ENDPOINT w) (s3_faults w) (db_faults w) (extract_replies w)
          (status_replies w) (Date_now w) (Math_random w) (uuids w) (trace w).

Definition set_s3_faults (l : list (option Exn)) (w : World) : World :=
  mkWorld (jobResultsMap w) (bucket w) (extractionJobs w) (bucketName w)
          (TIGRIS_ENDPOINT w) l (db_faults w) (extract_replies w)
          (status_replies w) (Date_now w) (Math_random w) (uuids w) (trace w).

Definition set_db_faults (l : list (option Exn)) (w : World) : World :=
  mkWorld (jobResultsMap w) (bucket w) (extractionJobs w) (bucketName w)
          (TIGRIS_ENDPOINT w) (s3_faults w) l (extract_replies w)
          (status_replies w) (Date_now w) (Math_random w) (uuids w) (trace w).

Definition set_extract_replies (l : list (Exn + Json)) (w : World) : World :=
  mkWorld (jobResultsMap w) (bucket w) (extractionJobs w) (bucketName w)
          (TIGRIS_ENDPOINT w) (s3_faults w) (db_faults w) l
          (status_replies w) (Date_now w) (Math_random w) (uuids w) (trace w).

Definition set_status_replies (l : list (Exn + ExtractionStatusResponse.t))
    (w : World) : World :=
  mkWorld (jobResultsMap w) (bucket w) (extractionJobs w) (bucketName w)
          (TIGRIS_ENDPOINT w) (s3_faults w) (db_faults w) (extract_replies w)
          l (Date_now w) (Math_random w) (uuids w) (trace w).

Definition set_Math_random (l : list string) (w : World) : World :=
  mkWorld (jobResultsMap w) (bucket w) (extractionJobs w) (bucketName w)
          (TIGRIS_ENDPOINT w) (s3_faults w) (db_faults w) (extract_replies w)
          (status_replies w) (Date_now w) l (uuids w) (trace w).

Definition set_uuids (l : list string) (w : World) : World :=
  mkWorld (jobResultsMap w) (bucket w) (extractionJobs w) (bucketName w)
          (TIGRIS_ENDPOINT w) (s3_faults w) (db_faults w) (extract_replies w)
          (status_replies w) (Date_now w) (Math_random w) l (trace w).

Definition set_trace (f : list Event -> list Event) (w : World) : World :=
  mkWorld (jobResultsMap w) (bucket w) (extractionJobs w) (bucketName w)
          (TIGRIS_ENDPOINT w) (s3_faults w) (db_faults w) (extract_replies w)
          (status_replies w) (Date_now w) (Math_random w) (uuids w) (f (trace w)).

(** ** Computations: state over [World], with exceptions *)

Inductive Outcome (A : Type) :=
| Return (a : A)
| Throw (e : Exn).
Arguments Return {A} a.
Arguments Throw {A} e.

Definition M (A : Type) : Type := World -> Outcome A * World.

Definition ret {A} (a : A) : M A := fun w => (Return a, w).

Definition bind {A B} (m : M A) (k : A -> M B) : M B :=
  fun w => match m w with
           | (Return a, w') => k a w'
           | (Throw e, w') => (Throw e, w')
           end.

Definition throw {A} (e : Exn) : M A := fun w => (Throw e, w).

(** [try { body } catch (error) { handler }]: what the body did to the world
    before it threw stays done. *)
Definition try_catch {A} (body : M A) (handler : Exn -> M A) : M A :=
  fun w => match body w with
           | (Return a, w') => (Return a, w')
           | (Throw e, w') => handler e w'
           end.

Definition gets {A} (f : World -> A) : M A := fun w => (Return (f w), w).
Definition modify (f : World -> World) : M unit := fun w => (Return tt, f w).

Notation "'let*' x ':=' m 'in' k" := (bind m (fun x => k))
  (at level 10, x name, m at level 100, k at level 200).
Notation "m ';;' k" := (bind m (fun _ => k))
  (at level 100, k at level 200, right associativity).
Notation "'try' b 'catch' e '=>' h" := (try_catch b (fun e => h))
  (at level 10, e name, b at level 200, h at level 200).

Definition emit (ev : Event) : M unit :=
  modify (set_trace (fun t => (t ++ [ev])%list)).

Definition logger_warn (msg : string) : M unit := emit (LogWarn msg).
Definition logger_error (msg : string) : M unit := emit (LogError msg).

(** The next scripted S3 fault, if any. *)
Definition next_s3_fault : M unit :=
  let* l := gets s3_faults in
  match l with
  | [] => ret tt
  | f :: l' =>
      modify (set_s3_faults l') ;;
      match f with Some e => throw e | None => ret tt end
  end.

Definition next_db_fault : M unit :=
  let* l := gets db_faults in
  match l with
  | [] => ret tt
  | f :: l' =>
      modify (set_db_faults l') ;;
      match f with Some e => throw e | None => ret tt end
  end.

(** ** StorageService ([storage.service.ts]) *)

(** [this.s3Client.send(command)] for the three commands in use. *)
Definition send_PutObjectCommand (key body contentType : string)
    (metadata : list (string * string)) : M unit :=
  emit (S3Put key body contentType metadata) ;;
  next_s3_fault ;;
  modify (set_bucket (insert key body)).

Definition send_GetObjectCommand (key : string) : M string :=
  emit (S3Get key) ;;
  next_s3_fault ;;
  let* b := gets bucket in
  match b !! key with
  | Some body => ret body
  | None => throw (Error "NoSuchKey" "The specified key does not exist."
                         None None)
  end.

Definition send_HeadObjectCommand (key : string) : M unit :=
  emit (S3Head key) ;;
  next_s3_fault ;;
  let* b := gets bucket in
  match b !! key with
  | Some _ => ret tt
  | None => throw (Error "NotFound" "UnknownError" None None)
  end.

Definition uploadFile (key buffer contentType : string)
    (metadata : list (string * string)) : M string :=
  try (
    send_PutObjectCommand key buffer contentType metadata ;;
    let* endpoint := gets (fun w => strip_trailing_slash (TIGRIS_ENDPOINT w)) in
    let* bucketName := gets bucketName in
    ret ("https://" +:+ bucketName +:+ "."
         +:+ replace_first "https://" "" endpoint +:+ "/" +:+ key)
  ) catch error => (
    logger_error ("Failed to upload file: " +:+ exn_message error) ;;
    throw (new_Error ("Failed to upload file: " +:+ exn_message error))
  ).

(** An S3 object always has a body here, so the ['File not found'] branch
    of [getFileStream] is not reachable. *)
Definition getFileStream (key : string) : M string :=
  try (
    send_GetObjectCommand key
  ) catch error => (
    logger_error ("Failed to get file: " +:+ exn_message error) ;;
    throw (new_Error ("Failed to get file: " +:+ exn_message error))
  ).

Definition getFileBuffer (key : string) : M string := getFileStream key.

Definition fileExists (key : string) : M bool :=
  try (
    send_HeadObjectCommand key ;;
    ret true
  ) catch error => (
    if String.eqb (exn_name error) "NotFound" then ret false
    else throw error
  ).

(** ** The job table ([extraction-queries.ts]) *)

Definition next_uuid : M string :=
  let* l := gets uuids in
  match l with
  | [] => ret "00000000-0000-4000-8000-000000000000"
  | u :: l' => modify (set_uuids l') ;; ret u
  end.

(** [jsonb] column: JavaScript [null] is stored as SQL NULL. *)
Definition to_jsonb (v : Json) : option Json :=
  match v with JNull => None | _ => Some v end.

(** A [jsonb] column on the way out: drizzle's [mapFromDriverValue] passes
    a string value through [JSON.parse] once more, and keeps the string
    when it does not parse; SQL NULL is [null]. *)
Definition from_jsonb (JSON_parse : string -> Exn + Json) (v : option Json)
    : option Json :=
  match v with
  | Some (JString s) =>
      match JSON_parse s with
      | inr v' => to_jsonb v'
      | inl _ => Some (JString s)
      end
  | _ => v
  end.

(** A row as a query gives it back. *)
Definition selected (JSON_parse : string -> Exn + Json) (r : Row.t)
    : ExtractedFile.t :=
  ExtractedFile.mk (Row.id r) (Row.fileName r) (Row.fileUrl r) (Row.status r)
                   (Row.error r) (from_jsonb JSON_parse (Row.result r)).

Definition createExtractionJob (userId fileName fileUrl : string)
    (jobId : option string) : M ExtractedFile.t :=
  let* id := match jobId with
             | Some (String c s) => ret (String c s)
             | _ => next_uuid
             end in
  emit (DbInsert id) ;;
  next_db_fault ;;
  let* t := gets extractionJobs in
  match t !! id with
  | Some _ =>
      throw (Error "PostgresError"
        "duplicate key value violates unique constraint extraction_jobs_pkey"
        (Some "23505") None)
  | None =>
      let row := Row.mk id userId fileName fileUrl "pending" None None in
      modify (set_extractionJobs (insert id row)) ;;
      (* the row as [returning] gives it back: [error] and [result] are
         NULL *)
      ret (ExtractedFile.mk id fileName fileUrl "pending" None None)
  end.

(** [result] and [error] are [None] when the argument is [undefined]. *)
Definition updateExtractionJob (JSON_parse : string -> Exn + Json)
    (jobId status : string) (result : option Json) (error : option string)
    : M (option ExtractedFile.t) :=
  emit (DbUpdate jobId) ;;
  next_db_fault ;;
  let* t := gets extractionJobs in
  match t !! jobId with
  | None => ret None
  | Some row =>
      let row' :=
        Row.mk (Row.id row) (Row.userId row) (Row.fileName row)
               (Row.fileUrl row) status
               (match result with
                | Some v => to_jsonb v
                | None => Row.result row
                end)
               (match error with
                | Some e => Some e
                | None => Row.error row
                end) in
      modify (set_extractionJobs (insert jobId row')) ;;
      ret (Some (selected JSON_parse row'))
  end.

Definition getExtractionJobById (JSON_parse : string -> Exn + Json)
    (jobId : string) : M (option ExtractedFile.t) :=
  emit (DbSelect jobId) ;;
  next_db_fault ;;
  let* t := gets extractionJobs in
  ret (selected JSON_parse <$> t !! jobId).

(** ** The Python engine, behind [HttpService] *)

(** With no scripted reply left the engine is down. *)
Definition ECONNREFUSED : Exn :=
  Error "AxiosError" "connect ECONNREFUSED" (Some "ECONNREFUSED") None.

(** [httpService.post(`${pythonApiUrl}/api/v1/ai/file-extractor/extract`)],
    [response.data] *)
Definition post_extract (fileName mimeType targetLanguage preserve_names : string)
    : M Json :=
  emit (EngineExtract fileName mimeType targetLanguage preserve_names) ;;
  let* l := gets extract_replies in
  match l with
  | [] => throw ECONNREFUSED
  | r :: l' =>
      modify (set_extract_replies l') ;;
      match r with inl e => throw e | inr d => ret d end
  end.

(** [httpService.get(`${pythonApiUrl}/api/v1/ai/file-extractor/status/${jobId}`)],
    [response.data].  A reply that comes with a 2xx status is taken to
    carry a status object, as the engine's API promises; a reply with
    another body (such as [null], on which the controller's read of
    [status.status] throws a [TypeError]) is outside this model. *)
Definition get_status (jobId : string) : M ExtractionStatusResponse.t :=
  emit (EngineStatus jobId) ;;
  let* l := gets status_replies in
  match l with
  | [] => throw ECONNREFUSED
  | r :: l' =>
      modify (set_status_replies l') ;;
      match r with inl e => throw e | inr d => ret d end
  end.

(** [Math.random().toString(36)] *)
Definition next_random : M string :=
  let* l := gets Math_random in
  match l with
  | [] => ret "0"
  | r :: l' => modify (set_Math_random l') ;; ret r
  end.

(** [b.toString()] *)
Definition bool_toString (b : bool) : string := if b then "true" else "false".

(** ** ExtractionService ([extraction.service.ts]) and the controller *)

Section Gateway.

(** The platform's JSON codec: [JSON.stringify(v, null, 2)], and
    [JSON.parse], which throws on malformed text. *)
Variable JSON_stringify : Json -> string.
Variable JSON_parse : string -> Exn + Json.

Definition parse (text : string) : M Json :=
  match JSON_parse text with inl e => throw e | inr v => ret v end.

(** [extractionResult.tables?.length]: reading a property of [null]
    throws. *)
Definition read_tables (extractionResult : Json) : M unit :=
  match extractionResult with
  | JNull => throw (Error "TypeError"
               "Cannot read properties of null (reading 'tables')" None None)
  | _ => ret tt
  end.

Definition startExtraction
    (fileBuffer fileName mimeType userId targetLanguage : string)
    (preserveNames : bool) : M ExtractionResponse.t :=
  let* now := gets Date_now in
  let* rnd := next_random in
  let jobId := "job_" +:+ pretty now +:+ "_" +:+ substring_from 7 rnd in
  try (
    (* Step 1: upload original file to S3 (originals/) *)
    let originalKey :=
      "originals/" +:+ jobId +:+ "/" +:+ encodeURIComponent fileName in
    let* originalUrl :=
      uploadFile originalKey fileBuffer mimeType
        [("userId", userId); ("originalName", fileName); ("jobId", jobId)] in
    (* Step 2: send file buffer to the engine *)
    let* extractionResult :=
      post_extract fileName mimeType targetLanguage
                   (bool_toString preserveNames) in
    read_tables extractionResult ;;
    (* Step 3: upload extraction result JSON to S3 (output/) *)
    let outputKey :=
      "output/" +:+ jobId +:+ "/" +:+ encodeURIComponent fileName
      +:+ ".json" in
    let jsonBuffer := JSON_stringify extractionResult in
    uploadFile outputKey jsonBuffer "application/json"
      [("userId", userId); ("originalName", fileName); ("jobId", jobId)] ;;
    (* Step 4: store result in memory for the status endpoint *)
    modify (set_jobResultsMap (insert jobId
      (CachedJob.mk completed originalUrl (Some fileName)
                    (Some extractionResult) None))) ;;
    ret (ExtractionResponse.mk true "Extraction completed" (Some jobId)
           (Some originalUrl) extractionResult)
  ) catch error => (
    logger_error ("Extraction failed for job " +:+ jobId +:+ ": "
                  +:+ exn_message error) ;;
    (* store failure in memory *)
    modify (set_jobResultsMap (insert jobId
      (CachedJob.mk failed "" (Some fileName) None
                    (Some (exn_message error))))) ;;
    (* every branch of the tail throws *)
    throw
      (match exn_response error with
       | Some response =>
           BadRequestException
             (or_default (resp_detail response) "Extraction failed")
       | None =>
           if bool_decide (exn_code error = Some "ECONNREFUSED") then
             InternalServerErrorException
               "Python extraction service is not running. Please start the API service on port 8000."
           else if bool_decide (exn_code error = Some "ETIMEDOUT")
                   || bool_decide (exn_code error = Some "ECONNABORTED") then
             InternalServerErrorException
               "Request to Python service timed out. Please try again."
           else
             InternalServerErrorException "Document extraction failed"
       end)
  ).

(** The body of [for (const outputKey of keysToTry)]: [None] is a
    [continue] (or a caught error), [Some] the early [return]. *)
Fixpoint tryKeys (jobId fileName : string) (keysToTry : list string)
    : M (option ExtractionStatusResponse.t) :=
  match keysToTry with
  | [] => ret None
  | outputKey :: rest =>
      let* found :=
        try (
          let* exists_ := fileExists outputKey in
          if negb exists_ then ret None
          else
            let* jsonBuffer := getFileBuffer outputKey in
            let* data := parse jsonBuffer in
            (* store in memory for future requests *)
            modify (set_jobResultsMap (insert jobId
              (CachedJob.mk completed "" (Some fileName) (Some data) None))) ;;
            ret (Some (ExtractionStatusResponse.mk jobId completed (Some "")
                         (Some data) None))
        ) catch s3Error => (
          logger_warn ("Failed to fetch from S3 with key " +:+ outputKey
                       +:+ ": " +:+ exn_message s3Error) ;;
          ret None
        ) in
      match found with
      | Some r => ret (Some r)
      | None => tryKeys jobId fileName rest
      end
  end.

Definition getExtractionStatus (jobId : string)
    : M ExtractionStatusResponse.t :=
  try (
    (* check in-memory results first *)
    let* cache := gets jobResultsMap in
    match cache !! jobId with
    | Some cachedResult =>
        ret (ExtractionStatusResponse.mk jobId
               (CachedJob.status cachedResult)
               (Some (CachedJob.fileUrl cachedResult))
               (CachedJob.data cachedResult)
               (CachedJob.error cachedResult))
    | None =>
        (* try to get the job from the database to get fileName *)
        let* fileName :=
          try (
            let* dbJob := getExtractionJobById JSON_parse jobId in
            ret (ExtractedFile.fileName <$> dbJob)
          ) catch dbError => (
            logger_warn ("Failed to get job from DB: "
                         +:+ exn_message dbError) ;;
            ret None
          ) in
        (* try to fetch from S3 if we have fileName *)
        let* found :=
          match fileName with
          | Some (String c s) =>
              let fileName := String c s in
              tryKeys jobId fileName
                [ "output/" +:+ jobId +:+ "/" +:+ encodeURIComponent fileName
                  +:+ ".json";
                  "output/" +:+ jobId +:+ "/" +:+ fileName +:+ ".json" ]
          | _ => ret None
          end in
        match found with
        | Some r => ret r
        | None =>
            (* fallback to the Python API for any legacy jobs *)
            get_status jobId
        end
    end
  ) catch error => (
    logger_error ("Failed to get extraction status: "
                  +:+ exn_message error) ;;
    (* every branch of the tail throws *)
    throw
      (if bool_decide ((exn_response error ≫= resp_status) = Some 404) then
         BadRequestException "Job not found"
       else if bool_decide (exn_code error = Some "ECONNREFUSED") then
         InternalServerErrorException
           "Python extraction service is not running."
       else
         InternalServerErrorException "Failed to get extraction status")
  ).

Definition updateJobResult (jobId : string) (data : Json) (fileUrl : string)
    (fileName : option string) : M unit :=
  modify (set_jobResultsMap (insert jobId
    (CachedJob.mk completed fileUrl fileName (Some data) None))).

Definition getJobFromCache (jobId : string) : M (option CachedJob.t) :=
  let* cache := gets jobResultsMap in
  ret (cache !! jobId).

(** *** ExtractionController ([extraction.controller.ts]) *)

(** [POST extract].  [user_id] is [request.user?.id]; [target_language]
    and [preserve_names] are the fields of the DTO. *)
Definition extractDocument (file : option MulterFile.t)
    (target_language : option string) (preserve_names : option bool)
    (user_id : option string) : M ExtractionResponse.t :=
  match file with
  | None => throw (BadRequestException "No file uploaded")
  | Some file =>
      let userId := or_default user_id "test-user" in
      let targetLanguage := or_default target_language "en" in
      let preserveNames :=
        match preserve_names with Some false => false | _ => true end in
      let* extractionResult :=
        startExtraction (MulterFile.buffer file) (MulterFile.originalname file)
                        (MulterFile.mimetype file) userId targetLanguage
                        preserveNames in
      (* create job record in database (optional - won't fail extraction
         if DB is down) *)
      match ExtractionResponse.job_id extractionResult with
      | Some (String c s) =>
          let jobId := String c s in
          try (
            createExtractionJob userId (MulterFile.originalname file)
              (or_default (ExtractionResponse.file_url extractionResult) "")
              (Some jobId) ;;
            ret tt
          ) catch dbError => (
            logger_warn ("Failed to create job record in database: "
                         +:+ exn_message dbError)
          )
      | _ => ret tt
      end ;;
      ret extractionResult
  end.

(** [GET status/:jobId] *)
Definition controller_getExtractionStatus (jobId : string)
    : M ExtractionStatusResponse.t :=
  let* status := getExtractionStatus jobId in
  match ExtractionStatusResponse.status status with
  | completed | failed =>
      try (
        updateExtractionJob JSON_parse jobId
          (status_string (ExtractionStatusResponse.status status))
          (Some (match ExtractionStatusResponse.data status with
                 | Some d => if falsy (Some d) then JNull else d
                 | None => JNull
                 end))
          (match ExtractionStatusResponse.error status with
           | Some (String c s) => Some (String c s)
           | _ => None
           end) ;;
        ret tt
      ) catch dbError => (
        logger_warn ("Failed to update job record in database: "
                     +:+ exn_message dbError)
      )
  | _ => ret tt
  end ;;
  ret status.

(** [PUT :jobId].  [body] is [None] for a request without a body and
    [Some data], with [data] its [body.data], otherwise.  The answer is
    [{success, message}]. *)
Definition updateExtractionResult (jobId : string)
    (body : option (option Json)) : M (bool * string) :=
  (* the two log lines before [try] read [body.data] *)
  let* data :=
    match body with
    | Some data => ret data
    | None =>
        throw (Error "TypeError"
                 "Cannot read properties of undefined (reading 'data')"
                 None None)
    end in
  try (
    (* validate data *)
    let* data :=
      match data with
      | Some d =>
          if falsy (Some d) then
            logger_error "No data provided in request body" ;;
            throw (BadRequestException "No data provided")
          else ret d
      | None =>
          logger_error "No data provided in request body" ;;
          throw (BadRequestException "No data provided")
      end in
    (* get the job from database, or fall back to in-memory cache *)
    let* job := getExtractionJobById JSON_parse jobId in
    let* job :=
      match job with
      | Some job => ret (Some job)
      | None =>
          let* cachedJob := getJobFromCache jobId in
          match cachedJob with
          | Some cachedJob =>
              (* create job record in DB from cached data *)
              createExtractionJob "unknown" "unknown"
                (or_default (Some (CachedJob.fileUrl cachedJob)) "")
                (Some jobId) ;;
              getExtractionJobById JSON_parse jobId
          | None => ret None
          end
      end in
    match job with
    | None =>
        logger_error ("Job not found: " +:+ jobId) ;;
        throw (BadRequestException "Job not found")
    | Some job =>
        (* upload updated JSON to S3 (output folder) *)
        let fileName := ExtractedFile.fileName job in
        let outputKey :=
          "output/" +:+ jobId +:+ "/" +:+ encodeURIComponent fileName
          +:+ ".json" in
        let jsonBuffer := JSON_stringify data in
        uploadFile outputKey jsonBuffer "application/json"
          [("jobId", jobId); ("originalName", fileName); ("updated", "true")] ;;
        (* update database with new result *)
        updateExtractionJob JSON_parse jobId "completed" (Some data) None ;;
        (* update in-memory cache so subsequent status calls return
           updated data *)
        updateJobResult jobId data (ExtractedFile.fileUrl job)
                        (Some (ExtractedFile.fileName job)) ;;
        ret (true, "Extraction result updated successfully")
    end
  ) catch error => (
    logger_error ("Failed to update extraction result for job " +:+ jobId
                  +:+ ": " +:+ exn_message error) ;;
    throw (BadRequestException
             ("Failed to update extraction result: " +:+ exn_message error))
  ).

End Gateway.

(** ** Retrieval of the original ([storage.service.ts], and
    [GET original-file/:jobId] of the controller) *)

(** [s.split('/')] *)
Fixpoint split_slash (s : string) : list string :=
  match s with
  | EmptyString => [EmptyString]
  | String c s' =>
      if Ascii.eqb c "/" then EmptyString :: split_slash s'
      else match split_slash s' with
           | p :: ps => String c p :: ps
           | [] => [String c EmptyString]
           end
  end.

(** [parts.join('/')] *)
Fixpoint join_slash (parts : list string) : string :=
  match parts with
  | [] => EmptyString
  | p :: ps =>
      match ps with
      | [] => p
      | _ :: _ => p +:+ "/" +:+ join_slash ps
      end
  end.

Section Retrieval.

(** [new URL(url).pathname], which throws a [TypeError] on what is no URL,
    and [getSignedUrl(s3Client, new GetObjectCommand({Bucket, Key}),
    {expiresIn})] of the presigner. *)
Variable URL_pathname : string -> Exn + string.
Variable getSignedUrl : string -> string -> N -> Exn + string.
Variable JSON_parse : string -> Exn + Json.

(** Bucket names are ASCII, so [bucketName.length] counts their bytes. *)
Definition extractKeyFromUrl (url : string) : M string :=
  (* handle s3://bucket/key format *)
  if String.prefix "s3://" url then
    let parts := split_slash (replace_first "s3://" "" url) in
    ret (join_slash (tail parts))
  else
    (* handle full URL format *)
    match URL_pathname url with
    | inl e => throw e
    | inr p =>
        let pathname := substring_from 1 p in
        (* handle double-slash bug *)
        let pathname :=
          if String.prefix "/" pathname then substring_from 1 pathname
          else pathname in
        (* old path-style URLs where bucket is in the path *)
        let* bucketName := gets bucketName in
        let pathname :=
          if String.prefix (bucketName +:+ "/") pathname then
            substring_from (String.length bucketName + 1) pathname
          else pathname in
        ret pathname
    end.

Definition getSignedDownloadUrl (key : string) (expiresIn : N) : M string :=
  try (
    let* bucketName := gets bucketName in
    match getSignedUrl bucketName key expiresIn with
    | inl e => throw e
    | inr url => ret url
    end
  ) catch error => (
    logger_error ("Failed to generate signed URL: " +:+ exn_message error) ;;
    throw (new_Error ("Failed to generate signed URL: " +:+ exn_message error))
  ).

(** [GET original-file/:jobId]; the answer is [{url}], [None] for [null]. *)
Definition getOriginalFileUrl (jobId : string) : M (option string) :=
  try (
    (* get the job from database *)
    let* job := getExtractionJobById JSON_parse jobId in
    match job with
    | None => ret None
    | Some job =>
        (* get the file URL from the job *)
        match ExtractedFile.fileUrl job with
        | EmptyString => ret None
        | String c s =>
            let fileUrl := String c s in
            (* extract the key from the file URL and generate signed URL *)
            let* key := extractKeyFromUrl fileUrl in
            let* signedUrl := getSignedDownloadUrl key 3600 in
            ret (Some signedUrl)
        end
    end
  ) catch error => (
    logger_error ("Failed to get original file URL for job " +:+ jobId
                  +:+ ": " +:+ exn_message error) ;;
    ret None
  ).

End Retrieval.

(** ** Vocabulary of the specification *)

(** The id [startExtraction] generates in world [w]:
    [`job_${Date.now()}_${Math.random().toString(36).substring(7)}`]. *)
Definition generatedJobId (w : World) : string :=
  "job_" +:+ pretty (Date_now w) +:+ "_"
  +:+ substring_from 7 (match Math_random w with [] => "0" | r :: _ => r end).

(** Blob Store key conventions. *)
Definition originalKey (jobId fileName : string) : string :=
  "originals/" +:+ jobId +:+ "/" +:+ encodeURIComponent fileName.

Definition outputKey (jobId fileName : string) : string :=
  "output/" +:+ jobId +:+ "/" +:+ encodeURIComponent fileName +:+ ".json".

Definition legacyKey (jobId fileName : string) : string :=
  "output/" +:+ jobId +:+ "/" +:+ fileName +:+ ".json".

(** The locator [uploadFile] returns for a key. *)
Definition urlOf (w : World) (key : string) : string :=
  "https://" +:+ bucketName w +:+ "."
  +:+ replace_first "https://" "" (strip_trailing_slash (TIGRIS_ENDPOINT w))
  +:+ "/" +:+ key.

(** What a status poll answers from a cache entry. *)
Definition view (jobId : string) (e : CachedJob.t) : ExtractionStatusResponse.t :=
  ExtractionStatusResponse.mk jobId (CachedJob.status e)
    (Some (CachedJob.fileUrl e)) (CachedJob.data e) (CachedJob.error e).

(** The two shapes of a cache entry: completed with data and no error, or
    failed with an error and no data. *)
Definition terminal (e : CachedJob.t) : Prop :=
  (CachedJob.status e = completed ∧ is_Some (CachedJob.data e)
   ∧ CachedJob.error e = None)
  ∨ (CachedJob.status e = failed ∧ CachedJob.data e = None
     ∧ is_Some (CachedJob.error e)).

Definition cache_inv (c : gmap string CachedJob.t) : Prop :=
  ∀ j e, c !! j = Some e → terminal e.

(** The next [n] calls to a store are let through. *)
Fixpoint quiet (n : nat) (l : list (option Exn)) : Prop :=
  match n, l with
  | O, _ => True
  | S _, [] => True
  | S n', None :: l' => quiet n' l'
  | S _, Some _ :: _ => False
  end.

(** The exception classes the gateway surfaces. *)
Definition http_exception (e : Exn) : Prop :=
  match e with
  | BadRequestException _ | InternalServerErrorException _ => True
  | Error _ _ _ _ => False
  end.


Definition is_S3 (ev : Event) : bool :=
  match ev with
  | S3Put _ _ _ _ | S3Head _ | S3Get _ => true
  | _ => false
  end.

(** The requests of the HTTP surface, and the worlds a gateway process can
    be in: it starts with an empty [jobResultsMap]. *)
Inductive Request :=
| PostExtract (file : option MulterFile.t) (target_language : option string)
              (preserve_names : option bool) (user_id : option string)
| GetStatus (jobId : string)
| PutResult (jobId : string) (body : option (option Json)).

Definition handle (JSON_stringify : Json -> string)
    (JSON_parse : string -> Exn + Json) (rq : Request) (w : World) : World :=
  match rq with
  | PostExtract file tl pn uid =>
      snd (extractDocument JSON_stringify file tl pn uid w)
  | GetStatus jobId =>
      snd (controller_getExtractionStatus JSON_parse jobId w)
  | PutResult jobId body =>
      snd (updateExtractionResult JSON_stringify JSON_parse jobId body w)
  end.

Inductive reachable (JSON_stringify : Json -> string)
    (JSON_parse : string -> Exn + Json) : World -> Prop :=
| reachable_start w :
    jobResultsMap w = ∅ -> reachable JSON_stringify JSON_parse w
| reachable_step w rq :
    reachable JSON_stringify JSON_parse w ->
    reachable JSON_stringify JSON_parse (handle JSON_stringify JSON_parse rq w)
| reachable_outside w w' :
    (* the stores outside the process and the scripts may change at will *)
    reachable JSON_stringify JSON_parse w ->
    jobResultsMap w' = jobResultsMap w ->
    reachable JSON_stringify JSON_parse w'.

(** Cache-level triples: started with cache [c], computation [m] ends with
    an outcome and a cache that satisfy [Q]. *)
Definition cache_spec {A} (c : gmap string CachedJob.t) (m : M A)
    (Q : Outcome A -> gmap string CachedJob.t -> Prop) : Prop :=
  ∀ w, jobResultsMap w = c → Q (fst (m w)) (jobResultsMap (snd (m w))).

Definition keeps_cache {A} (m : M A) : Prop :=
  ∀ w, jobResultsMap (snd (m w)) = jobResultsMap w.

(** Every run of [m] takes a world to one related to it by [R]. *)
Definition steps {A} (R : World -> World -> Prop) (m : M A) : Prop :=
  forall w, R w (snd (m w)).

(** Whatever [m] throws satisfies [P]. *)
Definition throws_only {A} (P : Exn -> Prop) (m : M A) : Prop :=
  forall w e, fst (m w) = Throw e -> P e.

(** The creation-time columns of a row. *)
Definition same_columns (r r' : Row.t) : Prop :=
  Row.id r' = Row.id r /\ Row.userId r' = Row.userId r
  /\ Row.fileName r' = Row.fileName r /\ Row.fileUrl r' = Row.fileUrl r.

(** Nothing is lost from [w] to [w']: every blob, every row and every cache
    entry is still there, and a row has kept its creation-time columns. *)
Definition persists (w w' : World) : Prop :=
  (forall k, is_Some (bucket w !! k) -> is_Some (bucket w' !! k))
  /\ (forall j r, extractionJobs w !! j = Some r ->
        exists r', extractionJobs w' !! j = Some r' /\ same_columns r r')
  /\ (forall j, is_Some (jobResultsMap w !! j) ->
        is_Some (jobResultsMap w' !! j)).

(** A string without a slash, as a path segment has to be. *)
Fixpoint no_slash (s : string) : bool :=
  match s with
  | EmptyString => true
  | String c s' => negb (Ascii.eqb c "/") && no_slash s'
  end.

(** All characters of a string pass [uriUnreserved]. *)
Fixpoint all_unreserved (s : string) : bool :=
  match s with
  | EmptyString => true
  | String c s' => uriUnreserved c && all_unreserved s'
  end.

(** ** A concrete setting, for running the model *)

(** A stand-in codec that keeps string payloads only. *)
Definition demo_stringify (v : Json) : string :=
  match v with JString s => s | _ => "?" end.

Definition demo_parse (text : string) : Exn + Json :=
  if String.eqb text "?" then
    inl (Error "SyntaxError" "Unexpected token ? in JSON" None None)
  else inr (JString text).

Definition world0 : World :=
  mkWorld ∅ ∅ ∅ "udayam-files" "https://t3.storage.dev/" [] [] [] []
          1700000000000 ["0.4fzyo82mvyr"] [] [].

Definition J0 : string := "job_1700000000000_82mvyr".

(** S3 is down. *)
Definition w_upload_down : World :=
  set_s3_faults [Some (Error "TimeoutError" "socket hang up" None None)] world0.

(** The engine answers one table-less result. *)
Definition w_engine_ok : World :=
  set_extract_replies [inr (JString "T")] world0.

(** The engine times out. *)
Definition w_engine_timeout : World :=
  set_extract_replies
    [inl (Error "AxiosError" "timeout of 600000ms exceeded"
                (Some "ECONNABORTED") None)] world0.

(** The engine's port refuses the connection; the error has no message. *)
Definition w_engine_refused : World :=
  set_extract_replies
    [inl (Error "AggregateError" "" (Some "ECONNREFUSED") None)] world0.

(** The engine answers, the database refuses the insert. *)
Definition w_db_down : World :=
  set_db_faults
    [Some (Error "PostgresError" "connect ECONNREFUSED" (Some "ECONNREFUSED")
                 None)] w_engine_ok.

(** After [startExtraction] of ["a b.pdf"] in [w_engine_ok]: the job is in
    the cache and in the bucket, and there is no durable record. *)
Definition w_cached : World :=
  snd (startExtraction demo_stringify "PDF" "a b.pdf" "application/pdf" "u1"
                       "en" true w_engine_ok).

Definition row0 : Row.t :=
  Row.mk J0 "u1" "a b.pdf" "https://udayam-files.t3.storage.dev/originals/a"
         "pending" None None.

(** A job of an older deployment: a durable record, the result under the
    legacy key only, nothing in the cache. *)
Definition w_legacy : World :=
  set_bucket (insert (legacyKey J0 "a b.pdf") "T")
    (set_extractionJobs (insert J0 row0) world0).

(** A job with a durable record, and a database that answers the select
    and fails the update. *)
Definition w_update_fails : World :=
  set_db_faults
    [None; Some (Error "PostgresError" "connection terminated" None None)]
    (set_extractionJobs (insert J0 row0) w_cached).

(** A job with a durable record and a stored result, not in the cache; the
    database answers the select and fails the update. *)
Definition w_uncached : World :=
  set_db_faults
    [None; Some (Error "PostgresError" "connection terminated" None None)]
    (set_bucket (insert (outputKey J0 "a b.pdf") "T")
       (set_extractionJobs (insert J0 row0) world0)).

(** A job with a durable record and all stores up. *)
Definition w_recorded : World :=
  set_extractionJobs (insert J0 row0) w_cached.

(** The engine answers [null]. *)
Definition w_engine_null : World := set_extract_replies [inr JNull] world0.

(** S3 takes the original and fails on the result. *)
Definition w_result_upload_down : World :=
  set_s3_faults [None; Some (Error "TimeoutError" "socket hang up" None None)]
    w_engine_ok.

(** The database is down and the engine knows the job as processing. *)
Definition w_poll_db_down : World :=
  set_db_faults
    [Some (Error "PostgresError" "connection terminated" None None)]
    (set_status_replies
       [inr (ExtractionStatusResponse.mk J0 processing None None None)]
       world0).

(** The legacy job, with an object under the encoded key that is no JSON. *)
Definition w_garbled : World :=
  set_bucket (insert (outputKey J0 "a b.pdf") "?") w_legacy.

(** The legacy job, with S3 failing on the first call. *)
Definition w_head_fails : World :=
  set_s3_faults [Some (Error "TimeoutError" "socket hang up" None None)]
    w_legacy.

(** The engine does not know the job. *)
Definition w_engine_404 : World :=
  set_status_replies
    [inl (Error "AxiosError" "Request failed with status code 404"
                (Some "ERR_BAD_REQUEST")
                (Some (mkErrorResponse (Some 404) (Some "Job not found"))))]
    world0.

(** The engine knows the job as pending. *)
Definition w_engine_pending : World :=
  set_status_replies
    [inr (ExtractionStatusResponse.mk J0 pending None None None)] world0.

(** A job that failed at the upload, with a durable record. *)
Definition w_failed_recorded : World :=
  set_extractionJobs (insert J0 row0)
    (snd (startExtraction demo_stringify "PDF" "a b.pdf" "application/pdf"
            "u1" "en" true w_upload_down)).

(** The recorded job, with the database down. *)
Definition w_recorded_db_down : World :=
  set_db_faults
    [Some (Error "PostgresError" "connection terminated" None None)]
    w_recorded.

Definition file0 : MulterFile.t :=
  MulterFile.mk "PDF" "a b.pdf" "application/pdf".

(** After [POST extract] of [file0] in [w_engine_ok]. *)
Definition w_extracted : World :=
  snd (extractDocument demo_stringify (Some file0) None None (Some "u1")
         w_engine_ok).

(** Stand-ins for the URL parser and the presigner: the path of an
    [https] URL is what follows the host, and a signed URL is bucket and
    key with a mark. *)
Definition demo_URL_pathname (url : string) : Exn + string :=
  if String.prefix "https://" url then
    inr ("/" +:+ join_slash (tail (split_slash (substring_from 8 url))))
  else inl (Error "TypeError" "Invalid URL" (Some "ERR_INVALID_URL") None).

Definition demo_getSignedUrl (bucketName key : string) (expiresIn : N)
    : Exn + string :=
  inr ("https://" +:+ bucketName +:+ ".t3.storage.dev/" +:+ key
       +:+ "?X-Amz-Expires=" +:+ pretty expiresIn).

(** ** Proof machinery *)

#[local] Arguments String.append : simpl never.
#[local] Arguments pretty : simpl never.
#[local] Arguments encodeURIComponent : simpl never.
#[local] Arguments replace_first : simpl never.
#[local] Arguments strip_trailing_slash : simpl never.
#[local] Arguments substring_from : simpl never.

(** Unfold the model and the vocabulary everywhere. *)
Ltac run :=
  cbv [startExtraction getExtractionStatus tryKeys updateJobResult
       getJobFromCache extractDocument controller_getExtractionStatus
       updateExtractionResult parse read_tables post_extract get_status
       next_random next_uuid createExtractionJob updateExtractionJob
       getExtractionJobById uploadFile getFileBuffer getFileStream fileExists
       send_PutObjectCommand send_GetObjectCommand send_HeadObjectCommand
       next_s3_fault next_db_fault emit logger_warn logger_error
       bind ret throw try_catch gets modify
       set_jobResultsMap set_bucket set_extractionJobs set_s3_faults
       set_db_faults set_extract_replies set_status_replies set_Math_random
       set_uuids set_trace
       jobResultsMap bucket extractionJobs bucketName TIGRIS_ENDPOINT
       s3_faults db_faults extract_replies status_replies Date_now
       Math_random uuids trace
       generatedJobId originalKey outputKey legacyKey urlOf view new_Error
       exn_message exn_response exn_code exn_name ECONNREFUSED quiet
       resp_status resp_detail selected negb
       ExtractedFile.id ExtractedFile.fileName ExtractedFile.fileUrl
       ExtractedFile.status ExtractedFile.error ExtractedFile.result
       Row.id Row.userId Row.fileName Row.fileUrl Row.status Row.result
       Row.error
       CachedJob.status CachedJob.fileUrl CachedJob.fileName CachedJob.data
       CachedJob.error
       ExtractionResponse.job_id ExtractionResponse.file_url
       ExtractionResponse.data
       ExtractionStatusResponse.job_id ExtractionStatusResponse.status
       ExtractionStatusResponse.file_url ExtractionStatusResponse.data
       ExtractionStatusResponse.error
       MulterFile.buffer MulterFile.originalname MulterFile.mimetype
       fmap option_fmap option_map mbind option_bind fst snd] in *.

(** The same normal form, of one term. *)
Ltac nf t :=
  eval cbv
    [startExtraction getExtractionStatus tryKeys updateJobResult
     getJobFromCache extractDocument controller_getExtractionStatus
     updateExtractionResult parse read_tables post_extract get_status
     next_random next_uuid createExtractionJob updateExtractionJob
     getExtractionJobById uploadFile getFileBuffer getFileStream fileExists
     send_PutObjectCommand send_GetObjectCommand send_HeadObjectCommand
     next_s3_fault next_db_fault emit logger_warn logger_error
     bind ret throw try_catch gets modify
     set_jobResultsMap set_bucket set_extractionJobs set_s3_faults
     set_db_faults set_extract_replies set_status_replies set_Math_random
     set_uuids set_trace
     jobResultsMap bucket extractionJobs bucketName TIGRIS_ENDPOINT
     s3_faults db_faults extract_replies status_replies Date_now
     Math_random uuids trace
     generatedJobId originalKey outputKey legacyKey urlOf view new_Error
     exn_message exn_response exn_code exn_name ECONNREFUSED quiet
     resp_status resp_detail selected negb
     ExtractedFile.id ExtractedFile.fileName ExtractedFile.fileUrl
     ExtractedFile.status ExtractedFile.error ExtractedFile.result
     Row.id Row.userId Row.fileName Row.fileUrl Row.status Row.result
     Row.error
     CachedJob.status CachedJob.fileUrl CachedJob.fileName CachedJob.data
     CachedJob.error
     ExtractionResponse.job_id ExtractionResponse.file_url
     ExtractionResponse.data
     ExtractionStatusResponse.job_id ExtractionStatusResponse.status
     ExtractionStatusResponse.file_url ExtractionStatusResponse.data
     ExtractionStatusResponse.error
     MulterFile.buffer MulterFile.originalname MulterFile.mimetype
     fmap option_fmap option_map mbind option_bind fst snd] in t.

(** Weak-head evaluation of a run: it stops at the first scrutinee the
    hypotheses do not determine. *)
Ltac whnf t :=
  eval lazy head beta iota zeta delta
    [startExtraction getExtractionStatus tryKeys updateJobResult
     getJobFromCache extractDocument controller_getExtractionStatus
     updateExtractionResult parse read_tables post_extract get_status
     next_random next_uuid createExtractionJob updateExtractionJob
     getExtractionJobById uploadFile getFileBuffer getFileStream fileExists
     send_PutObjectCommand send_GetObjectCommand send_HeadObjectCommand
     next_s3_fault next_db_fault emit logger_warn logger_error
     bind ret throw try_catch gets modify
     set_jobResultsMap set_bucket set_extractionJobs set_s3_faults
     set_db_faults set_extract_replies set_status_replies set_Math_random
     set_uuids set_trace
     jobResultsMap bucket extractionJobs bucketName TIGRIS_ENDPOINT
     s3_faults db_faults extract_replies status_replies Date_now
     Math_random uuids trace
     ExtractionResponse.job_id ExtractionResponse.file_url
     ExtractionStatusResponse.status ExtractionStatusResponse.data
     ExtractionStatusResponse.error
     generatedJobId String.append or_default
     exn_name negb fmap option_fmap option_map fst snd] in t.

Ltac app_head t :=
  lazymatch t with
  | ?f _ => app_head f
  | _ => t
  end.

Ltac head_scrut t :=
  let h := app_head t in
  lazymatch h with
  | match ?x with _ => _ end => head_scrut x
  | _ => t
  end.

(** Settle a scrutinee: by a hypothesis that gives its value, or by cases. *)
Ltac settle x E :=
  first
    [ match goal with H : x = _ |- _ => rewrite H in E end
    | lazymatch x with
      | <[?k:=?v]> ?m !! ?k => rewrite (lookup_insert_eq m k v) in E
      end
    | lazymatch x with
      | ?m !! _ =>
          match goal with
          | H : m !! ?k = _ |- _ => change x with (m !! k) in E; rewrite H in E
          end
      end
    | is_var x; destruct x
    | destruct x eqn:? ];
  cbn [quiet] in *; try contradiction; try discriminate.

Ltac exec_step E :=
  lazymatch type of E with
  | (_, _) = _ => fail
  | ?t = ?rhs =>
      let t' := whnf t in
      lazymatch t' with
      | (_, _) => change (t' = rhs) in E
      | _ =>
          let x := head_scrut t' in
          let x' := nf x in
          change (t' = rhs) in E; change x with x' in E; settle x' E
      end
  end.

(** [E : m w = (o, w')], with [w] a record of variables and [m w] unfolded
    by [run] (read back from an unevaluated term, the weak-head form loses
    its sharing). *)
Ltac exec E := repeat exec_step E.

Ltac finish :=
  eexists; split; [reflexivity|]; run;
  repeat split; rewrite <- ?app_assoc; reflexivity.

(** A goal [exists w', m w = (o, w') /\ ...] along one path of [m]. *)
Ltac forward w :=
  destruct w as [cache b db bn ep s3f dbf er sr now rnd uu tr];
  run; subst;
  lazymatch goal with
  | |- exists w', ?t = _ /\ _ =>
      let E := fresh "E" in
      destruct t as [? ?] eqn:E; exec E; simplify_eq; finish
  end.

(** *** Rules of the cache-level triples *)

Lemma run_eta {A} (m : M A) (w : World) : m w = (fst (m w), snd (m w)).
Proof. destruct (m w); reflexivity. Qed.

Lemma run_pair {A} (m : M A) w o : fst (m w) = o -> m w = (o, snd (m w)).
Proof. intros <-. apply run_eta. Qed.

Lemma cs_ret {A} c (a : A) Q : Q (Return a) c -> cache_spec c (ret a) Q.
Proof. intros HQ w <-. exact HQ. Qed.

Lemma cs_throw {A} c e (Q : Outcome A -> _ -> Prop) :
  Q (Throw e) c -> cache_spec c (throw e) Q.
Proof. intros HQ w <-. exact HQ. Qed.

Lemma cs_gets {A} c (f : World -> A) Q :
  (forall w, jobResultsMap w = c -> Q (Return (f w)) c) ->
  cache_spec c (gets f) Q.
Proof. intros HQ w Hw. simpl. rewrite Hw. auto. Qed.

Lemma cs_bind {A B} c (m : M A) (k : A -> M B) Q :
  cache_spec c m (fun o c1 =>
    match o with
    | Return a => cache_spec c1 (k a) Q
    | Throw e => Q (Throw e) c1
    end) ->
  cache_spec c (bind m k) Q.
Proof.
  intros Hm w Hw. specialize (Hm w Hw). unfold bind.
  destruct (m w) as [[a|e] w1]; simpl in *; auto.
Qed.

Lemma cs_try {A} c (b : M A) (h : Exn -> M A) Q :
  cache_spec c b (fun o c1 =>
    match o with
    | Return a => Q (Return a) c1
    | Throw e => cache_spec c1 (h e) Q
    end) ->
  cache_spec c (try_catch b h) Q.
Proof.
  intros Hb w Hw. specialize (Hb w Hw). unfold try_catch.
  destruct (b w) as [[a|e] w1]; simpl in *; auto.
Qed.

Lemma cs_keeps {A} c (m : M A) Q :
  keeps_cache m -> (forall o, Q o c) -> cache_spec c m Q.
Proof. intros Hk HQ w Hw. rewrite Hk, Hw. apply HQ. Qed.

Lemma cs_insert c j e Q :
  Q (Return tt) (<[j:=e]> c) ->
  cache_spec c (modify (set_jobResultsMap (insert j e))) Q.
Proof. intros HQ w Hw. simpl. rewrite Hw. exact HQ. Qed.

Lemma cs_emit c ev Q : Q (Return tt) c -> cache_spec c (emit ev) Q.
Proof. intros HQ w Hw. simpl. rewrite Hw. exact HQ. Qed.

Lemma cs_mono {A} c (m : M A) (Q Q' : Outcome A -> _ -> Prop) :
  cache_spec c m Q -> (forall o c', Q o c' -> Q' o c') -> cache_spec c m Q'.
Proof. intros Hm HQ w Hw. apply HQ, Hm, Hw. Qed.

Lemma cs_run {A} c (m : M A) Q w o w' :
  cache_spec c m Q -> jobResultsMap w = c -> m w = (o, w') ->
  Q o (jobResultsMap w').
Proof. intros Hm Hw E. specialize (Hm w Hw). rewrite E in Hm. exact Hm. Qed.

(** *** What leaves the cache alone *)

Lemma keeps_ret {A} (a : A) : keeps_cache (ret a).
Proof. intros w; reflexivity. Qed.

Lemma keeps_throw {A} e : keeps_cache (@throw A e).
Proof. intros w; reflexivity. Qed.

Lemma keeps_gets {A} (f : World -> A) : keeps_cache (gets f).
Proof. intros w; reflexivity. Qed.

Ltac keeps_by_exec :=
  intros [cache b db bn ep s3f dbf er sr now rnd uu tr];
  lazymatch goal with
  | |- jobResultsMap (snd ?t) = _ =>
      let E := fresh "E" in
      destruct t as [? ?] eqn:E; run; exec E; simplify_eq; reflexivity
  end.

Lemma keeps_emit ev : keeps_cache (emit ev).
Proof. keeps_by_exec. Qed.

Lemma keeps_uploadFile key buffer contentType metadata :
  keeps_cache (uploadFile key buffer contentType metadata).
Proof. keeps_by_exec. Qed.

Lemma keeps_getFileBuffer key : keeps_cache (getFileBuffer key).
Proof. keeps_by_exec. Qed.

Lemma keeps_fileExists key : keeps_cache (fileExists key).
Proof. keeps_by_exec. Qed.

Lemma keeps_createExtractionJob userId fileName fileUrl jobId :
  keeps_cache (createExtractionJob userId fileName fileUrl jobId).
Proof. keeps_by_exec. Qed.

Lemma keeps_updateExtractionJob JSON_parse jobId status result error :
  keeps_cache (updateExtractionJob JSON_parse jobId status result error).
Proof. keeps_by_exec. Qed.

Lemma keeps_getExtractionJobById JSON_parse jobId :
  keeps_cache (getExtractionJobById JSON_parse jobId).
Proof. keeps_by_exec. Qed.

Lemma keeps_post_extract fileName mimeType targetLanguage preserve_names :
  keeps_cache (post_extract fileName mimeType targetLanguage preserve_names).
Proof. keeps_by_exec. Qed.

Lemma keeps_get_status jobId : keeps_cache (get_status jobId).
Proof. keeps_by_exec. Qed.

Lemma keeps_next_random : keeps_cache next_random.
Proof. keeps_by_exec. Qed.

Lemma keeps_read_tables d : keeps_cache (read_tables d).
Proof. keeps_by_exec. Qed.

Lemma keeps_parse JSON_parse text : keeps_cache (parse JSON_parse text).
Proof. keeps_by_exec. Qed.

Create HintDb keeps.
#[local] Hint Resolve keeps_ret keeps_throw keeps_gets keeps_emit
  keeps_uploadFile keeps_getFileBuffer keeps_fileExists
  keeps_createExtractionJob keeps_updateExtractionJob
  keeps_getExtractionJobById keeps_post_extract keeps_get_status
  keeps_next_random keeps_read_tables keeps_parse : keeps.

(** Walk down a computation, one construct at a time; a call that leaves the
    cache alone is crossed in one step, whatever it returns or throws. *)
Ltac walk_step :=
  lazymatch goal with
  | |- cache_spec _ (bind _ _) _ => apply cs_bind
  | |- cache_spec _ (try_catch _ _) _ => apply cs_try
  | |- cache_spec _ (ret _) _ => apply cs_ret
  | |- cache_spec _ (throw _) _ => apply cs_throw
  | |- cache_spec _ (modify (set_jobResultsMap (insert _ _))) _ =>
      apply cs_insert
  | |- cache_spec _ (gets _) _ => apply cs_gets; intros ? ?
  | |- cache_spec _ (emit _) _ => apply cs_emit
  | |- cache_spec _ (logger_warn _) _ => apply cs_emit
  | |- cache_spec _ (logger_error _) _ => apply cs_emit
  | |- cache_spec _ (match ?x with _ => _ end) _ => destruct x
  | |- cache_spec _ _ _ =>
      apply cs_keeps;
      [ solve [ unfold logger_warn, logger_error; auto with keeps ]
      | intros [?|?] ]
  end.

Ltac walk := repeat walk_step.

Ltac unfold_gateway :=
  cbv [extractDocument startExtraction controller_getExtractionStatus
       getExtractionStatus tryKeys updateExtractionResult updateJobResult
       getJobFromCache].

Lemma cache_inv_insert c j e :
  cache_inv c -> terminal e -> cache_inv (<[j:=e]> c).
Proof.
  intros Hc He j' e'. rewrite lookup_insert. case_decide.
  - intros [= <-]. exact He.
  - apply Hc.
Qed.

Lemma terminal_completed url fn d :
  terminal (CachedJob.mk completed url fn (Some d) None).
Proof. left. simpl. eauto. Qed.

Lemma terminal_failed url fn msg :
  terminal (CachedJob.mk failed url fn None (Some msg)).
Proof. right. simpl. eauto. Qed.

#[local] Hint Resolve cache_inv_insert terminal_completed terminal_failed : core.

Lemma or_default_empty s : or_default (Some s) "" = s.
Proof. destruct s; reflexivity. Qed.

Lemma originalKey_not_output jobId fileName jobId' fileName' :
  originalKey jobId fileName <> outputKey jobId' fileName'.
Proof. unfold originalKey, outputKey. cbv [String.append]. discriminate. Qed.

(** ** Properties *)

Section Properties.

Variable JSON_stringify : Json -> string.
Variable JSON_parse : string -> Exn + Json.

(** *** A cache hit *)

Lemma getExtractionStatus_hit jobId w e :
  jobResultsMap w !! jobId = Some e ->
  getExtractionStatus JSON_parse jobId w = (Return (view jobId e), w).
Proof.
  destruct w as [cache b db bn ep s3f dbf er sr now rnd uu tr].
  intros H. run. rewrite H. reflexivity.
Qed.

(** *** Every write to the cache stores a terminal entry *)

Lemma startExtraction_cache_inv c fileBuffer fileName mimeType userId lang pn :
  cache_inv c ->
  cache_spec c
    (startExtraction JSON_stringify fileBuffer fileName mimeType userId lang pn)
    (fun _ c' => cache_inv c').
Proof. intros Hc. unfold_gateway. walk; auto. Qed.

Lemma getExtractionStatus_cache_inv c jobId :
  cache_inv c ->
  cache_spec c (getExtractionStatus JSON_parse jobId)
             (fun _ c' => cache_inv c').
Proof. intros Hc. unfold_gateway. walk; auto. Qed.

Lemma updateJobResult_cache_inv c jobId data fileUrl fileName :
  cache_inv c ->
  cache_spec c (updateJobResult jobId data fileUrl fileName)
             (fun _ c' => cache_inv c').
Proof. intros Hc. unfold_gateway. walk; auto. Qed.

Lemma extractDocument_cache_inv c file tl pn uid :
  cache_inv c ->
  cache_spec c (extractDocument JSON_stringify file tl pn uid)
             (fun _ c' => cache_inv c').
Proof. intros Hc. unfold_gateway. walk; auto. Qed.

Lemma controller_getExtractionStatus_cache_inv c jobId :
  cache_inv c ->
  cache_spec c (controller_getExtractionStatus JSON_parse jobId)
             (fun _ c' => cache_inv c').
Proof. intros Hc. unfold_gateway. walk; auto. Qed.

Lemma updateExtractionResult_cache_inv c jobId body :
  cache_inv c ->
  cache_spec c (updateExtractionResult JSON_stringify JSON_parse jobId body)
             (fun _ c' => cache_inv c').
Proof. intros Hc. unfold_gateway. walk; auto. Qed.

Lemma reachable_cache_inv w :
  reachable JSON_stringify JSON_parse w -> cache_inv (jobResultsMap w).
Proof.
  induction 1 as [w H0|w rq _ IH|w w' _ IH E].
  - rewrite H0. intros j e. rewrite lookup_empty. discriminate.
  - destruct rq; simpl.
    + exact (extractDocument_cache_inv _ _ _ _ _ IH w eq_refl).
    + exact (controller_getExtractionStatus_cache_inv _ _ IH w eq_refl).
    + exact (updateExtractionResult_cache_inv _ _ _ IH w eq_refl).
  - rewrite E. exact IH.
Qed.

(** C10: in every world a gateway process can reach, each entry of
    [jobResultsMap] is terminal: its status is [completed] or [failed], a
    completed entry carries data and no error, a failed one an error and no
    data.  Each of the service's writes keeps it so (the success and the
    failure path of [startExtraction], the blob fallback of
    [getExtractionStatus], [updateJobResult]).  Hence a status poll that
    hits the cache answers with the entry as it is, never [pending] nor
    [processing]. *)
Theorem cache_entries_terminal w :
  reachable JSON_stringify JSON_parse w ->
  cache_inv (jobResultsMap w)
  /\ (forall fileBuffer fileName mimeType userId lang pn,
        cache_inv (jobResultsMap (snd
          (startExtraction JSON_stringify fileBuffer fileName mimeType userId
                           lang pn w))))
  /\ (forall jobId,
        cache_inv (jobResultsMap (snd (getExtractionStatus JSON_parse jobId w))))
  /\ (forall jobId data fileUrl fileName,
        cache_inv (jobResultsMap (snd
          (updateJobResult jobId data fileUrl fileName w))))
  /\ (forall jobId e,
        jobResultsMap w !! jobId = Some e ->
        exists st,
          getExtractionStatus JSON_parse jobId w = (Return st, w)
          /\ ((ExtractionStatusResponse.status st = completed
               /\ is_Some (ExtractionStatusResponse.data st)
               /\ ExtractionStatusResponse.error st = None)
              \/ (ExtractionStatusResponse.status st = failed
                  /\ ExtractionStatusResponse.data st = None
                  /\ is_Some (ExtractionStatusResponse.error st)))).
Proof.
  intros Hr. pose proof (reachable_cache_inv w Hr) as Hc.
  split; [exact Hc|]. split; [|split; [|split]].
  - intros. exact (startExtraction_cache_inv _ _ _ _ _ _ _ Hc w eq_refl).
  - intros. exact (getExtractionStatus_cache_inv _ _ Hc w eq_refl).
  - intros. exact (updateJobResult_cache_inv _ _ _ _ _ Hc w eq_refl).
  - intros jobId e He. exists (view jobId e).
    split; [exact (getExtractionStatus_hit _ _ _ He)|].
    exact (Hc _ _ He).
Qed.

(** *** Step 1 fails *)

(** C1 (as amended): when persisting the original document fails,
    [startExtraction] aborts before the engine is called and without
    writing any blob, and an [InternalServerErrorException] reaches the
    caller; the catch block has recorded a [failed] entry for the generated
    job id, with an empty [fileUrl] and the storage error as [error], and a
    status poll for that id answers [failed] from the cache. *)
Theorem startExtraction_upload_failure
    fileBuffer fileName mimeType userId lang pn w e l :
  s3_faults w = Some e :: l ->
  let jobId := generatedJobId w in
  let msg := "Failed to upload file: " +:+ exn_message e in
  exists w',
    startExtraction JSON_stringify fileBuffer fileName mimeType userId lang pn w
    = (Throw (InternalServerErrorException "Document extraction failed"), w')
    /\ jobResultsMap w'
       = <[jobId := CachedJob.mk failed "" (Some fileName) None (Some msg)]>
           (jobResultsMap w)
    /\ bucket w' = bucket w
    /\ extractionJobs w' = extractionJobs w
    /\ trace w'
       = (trace w ++
          [S3Put (originalKey jobId fileName) fileBuffer mimeType
             [("userId", userId); ("originalName", fileName); ("jobId", jobId)];
           LogError msg;
           LogError ("Extraction failed for job " +:+ jobId +:+ ": " +:+ msg)])%list
    /\ getExtractionStatus JSON_parse jobId w'
       = (Return (ExtractionStatusResponse.mk jobId failed (Some "") None
                    (Some msg)), w').
Proof.
  intros Hs3 jobId msg.
  destruct w as [cache b db bn ep s3f dbf er sr now rnd uu tr].
  subst jobId msg. run. subst.
  lazymatch goal with
  | |- exists w', ?t = _ /\ _ => destruct t as [? ?] eqn:E
  end.
  exec E; simplify_eq.
  all: eexists; split; [reflexivity|]; run;
    repeat split; rewrite <- ?app_assoc; try reflexivity.
  all: rewrite lookup_insert_eq; reflexivity.
Qed.

(** *** A successful extraction *)

Lemma startExtraction_Return_inv
    fileBuffer fileName mimeType userId lang pn w r w' :
  startExtraction JSON_stringify fileBuffer fileName mimeType userId lang pn w
  = (Return r, w') ->
  let jobId := generatedJobId w in
  let url := urlOf w (originalKey jobId fileName) in
  exists d,
    d <> JNull
    /\ r = ExtractionResponse.mk true "Extraction completed" (Some jobId)
                                 (Some url) d
    /\ w' = set_trace (fun t =>
              t ++ [S3Put (originalKey jobId fileName) fileBuffer mimeType
                      [("userId", userId); ("originalName", fileName);
                       ("jobId", jobId)];
                    EngineExtract fileName mimeType lang (bool_toString pn);
                    S3Put (outputKey jobId fileName) (JSON_stringify d)
                      "application/json"
                      [("userId", userId); ("originalName", fileName);
                       ("jobId", jobId)]])%list
           (set_jobResultsMap
              (insert jobId (CachedJob.mk completed url (Some fileName)
                                          (Some d) None))
           (set_bucket
              (fun b => <[outputKey jobId fileName := JSON_stringify d]>
                          (<[originalKey jobId fileName := fileBuffer]> b))
           (set_s3_faults (tail (tail (s3_faults w)))
           (set_extract_replies (tail (extract_replies w))
           (set_Math_random (tail (Math_random w)) w))))).
Proof.
  intros E jobId url. subst jobId url.
  destruct w as [cache b db bn ep s3f dbf er sr now rnd uu tr].
  run. exec E; simplify_eq.
  all: eexists; split; [|split; [reflexivity|]];
    [congruence|run; rewrite <- ?app_assoc; reflexivity].
Qed.

(** C2: after a successful [startExtraction], a status poll for the
    returned job id in the world it left answers [completed], with the
    very result (and file URL) [startExtraction] returned, from the cache
    and without touching the world. *)
Theorem getStatus_after_startExtraction
    fileBuffer fileName mimeType userId lang pn w r w' :
  startExtraction JSON_stringify fileBuffer fileName mimeType userId lang pn w
  = (Return r, w') ->
  exists jobId,
    ExtractionResponse.job_id r = Some jobId
    /\ getExtractionStatus JSON_parse jobId w'
       = (Return (ExtractionStatusResponse.mk jobId completed
                    (ExtractionResponse.file_url r)
                    (Some (ExtractionResponse.data r)) None), w').
Proof.
  intros H. destruct (startExtraction_Return_inv _ _ _ _ _ _ _ _ _ H)
    as (d & _ & -> & ->).
  eexists. split; [reflexivity|]. simpl.
  apply (getExtractionStatus_hit _ _
           (CachedJob.mk completed _ (Some fileName) (Some d) None)).
  simpl. apply lookup_insert_eq.
Qed.

(** *** The engine call fails *)

(** C4 (as amended): when the original upload goes through and the engine
    call fails with error [e], [startExtraction] records [{status: failed,
    error: e.message}] in the cache and throws a Nest HTTP exception; the
    only S3 call made is the upload of the original, no object under an
    [output/] key of that job is written, and a status poll answers
    [failed] with [e.message] as its error, be it empty or not. *)
Theorem startExtraction_engine_failure
    fileBuffer fileName mimeType userId lang pn w e rest :
  quiet 1 (s3_faults w) ->
  extract_replies w = inl e :: rest ->
  let jobId := generatedJobId w in
  exists thrown w',
    startExtraction JSON_stringify fileBuffer fileName mimeType userId lang pn w
    = (Throw thrown, w')
    /\ http_exception thrown
    /\ jobResultsMap w'
       = <[jobId := CachedJob.mk failed "" (Some fileName) None
                      (Some (exn_message e))]> (jobResultsMap w)
    /\ bucket w' = <[originalKey jobId fileName := fileBuffer]> (bucket w)
    /\ (forall fn, bucket w' !! outputKey jobId fn = bucket w !! outputKey jobId fn)
    /\ filter is_S3 (drop (length (trace w)) (trace w'))
       = [S3Put (originalKey jobId fileName) fileBuffer mimeType
            [("userId", userId); ("originalName", fileName); ("jobId", jobId)]]
    /\ exists st,
         getExtractionStatus JSON_parse jobId w' = (Return st, w')
         /\ ExtractionStatusResponse.status st = failed
         /\ ExtractionStatusResponse.data st = None
         /\ ExtractionStatusResponse.error st = Some (exn_message e).
Proof.
  intros Hs3 Her jobId.
  assert (H : exists thrown w',
    startExtraction JSON_stringify fileBuffer fileName mimeType userId lang pn w
    = (Throw thrown, w')
    /\ http_exception thrown
    /\ jobResultsMap w'
       = <[jobId := CachedJob.mk failed "" (Some fileName) None
                      (Some (exn_message e))]> (jobResultsMap w)
    /\ bucket w' = <[originalKey jobId fileName := fileBuffer]> (bucket w)
    /\ filter is_S3 (drop (length (trace w)) (trace w'))
       = [S3Put (originalKey jobId fileName) fileBuffer mimeType
            [("userId", userId); ("originalName", fileName); ("jobId", jobId)]]).
  { subst jobId. destruct w as [cache b db bn ep s3f dbf er sr now rnd uu tr].
    run. subst.
    lazymatch goal with
    | |- exists thrown w', ?t = _ /\ _ => destruct t as [? ?] eqn:E
    end.
    exec E; simplify_eq.
    all: eexists _, _; split; [reflexivity|]; run;
      (split; [|repeat split; rewrite <- ?app_assoc, ?drop_app_length;
                reflexivity]).
    all: repeat first [ exact I | destruct (bool_decide _) | case_match ]. }
  destruct H as (thrown & w' & Ho & Hh & Hc & Hb & Ht).
  exists thrown, w'. repeat split; auto.
  - intros fn. rewrite Hb. apply lookup_insert_ne, originalKey_not_output.
  - eexists. split.
    + apply (getExtractionStatus_hit _ _
               (CachedJob.mk failed "" (Some fileName) None
                             (Some (exn_message e)))).
      rewrite Hc. apply lookup_insert_eq.
    + simpl. auto.
Qed.

(** *** The fallback chain of a status poll *)

Lemma getExtractionStatus_blob_encoded jobId w row text d :
  jobResultsMap w !! jobId = None ->
  quiet 1 (db_faults w) ->
  quiet 2 (s3_faults w) ->
  extractionJobs w !! jobId = Some row ->
  Row.fileName row <> "" ->
  bucket w !! outputKey jobId (Row.fileName row) = Some text ->
  JSON_parse text = inr d ->
  exists w',
    getExtractionStatus JSON_parse jobId w
    = (Return (ExtractionStatusResponse.mk jobId completed (Some "") (Some d)
                 None), w')
    /\ jobResultsMap w'
       = <[jobId := CachedJob.mk completed "" (Some (Row.fileName row))
                      (Some d) None]> (jobResultsMap w)
    /\ trace w'
       = (trace w ++
          [DbSelect jobId; S3Head (outputKey jobId (Row.fileName row));
           S3Get (outputKey jobId (Row.fileName row))])%list.
Proof.
  intros Hc Hdb Hs3 Hrow Hfn Hb Hp. destruct row as [i u fn fu st rs er'].
  forward w.
Qed.

Lemma getExtractionStatus_blob_legacy jobId w row text d :
  jobResultsMap w !! jobId = None ->
  quiet 1 (db_faults w) ->
  quiet 3 (s3_faults w) ->
  extractionJobs w !! jobId = Some row ->
  Row.fileName row <> "" ->
  bucket w !! outputKey jobId (Row.fileName row) = None ->
  bucket w !! legacyKey jobId (Row.fileName row) = Some text ->
  JSON_parse text = inr d ->
  exists w',
    getExtractionStatus JSON_parse jobId w
    = (Return (ExtractionStatusResponse.mk jobId completed (Some "") (Some d)
                 None), w')
    /\ jobResultsMap w'
       = <[jobId := CachedJob.mk completed "" (Some (Row.fileName row))
                      (Some d) None]> (jobResultsMap w)
    /\ trace w'
       = (trace w ++
          [DbSelect jobId; S3Head (outputKey jobId (Row.fileName row));
           S3Head (legacyKey jobId (Row.fileName row));
           S3Get (legacyKey jobId (Row.fileName row))])%list.
Proof.
  intros Hc Hdb Hs3 Hrow Hfn Hb Hb' Hp. destruct row as [i u fn fu st rs er'].
  forward w.
Qed.

Lemma getExtractionStatus_no_record jobId w reply rest :
  jobResultsMap w !! jobId = None ->
  quiet 1 (db_faults w) ->
  extractionJobs w !! jobId = None ->
  status_replies w = inr reply :: rest ->
  exists w',
    getExtractionStatus JSON_parse jobId w = (Return reply, w')
    /\ jobResultsMap w' = jobResultsMap w
    /\ trace w' = (trace w ++ [DbSelect jobId; EngineStatus jobId])%list.
Proof.
  intros Hc Hdb Hrow Hsr. forward w.
Qed.

Lemma getExtractionStatus_no_blob jobId w row reply rest :
  jobResultsMap w !! jobId = None ->
  quiet 1 (db_faults w) ->
  quiet 2 (s3_faults w) ->
  extractionJobs w !! jobId = Some row ->
  Row.fileName row <> "" ->
  bucket w !! outputKey jobId (Row.fileName row) = None ->
  bucket w !! legacyKey jobId (Row.fileName row) = None ->
  status_replies w = inr reply :: rest ->
  exists w',
    getExtractionStatus JSON_parse jobId w = (Return reply, w')
    /\ jobResultsMap w' = jobResultsMap w
    /\ trace w'
       = (trace w ++
          [DbSelect jobId; S3Head (outputKey jobId (Row.fileName row));
           S3Head (legacyKey jobId (Row.fileName row));
           EngineStatus jobId])%list.
Proof.
  intros Hc Hdb Hs3 Hrow Hfn Hb Hb' Hsr. destruct row as [i u fn fu st rs er'].
  forward w.
Qed.

Lemma quiet_le n m l : (n <= m)%nat -> quiet m l -> quiet n l.
Proof.
  revert m l. induction n as [|n IH]; intros m l Hle H; [exact I|].
  destruct m as [|m]; [lia|]. destruct l as [|[e|] l]; simpl in *; auto.
  apply (IH m); [lia|exact H].
Qed.

(** C3: on a cache miss, with the database and S3 answering, a status poll
    first reads the durable record (for [fileName]), then probes the bucket
    under the URL-encoded key and, only if that one is absent, under the
    legacy unencoded key; the first object found is parsed, stored in the
    cache as a [completed] entry and returned as [completed].  Without a
    durable record no S3 call is made and the engine's answer is returned;
    with a record but no object under either key the engine is asked last.
    The trace gives the order of the calls. *)
Theorem getExtractionStatus_fallback_order jobId w :
  jobResultsMap w !! jobId = None ->
  quiet 1 (db_faults w) ->
  quiet 3 (s3_faults w) ->
  (* encoded key present *)
  (forall row text d,
     extractionJobs w !! jobId = Some row -> Row.fileName row <> "" ->
     bucket w !! outputKey jobId (Row.fileName row) = Some text ->
     JSON_parse text = inr d ->
     exists w',
       getExtractionStatus JSON_parse jobId w
       = (Return (ExtractionStatusResponse.mk jobId completed (Some "")
                    (Some d) None), w')
       /\ jobResultsMap w' !! jobId
          = Some (CachedJob.mk completed "" (Some (Row.fileName row))
                               (Some d) None)
       /\ trace w'
          = (trace w ++
             [DbSelect jobId; S3Head (outputKey jobId (Row.fileName row));
              S3Get (outputKey jobId (Row.fileName row))])%list)
  (* only the legacy key present *)
  /\ (forall row text d,
     extractionJobs w !! jobId = Some row -> Row.fileName row <> "" ->
     bucket w !! outputKey jobId (Row.fileName row) = None ->
     bucket w !! legacyKey jobId (Row.fileName row) = Some text ->
     JSON_parse text = inr d ->
     exists w',
       getExtractionStatus JSON_parse jobId w
       = (Return (ExtractionStatusResponse.mk jobId completed (Some "")
                    (Some d) None), w')
       /\ jobResultsMap w' !! jobId
          = Some (CachedJob.mk completed "" (Some (Row.fileName row))
                               (Some d) None)
       /\ trace w'
          = (trace w ++
             [DbSelect jobId; S3Head (outputKey jobId (Row.fileName row));
              S3Head (legacyKey jobId (Row.fileName row));
              S3Get (legacyKey jobId (Row.fileName row))])%list)
  (* no durable record: the blob probe is skipped *)
  /\ (forall reply rest,
     extractionJobs w !! jobId = None ->
     status_replies w = inr reply :: rest ->
     exists w',
       getExtractionStatus JSON_parse jobId w = (Return reply, w')
       /\ jobResultsMap w' = jobResultsMap w
       /\ trace w' = (trace w ++ [DbSelect jobId; EngineStatus jobId])%list)
  (* a record, but no object under either key *)
  /\ (forall row reply rest,
     extractionJobs w !! jobId = Some row -> Row.fileName row <> "" ->
     bucket w !! outputKey jobId (Row.fileName row) = None ->
     bucket w !! legacyKey jobId (Row.fileName row) = None ->
     status_replies w = inr reply :: rest ->
     exists w',
       getExtractionStatus JSON_parse jobId w = (Return reply, w')
       /\ jobResultsMap w' = jobResultsMap w
       /\ trace w'
          = (trace w ++
             [DbSelect jobId; S3Head (outputKey jobId (Row.fileName row));
              S3Head (legacyKey jobId (Row.fileName row));
              EngineStatus jobId])%list).
Proof.
  intros Hc Hdb Hs3.
  assert (Hs2 : quiet 2 (s3_faults w)) by (apply (quiet_le 2 3); [lia|exact Hs3]).
  split; [|split; [|split]].
  - intros row text d Hrow Hfn Hb Hp.
    destruct (getExtractionStatus_blob_encoded _ _ _ _ _ Hc Hdb Hs2 Hrow Hfn Hb Hp)
      as (w' & E & Hc' & Ht).
    exists w'. rewrite Hc', lookup_insert_eq. auto.
  - intros row text d Hrow Hfn Hb Hb' Hp.
    destruct (getExtractionStatus_blob_legacy _ _ _ _ _ Hc Hdb Hs3 Hrow Hfn Hb
                Hb' Hp) as (w' & E & Hc' & Ht).
    exists w'. rewrite Hc', lookup_insert_eq. auto.
  - intros reply rest Hrow Hsr.
    exact (getExtractionStatus_no_record _ _ _ _ Hc Hdb Hrow Hsr).
  - intros row reply rest Hrow Hfn Hb Hb' Hsr.
    exact (getExtractionStatus_no_blob _ _ _ _ _ Hc Hdb Hs2 Hrow Hfn Hb Hb' Hsr).
Qed.

(** *** Idempotence of a status poll *)

(** A poll leaves the cache as it was, or answers from a blob and stores
    exactly what it answers. *)
Lemma getExtractionStatus_cache_effect c jobId :
  cache_spec c (getExtractionStatus JSON_parse jobId)
    (fun o c' =>
       c' = c
       \/ exists d fn,
            o = Return (ExtractionStatusResponse.mk jobId completed (Some "")
                          (Some d) None)
            /\ c' = <[jobId := CachedJob.mk completed "" (Some fn) (Some d)
                                 None]> c).
Proof. unfold_gateway. walk; eauto. Qed.

(** C8: if a status poll answered [st] and left an entry for the job in the
    cache (it found one, or it stored the blob it read), the next poll
    answers [st] again and leaves the world as it is: no S3 call, no call
    at all. *)
Theorem getExtractionStatus_idempotent jobId w st w1 :
  getExtractionStatus JSON_parse jobId w = (Return st, w1) ->
  is_Some (jobResultsMap w1 !! jobId) ->
  exists w2,
    getExtractionStatus JSON_parse jobId w1 = (Return st, w2)
    /\ w2 = w1
    /\ filter is_S3 (drop (length (trace w1)) (trace w2)) = [].
Proof.
  intros E [e He]. exists w1.
  assert (H : getExtractionStatus JSON_parse jobId w1 = (Return st, w1)).
  { destruct (cs_run _ _ _ _ _ _ (getExtractionStatus_cache_effect _ jobId)
                eq_refl E) as [Hc|(d & fn & [= ->] & Hc)].
    - rewrite Hc in He. pose proof (getExtractionStatus_hit _ _ _ He) as E'.
      rewrite E in E'. injection E' as -> ->.
      apply getExtractionStatus_hit. exact He.
    - apply (getExtractionStatus_hit _ _
               (CachedJob.mk completed "" (Some fn) (Some d) None)).
      rewrite Hc. apply lookup_insert_eq. }
  split; [exact H|]. split; [reflexivity|].
  rewrite drop_all. reflexivity.
Qed.

(** *** The edit flow *)


(** Blob write succeeds, durable update fails. *)
Lemma updateExtractionResult_durable_failure jobId d w row e l :
  falsy (Some d) = false ->
  extractionJobs w !! jobId = Some row ->
  db_faults w = None :: Some e :: l ->
  quiet 1 (s3_faults w) ->
  exists w',
    updateExtractionResult JSON_stringify JSON_parse jobId (Some (Some d)) w
    = (Throw (BadRequestException
                ("Failed to update extraction result: " +:+ exn_message e)),
       w')
    /\ bucket w'
       = <[outputKey jobId (Row.fileName row) := JSON_stringify d]> (bucket w)
    /\ extractionJobs w' = extractionJobs w
    /\ jobResultsMap w' = jobResultsMap w
    /\ db_faults w' = l
    /\ s3_faults w' = tail (s3_faults w).
Proof.
  intros Hd Hrow Hdb Hs3. destruct row as [i u fn fu st rs er'].
  forward w.
Qed.

Lemma quiet_tail n l : quiet (S n) l -> quiet n (tail l).
Proof.
  destruct l as [|[e|] l]; simpl; [|contradiction|auto].
  intros _. destruct n; exact I.
Qed.

(** Blob write fails. *)
Lemma updateExtractionResult_blob_failure jobId d w row e l :
  falsy (Some d) = false ->
  extractionJobs w !! jobId = Some row ->
  quiet 1 (db_faults w) ->
  s3_faults w = Some e :: l ->
  exists w',
    updateExtractionResult JSON_stringify JSON_parse jobId (Some (Some d)) w
    = (Throw (BadRequestException
                ("Failed to update extraction result: "
                 +:+ "Failed to upload file: " +:+ exn_message e)),
       w')
    /\ bucket w' = bucket w
    /\ extractionJobs w' = extractionJobs w
    /\ jobResultsMap w' = jobResultsMap w.
Proof.
  intros Hd Hrow Hdb Hs3. destruct row as [i u fn fu st rs er'].
  forward w.
Qed.

Lemma updateExtractionResult_not_found jobId d w :
  falsy (Some d) = false ->
  extractionJobs w !! jobId = None ->
  jobResultsMap w !! jobId = None ->
  quiet 1 (db_faults w) ->
  exists w',
    updateExtractionResult JSON_stringify JSON_parse jobId (Some (Some d)) w
    = (Throw (BadRequestException
                "Failed to update extraction result: Job not found"), w')
    /\ bucket w' = bucket w
    /\ extractionJobs w' = extractionJobs w
    /\ jobResultsMap w' = jobResultsMap w.
Proof.
  intros Hd Hrow Hc Hdb. forward w.
Qed.


(** Whatever goes wrong in an edit, the cache is as it was, and what is
    thrown is the [BadRequestException] built in the outer [catch]. *)
Lemma updateExtractionResult_Throw_cache c jobId data :
  cache_spec c
    (updateExtractionResult JSON_stringify JSON_parse jobId (Some data))
    (fun o c' =>
       match o with
       | Throw e =>
           c' = c
           /\ exists msg,
                e = BadRequestException
                      ("Failed to update extraction result: " +:+ msg)
       | Return _ => True
       end).
Proof. unfold_gateway. walk; eauto. Qed.

(** C5 (as amended): an edit reports every failure and never touches the
    cache on one, but it does not roll back.  For a payload that passes
    validation: (1) if the blob write succeeds and the durable update then
    fails, the caller gets a [BadRequestException], the blob has been
    overwritten, and the cache is untouched, so that a poll for a cached
    job still answers its pre-edit entry, whereas for a job that is not in
    the cache the next poll reads the overwritten blob and answers the
    edit that was reported as failed; (2) if the blob write fails, the
    caller gets a
    [BadRequestException] and none of the three stores has changed; (3)
    whatever makes the edit throw, the cache is as before and the exception
    is the [BadRequestException] of the outer catch; (4) with neither a
    durable record nor a cache entry the edit fails with
    ["... Job not found"] and changes no store. *)
Theorem updateExtractionResult_strict jobId d w :
  falsy (Some d) = false ->
  (forall row e l,
     extractionJobs w !! jobId = Some row ->
     db_faults w = None :: Some e :: l ->
     quiet 1 (s3_faults w) ->
     exists w',
       updateExtractionResult JSON_stringify JSON_parse jobId (Some (Some d)) w
       = (Throw (BadRequestException
                   ("Failed to update extraction result: " +:+ exn_message e)),
          w')
       /\ bucket w'
          = <[outputKey jobId (Row.fileName row) := JSON_stringify d]>
              (bucket w)
       /\ extractionJobs w' = extractionJobs w
       /\ jobResultsMap w' = jobResultsMap w
       /\ (forall entry,
             jobResultsMap w !! jobId = Some entry ->
             getExtractionStatus JSON_parse jobId w'
             = (Return (view jobId entry), w'))
       /\ (forall d',
             jobResultsMap w !! jobId = None ->
             Row.fileName row <> "" ->
             quiet 1 l -> quiet 3 (s3_faults w) ->
             JSON_parse (JSON_stringify d) = inr d' ->
             exists w'',
               getExtractionStatus JSON_parse jobId w'
               = (Return (ExtractionStatusResponse.mk jobId completed
                            (Some "") (Some d') None), w'')))
  /\ (forall row e l,
     extractionJobs w !! jobId = Some row ->
     quiet 1 (db_faults w) ->
     s3_faults w = Some e :: l ->
     exists w',
       updateExtractionResult JSON_stringify JSON_parse jobId (Some (Some d)) w
       = (Throw (BadRequestException
                   ("Failed to update extraction result: "
                    +:+ "Failed to upload file: " +:+ exn_message e)),
          w')
       /\ bucket w' = bucket w
       /\ extractionJobs w' = extractionJobs w
       /\ jobResultsMap w' = jobResultsMap w)
  /\ (forall e w',
     updateExtractionResult JSON_stringify JSON_parse jobId
       (Some (Some d)) w = (Throw e, w') ->
     jobResultsMap w' = jobResultsMap w
     /\ (exists msg,
           e = BadRequestException
                 ("Failed to update extraction result: " +:+ msg))
     /\ forall entry,
          jobResultsMap w !! jobId = Some entry ->
          getExtractionStatus JSON_parse jobId w'
          = (Return (view jobId entry), w'))
  /\ (extractionJobs w !! jobId = None ->
      jobResultsMap w !! jobId = None ->
      quiet 1 (db_faults w) ->
      exists w',
        updateExtractionResult JSON_stringify JSON_parse jobId (Some (Some d)) w
        = (Throw (BadRequestException
                    "Failed to update extraction result: Job not found"), w')
        /\ bucket w' = bucket w
        /\ extractionJobs w' = extractionJobs w
        /\ jobResultsMap w' = jobResultsMap w).
Proof.
  intros Hd. split; [|split; [|split]].
  - intros row e l Hrow Hdb Hs3.
    destruct (updateExtractionResult_durable_failure _ _ _ _ _ _ Hd Hrow Hdb Hs3)
      as (w' & E & Hb & Hj & Hc & Hdf & Hsf).
    exists w'. do 4 (split; [assumption|]). split.
    + intros entry He. apply getExtractionStatus_hit. rewrite Hc. exact He.
    + intros d' Hnone Hfn Hql Hq3 Hp.
      destruct (getExtractionStatus_blob_encoded jobId w' row
                  (JSON_stringify d) d') as (w'' & E' & _).
      * rewrite Hc. exact Hnone.
      * rewrite Hdf. exact Hql.
      * rewrite Hsf. apply quiet_tail, Hq3.
      * rewrite Hj. exact Hrow.
      * exact Hfn.
      * rewrite Hb. apply lookup_insert_eq.
      * exact Hp.
      * exists w''. exact E'.
  - intros row e l Hrow Hdb Hs3.
    exact (updateExtractionResult_blob_failure _ _ _ _ _ _ Hd Hrow Hdb Hs3).
  - intros e w' E.
    destruct (cs_run _ _ _ _ _ _
                (updateExtractionResult_Throw_cache _ jobId (Some d))
                eq_refl E) as [Hc Hm].
    repeat split; auto.
    intros entry He. apply getExtractionStatus_hit. rewrite Hc. exact He.
  - intros Hrow Hc Hdb.
    exact (updateExtractionResult_not_found _ _ _ Hd Hrow Hc Hdb).
Qed.

(** What an edit does when only the cache knows the job. *)
Lemma updateExtractionResult_reconstructs jobId d w entry :
  jobId <> "" ->
  falsy (Some d) = false ->
  extractionJobs w !! jobId = None ->
  jobResultsMap w !! jobId = Some entry ->
  quiet 4 (db_faults w) ->
  quiet 1 (s3_faults w) ->
  exists w',
    updateExtractionResult JSON_stringify JSON_parse jobId (Some (Some d)) w
    = (Return (true, "Extraction result updated successfully"), w')
    /\ extractionJobs w'
       = <[jobId := Row.mk jobId "unknown" "unknown" (CachedJob.fileUrl entry)
                      "completed" (to_jsonb d) None]>
           (<[jobId := Row.mk jobId "unknown" "unknown"
                         (CachedJob.fileUrl entry) "pending" None None]>
              (extractionJobs w))
    /\ bucket w' = <[outputKey jobId "unknown" := JSON_stringify d]> (bucket w)
    /\ jobResultsMap w'
       = <[jobId := CachedJob.mk completed (CachedJob.fileUrl entry)
                      (Some "unknown") (Some d) None]> (jobResultsMap w).
Proof.
  intros Hj Hd Hrow Hc Hdb Hs3. destruct entry as [st fu fn da er'].
  destruct w as [cache b db bn ep s3f dbf er sr now rnd uu tr];
  run; subst;
  lazymatch goal with
  | |- exists w', ?t = _ /\ _ =>
      let E := fresh "E" in
      destruct t as [? ?] eqn:E; exec E; simplify_eq
  end.
  all: eexists; split; [reflexivity|]; run; rewrite !or_default_empty;
    repeat split; reflexivity.
Qed.

(** The reconstruction in general: with no durable record and a cache
    entry for the job, an edit creates the record with the entry's [fileUrl]
    but with the literal ["unknown"] as [fileName] (and as [userId]),
    whatever file name the entry holds; the edited result is then written
    under [output/{jobId}/unknown.json] and the cache entry is overwritten
    with [fileName = "unknown"]. *)
Lemma updateExtractionResult_reconstruction_drops_fileName
    jobId d w entry :
  jobId <> "" ->
  falsy (Some d) = false ->
  extractionJobs w !! jobId = None ->
  jobResultsMap w !! jobId = Some entry ->
  quiet 4 (db_faults w) ->
  quiet 1 (s3_faults w) ->
  exists w' row,
    updateExtractionResult JSON_stringify JSON_parse jobId (Some (Some d)) w
    = (Return (true, "Extraction result updated successfully"), w')
    /\ extractionJobs w' !! jobId = Some row
    /\ Row.fileUrl row = CachedJob.fileUrl entry
    /\ Row.fileName row = "unknown"
    /\ bucket w' = <[outputKey jobId "unknown" := JSON_stringify d]> (bucket w)
    /\ jobResultsMap w' !! jobId
       = Some (CachedJob.mk completed (CachedJob.fileUrl entry)
                            (Some "unknown") (Some d) None).
Proof.
  intros Hj Hd Hrow Hc Hdb Hs3.
  destruct (updateExtractionResult_reconstructs _ _ _ _ Hj Hd Hrow Hc Hdb Hs3)
    as (w' & E & Hjobs & Hb & Hc').
  exists w'. eexists. split; [exact E|].
  rewrite Hjobs, Hc', !lookup_insert_eq. repeat split; auto.
Qed.

(** *** The durable write of [POST extract] is best-effort *)

(** C7: once [startExtraction] has returned [r], [extractDocument] returns
    the same [r] whatever the database does.  If the insert fails, the
    failure is logged as a warning and the table is as before; if it goes
    through, a [pending] row is created.  The cache and the bucket are as
    [startExtraction] left them in both cases. *)
Theorem extractDocument_durable_write_best_effort file tl pn uid w r w1 :
  startExtraction JSON_stringify (MulterFile.buffer file)
    (MulterFile.originalname file) (MulterFile.mimetype file)
    (or_default uid "test-user") (or_default tl "en")
    (match pn with Some false => false | _ => true end) w
  = (Return r, w1) ->
  let jobId := generatedJobId w in
  (forall e l,
     db_faults w = Some e :: l ->
     exists w2,
       extractDocument JSON_stringify (Some file) tl pn uid w = (Return r, w2)
       /\ jobResultsMap w2 = jobResultsMap w1
       /\ bucket w2 = bucket w1
       /\ extractionJobs w2 = extractionJobs w
       /\ trace w2
          = (trace w1 ++
             [DbInsert jobId;
              LogWarn ("Failed to create job record in database: "
                       +:+ exn_message e)])%list)
  /\ (quiet 1 (db_faults w) ->
      extractionJobs w !! jobId = None ->
      exists w2,
        extractDocument JSON_stringify (Some file) tl pn uid w = (Return r, w2)
        /\ jobResultsMap w2 = jobResultsMap w1
        /\ bucket w2 = bucket w1
        /\ extractionJobs w2
           = <[jobId := Row.mk jobId (or_default uid "test-user")
                          (MulterFile.originalname file)
                          (urlOf w (originalKey jobId
                                      (MulterFile.originalname file)))
                          "pending" None None]> (extractionJobs w)
        /\ trace w2 = (trace w1 ++ [DbInsert jobId])%list).
Proof.
  intros H jobId.
  destruct (startExtraction_Return_inv _ _ _ _ _ _ _ _ _ H)
    as (d & Hd & -> & ->).
  subst jobId. destruct file as [buf name mime].
  destruct w as [cache b db bn ep s3f dbf er sr now rnd uu tr].
  simpl MulterFile.buffer in *. simpl MulterFile.originalname in *.
  simpl MulterFile.mimetype in *.
  split.
  - intros e l Hdb. unfold extractDocument, bind at 1.
    simpl MulterFile.buffer. simpl MulterFile.originalname.
    simpl MulterFile.mimetype. rewrite H. clear H. run. subst.
    lazymatch goal with
    | |- exists w', ?t = _ /\ _ =>
        let E := fresh "E" in
        destruct t as [? ?] eqn:E; exec E; simplify_eq; finish
    end.
  - intros Hdb Hrow. unfold extractDocument, bind at 1.
    simpl MulterFile.buffer. simpl MulterFile.originalname.
    simpl MulterFile.mimetype. rewrite H. clear H. run. subst.
    lazymatch goal with
    | |- exists w', ?t = _ /\ _ =>
        let E := fresh "E" in
        destruct t as [? ?] eqn:E; exec E; simplify_eq; finish
    end.
Qed.

(** *** Blob Store keys *)

(** *** Blob Store keys *)







End Properties.

(** ** The theorems at concrete inputs *)

Ltac side := first [ exact I | discriminate | vm_compute; reflexivity ].

Lemma startExtraction_upload_failure_witness :
  s3_faults w_upload_down
  = [Some (Error "TimeoutError" "socket hang up" None None)]
  /\ exists w',
       startExtraction demo_stringify "PDF" "a b.pdf" "application/pdf" "u1"
                       "en" true w_upload_down
       = (Throw (InternalServerErrorException "Document extraction failed"), w')
       /\ getExtractionStatus demo_parse J0 w'
          = (Return (ExtractionStatusResponse.mk J0 failed (Some "") None
                       (Some "Failed to upload file: socket hang up")), w').
Proof.
  split; [reflexivity|].
  destruct (startExtraction_upload_failure demo_stringify demo_parse
              "PDF" "a b.pdf" "application/pdf" "u1" "en" true w_upload_down
              _ _ eq_refl) as (w' & E & _ & _ & _ & _ & Hs).
  exists w'. split; [exact E|exact Hs].
Defined.

(** C1, as stated, fails here: the original upload fails, the call throws,
    and yet the generated job id, unknown to the cache before, has an entry
    afterwards, which a status poll serves as [failed]. *)
Lemma startExtraction_upload_failure_leaves_job :
  s3_faults w_upload_down
  = [Some (Error "TimeoutError" "socket hang up" None None)]
  /\ jobResultsMap w_upload_down !! J0 = None
  /\ fst (startExtraction demo_stringify "PDF" "a b.pdf" "application/pdf"
            "u1" "en" true w_upload_down)
     = Throw (InternalServerErrorException "Document extraction failed")
  /\ jobResultsMap
       (snd (startExtraction demo_stringify "PDF" "a b.pdf" "application/pdf"
               "u1" "en" true w_upload_down)) !! J0 <> None
  /\ fst (getExtractionStatus demo_parse J0
            (snd (startExtraction demo_stringify "PDF" "a b.pdf"
                    "application/pdf" "u1" "en" true w_upload_down)))
     = Return (ExtractionStatusResponse.mk J0 failed (Some "") None
                 (Some "Failed to upload file: socket hang up")).
Proof.
  repeat split; try (vm_compute; reflexivity).
  vm_compute. discriminate.
Qed.

Lemma getStatus_after_startExtraction_witness :
  startExtraction demo_stringify "PDF" "a b.pdf" "application/pdf" "u1" "en"
                  true w_engine_ok
  = (Return (ExtractionResponse.mk true "Extraction completed" (Some J0)
               (Some "https://udayam-files.t3.storage.dev/originals/job_1700000000000_82mvyr/a%20b.pdf")
               (JString "T")), w_cached)
  /\ exists jobId,
       Some J0 = Some jobId
       /\ getExtractionStatus demo_parse jobId w_cached
          = (Return (ExtractionStatusResponse.mk jobId completed
                       (Some "https://udayam-files.t3.storage.dev/originals/job_1700000000000_82mvyr/a%20b.pdf")
                       (Some (JString "T")) None), w_cached).
Proof.
  assert (H : startExtraction demo_stringify "PDF" "a b.pdf" "application/pdf"
                "u1" "en" true w_engine_ok
              = (Return (ExtractionResponse.mk true "Extraction completed"
                           (Some J0)
                           (Some "https://udayam-files.t3.storage.dev/originals/job_1700000000000_82mvyr/a%20b.pdf")
                           (JString "T")), w_cached))
    by (vm_compute; reflexivity).
  split; [exact H|].
  exact (getStatus_after_startExtraction demo_stringify demo_parse _ _ _ _ _ _
           _ _ _ H).
Defined.

Lemma startExtraction_engine_failure_witness :
  quiet 1 (s3_faults w_engine_timeout)
  /\ exists thrown w',
       startExtraction demo_stringify "PDF" "a b.pdf" "application/pdf" "u1"
                       "en" true w_engine_timeout = (Throw thrown, w')
       /\ http_exception thrown
       /\ exists st,
            getExtractionStatus demo_parse (generatedJobId w_engine_timeout) w'
            = (Return st, w')
            /\ ExtractionStatusResponse.status st = failed
            /\ ExtractionStatusResponse.error st
               = Some "timeout of 600000ms exceeded".
Proof.
  split; [exact I|].
  destruct (startExtraction_engine_failure demo_stringify demo_parse
              "PDF" "a b.pdf" "application/pdf" "u1" "en" true
              w_engine_timeout _ _ I eq_refl)
    as (thrown & w' & E & Hh & _ & _ & _ & _ & st & Hs & Hf & _ & He).
  exists thrown, w'. split; [exact E|]. split; [exact Hh|].
  exists st. split; [exact Hs|]. split; [exact Hf|exact He].
Defined.

(** C4, as stated, fails here: the engine's port refuses the connection
    and the failure comes with an empty message (Node's [AggregateError]
    for a refused connection has one).  [startExtraction] throws, and the
    status poll that follows answers [failed] with the empty string as
    error. *)
Lemma startExtraction_engine_failure_empty_error :
  quiet 1 (s3_faults w_engine_refused)
  /\ extract_replies w_engine_refused
     = [inl (Error "AggregateError" "" (Some "ECONNREFUSED") None)]
  /\ fst (startExtraction demo_stringify "PDF" "a b.pdf" "application/pdf"
            "u1" "en" true w_engine_refused)
     = Throw (InternalServerErrorException
                "Python extraction service is not running. Please start the API service on port 8000.")
  /\ fst (getExtractionStatus demo_parse J0
            (snd (startExtraction demo_stringify "PDF" "a b.pdf"
                    "application/pdf" "u1" "en" true w_engine_refused)))
     = Return (ExtractionStatusResponse.mk J0 failed (Some "") None
                 (Some "")).
Proof. repeat split; vm_compute; reflexivity. Qed.

Lemma getExtractionStatus_fallback_order_witness :
  jobResultsMap w_legacy !! J0 = None
  /\ quiet 1 (db_faults w_legacy)
  /\ quiet 3 (s3_faults w_legacy)
  /\ exists w',
       getExtractionStatus demo_parse J0 w_legacy
       = (Return (ExtractionStatusResponse.mk J0 completed (Some "")
                    (Some (JString "T")) None), w')
       /\ jobResultsMap w' !! J0
          = Some (CachedJob.mk completed "" (Some "a b.pdf")
                               (Some (JString "T")) None).
Proof.
  assert (Hc : jobResultsMap w_legacy !! J0 = None) by reflexivity.
  split; [exact Hc|]. split; [exact I|]. split; [exact I|].
  destruct (getExtractionStatus_fallback_order demo_parse J0 w_legacy Hc I I)
    as (_ & Hleg & _).
  destruct (Hleg row0 "T" (JString "T")) as (w' & E & Hc' & _);
    [side..|].
  exists w'. split; [exact E|exact Hc'].
Defined.

Lemma updateExtractionResult_strict_witness :
  falsy (Some (JString "N")) = false
  /\ (exists w',
        updateExtractionResult demo_stringify demo_parse J0
          (Some (Some (JString "N"))) w_update_fails
        = (Throw (BadRequestException
                    "Failed to update extraction result: connection terminated"),
           w')
        /\ jobResultsMap w' = jobResultsMap w_update_fails)
  /\ (jobResultsMap w_uncached !! J0 = None
      /\ exists w' w'',
           updateExtractionResult demo_stringify demo_parse J0
             (Some (Some (JString "N"))) w_uncached
           = (Throw (BadRequestException
                       "Failed to update extraction result: connection terminated"),
              w')
           /\ getExtractionStatus demo_parse J0 w'
              = (Return (ExtractionStatusResponse.mk J0 completed (Some "")
                           (Some (JString "N")) None), w'')).
Proof.
  split; [reflexivity|]. split.
  - destruct (updateExtractionResult_strict demo_stringify demo_parse J0
                (JString "N") w_update_fails eq_refl) as (Hdur & _).
    destruct (Hdur row0
                (Error "PostgresError" "connection terminated" None None) [])
      as (w' & E & _ & _ & Hc & _); [side..|].
    exists w'. split; [exact E|exact Hc].
  - split; [reflexivity|].
    destruct (updateExtractionResult_strict demo_stringify demo_parse J0
                (JString "N") w_uncached eq_refl) as (Hdur & _).
    destruct (Hdur row0
                (Error "PostgresError" "connection terminated" None None) [])
      as (w' & E & _ & _ & _ & _ & Huncached); [side..|].
    destruct (Huncached (JString "N")) as (w'' & E');
      [reflexivity|discriminate|exact I|exact I|reflexivity|].
    exists w', w''. split; [exact E|exact E'].
Defined.

(** C6 at a concrete input: the job was extracted while the database was
    down, so that only the cache (and the bucket) know it, under the file
    name ["a b.pdf"].  The edit succeeds, but the record it creates is named
    ["unknown"], the edited result lands under [.../unknown.json] while the
    object under the job's real key keeps the old result, and the cache
    entry loses the file name. *)
Lemma updateExtractionResult_reconstruction_at_failing_input :
  (CachedJob.fileName <$> jobResultsMap w_cached !! J0) = Some (Some "a b.pdf")
  /\ extractionJobs w_cached !! J0 = None
  /\ fst (updateExtractionResult demo_stringify demo_parse J0
            (Some (Some (JString "N"))) w_cached)
     = Return (true, "Extraction result updated successfully")
  /\ (Row.fileName <$>
      extractionJobs (snd (updateExtractionResult demo_stringify demo_parse J0
                             (Some (Some (JString "N"))) w_cached)) !! J0)
     = Some "unknown"
  /\ bucket (snd (updateExtractionResult demo_stringify demo_parse J0
                    (Some (Some (JString "N"))) w_cached))
       !! "output/job_1700000000000_82mvyr/unknown.json" = Some "N"
  /\ bucket (snd (updateExtractionResult demo_stringify demo_parse J0
                    (Some (Some (JString "N"))) w_cached))
       !! outputKey J0 "a b.pdf" = Some "T"
  /\ (CachedJob.fileName <$>
      jobResultsMap (snd (updateExtractionResult demo_stringify demo_parse J0
                            (Some (Some (JString "N"))) w_cached)) !! J0)
     = Some (Some "unknown").
Proof. repeat split; vm_compute; reflexivity. Qed.

Lemma extractDocument_durable_write_best_effort_witness :
  startExtraction demo_stringify "PDF" "a b.pdf" "application/pdf" "u1" "en"
                  true w_db_down
  = (Return (ExtractionResponse.mk true "Extraction completed" (Some J0)
               (Some "https://udayam-files.t3.storage.dev/originals/job_1700000000000_82mvyr/a%20b.pdf")
               (JString "T")),
     snd (startExtraction demo_stringify "PDF" "a b.pdf" "application/pdf"
            "u1" "en" true w_db_down))
  /\ exists w2,
       extractDocument demo_stringify
         (Some (MulterFile.mk "PDF" "a b.pdf" "application/pdf"))
         None None (Some "u1") w_db_down
       = (Return (ExtractionResponse.mk true "Extraction completed" (Some J0)
                    (Some "https://udayam-files.t3.storage.dev/originals/job_1700000000000_82mvyr/a%20b.pdf")
                    (JString "T")), w2)
       /\ extractionJobs w2 = extractionJobs w_db_down.
Proof.
  assert (H : startExtraction demo_stringify "PDF" "a b.pdf" "application/pdf"
                "u1" "en" true w_db_down
              = (Return (ExtractionResponse.mk true "Extraction completed"
                           (Some J0)
                           (Some "https://udayam-files.t3.storage.dev/originals/job_1700000000000_82mvyr/a%20b.pdf")
                           (JString "T")),
                 snd (startExtraction demo_stringify "PDF" "a b.pdf"
                        "application/pdf" "u1" "en" true w_db_down)))
    by (vm_compute; reflexivity).
  split; [exact H|].
  destruct (extractDocument_durable_write_best_effort demo_stringify
              (MulterFile.mk "PDF" "a b.pdf" "application/pdf") None None
              (Some "u1") w_db_down _ _ H) as (Hfail & _).
  destruct (Hfail _ _ eq_refl) as (w2 & E & _ & _ & Hj & _).
  exists w2. split; [exact E|exact Hj].
Defined.

Lemma getExtractionStatus_idempotent_witness :
  getExtractionStatus demo_parse J0 w_legacy
  = (Return (ExtractionStatusResponse.mk J0 completed (Some "")
               (Some (JString "T")) None),
     snd (getExtractionStatus demo_parse J0 w_legacy))
  /\ is_Some (jobResultsMap (snd (getExtractionStatus demo_parse J0 w_legacy))
              !! J0)
  /\ exists w2,
       getExtractionStatus demo_parse J0
         (snd (getExtractionStatus demo_parse J0 w_legacy))
       = (Return (ExtractionStatusResponse.mk J0 completed (Some "")
                    (Some (JString "T")) None), w2)
       /\ w2 = snd (getExtractionStatus demo_parse J0 w_legacy).
Proof.
  assert (H : getExtractionStatus demo_parse J0 w_legacy
              = (Return (ExtractionStatusResponse.mk J0 completed (Some "")
                           (Some (JString "T")) None),
                 snd (getExtractionStatus demo_parse J0 w_legacy)))
    by (vm_compute; reflexivity).
  assert (Hs : is_Some (jobResultsMap
                          (snd (getExtractionStatus demo_parse J0 w_legacy))
                        !! J0))
    by (eexists; vm_compute; reflexivity).
  split; [exact H|]. split; [exact Hs|].
  destruct (getExtractionStatus_idempotent demo_parse J0 w_legacy _ _ H Hs)
    as (w2 & E & Hw & _).
  exists w2. split; [exact E|exact Hw].
Defined.


Lemma cache_entries_terminal_witness :
  reachable demo_stringify demo_parse
    (handle demo_stringify demo_parse
       (PostExtract (Some (MulterFile.mk "PDF" "a b.pdf" "application/pdf"))
                    None None (Some "u1")) w_engine_ok)
  /\ cache_inv
       (jobResultsMap
          (handle demo_stringify demo_parse
             (PostExtract (Some (MulterFile.mk "PDF" "a b.pdf"
                                               "application/pdf"))
                          None None (Some "u1")) w_engine_ok)).
Proof.
  assert (H : reachable demo_stringify demo_parse
                (handle demo_stringify demo_parse
                   (PostExtract (Some (MulterFile.mk "PDF" "a b.pdf"
                                                     "application/pdf"))
                                None None (Some "u1")) w_engine_ok)).
  { apply reachable_step, reachable_start. reflexivity. }
  split; [exact H|].
  exact (proj1 (cache_entries_terminal demo_stringify demo_parse _ H)).
Defined.

(** C5, as stated, fails here: the job has a durable record and a stored
    result and is not in the cache (as after a restart of the gateway).
    The blob write of the edit succeeds and the durable update fails: the
    edit is reported as failed, there is no pre-edit cache entry to serve,
    and the next poll, finding nothing in the cache, reads the bucket and
    answers the half-applied edit. *)
Lemma updateExtractionResult_partial_failure_uncached :
  jobResultsMap w_uncached !! J0 = None
  /\ fst (getExtractionStatus demo_parse J0 w_uncached)
     = Return (ExtractionStatusResponse.mk J0 completed (Some "")
                 (Some (JString "T")) None)
  /\ fst (updateExtractionResult demo_stringify demo_parse J0
            (Some (Some (JString "N"))) w_uncached)
     = Throw (BadRequestException
                "Failed to update extraction result: connection terminated")
  /\ jobResultsMap
       (snd (updateExtractionResult demo_stringify demo_parse J0
               (Some (Some (JString "N"))) w_uncached)) !! J0 = None
  /\ fst (getExtractionStatus demo_parse J0
            (snd (updateExtractionResult demo_stringify demo_parse J0
                    (Some (Some (JString "N"))) w_uncached)))
     = Return (ExtractionStatusResponse.mk J0 completed (Some "")
                 (Some (JString "N")) None).
Proof. repeat split; vm_compute; reflexivity. Qed.

(** * Beyond the claims: the rest of the extraction path *)

(** ** More machinery *)

(** One step of a composed run: execute the first computation of a goal
    [exists w', m w = (o, w') /\ ...] and go on with the rest. *)
Ltac fwd :=
  lazymatch goal with
  | |- exists w', ?t = _ /\ _ =>
      let E := fresh "E" in
      destruct t as [? ?] eqn:E; run; exec E; simplify_eq;
      rewrite ?lookup_insert_eq; cbv beta iota;
      (eexists; (split; [reflexivity|]))
  end.

Ltac world w := destruct w as [cache b db bn ep s3f dbf er sr now rnd uu tr].

(** Execute the run under [snd] in the goal on every path. *)
Ltac exec_snd :=
  lazymatch goal with
  | |- context [snd ?t] =>
      let E := fresh "E" in
      destruct t as [? ?] eqn:E; run; exec E; simplify_eq; run
  end.

(** *** Relations between the worlds before and after *)

Section Steps.

Variable R : World -> World -> Prop.
Hypothesis R_refl : forall w, R w w.
Hypothesis R_trans : forall w1 w2 w3, R w1 w2 -> R w2 w3 -> R w1 w3.

Lemma st_ret {A} (a : A) : steps R (ret a).
Proof. intros w. apply R_refl. Qed.

Lemma st_throw {A} e : steps R (@throw A e).
Proof. intros w. apply R_refl. Qed.

Lemma st_gets {A} (g : World -> A) : steps R (gets g).
Proof. intros w. apply R_refl. Qed.

Lemma st_modify (g : World -> World) :
  (forall w, R w (g w)) -> steps R (modify g).
Proof. intros H w. apply H. Qed.

Lemma st_bind {A B} (m : M A) (k : A -> M B) :
  steps R m -> (forall a, steps R (k a)) -> steps R (bind m k).
Proof.
  intros Hm Hk w. unfold bind. specialize (Hm w).
  destruct (m w) as [[a|e] w1]; simpl in *; [|exact Hm].
  apply (R_trans _ _ _ Hm), Hk.
Qed.

Lemma st_try {A} (b : M A) (h : Exn -> M A) :
  steps R b -> (forall e, steps R (h e)) -> steps R (try_catch b h).
Proof.
  intros Hb Hh w. unfold try_catch. specialize (Hb w).
  destruct (b w) as [[a|e] w1]; simpl in *; [exact Hb|].
  apply (R_trans _ _ _ Hb), Hh.
Qed.

End Steps.

Section Throws.

Variable P : Exn -> Prop.

Lemma to_ret {A} (a : A) : throws_only P (ret a).
Proof. intros w e. discriminate. Qed.

Lemma to_throw {A} e : P e -> throws_only P (@throw A e).
Proof. intros H w e' [= <-]. exact H. Qed.

Lemma to_gets {A} (g : World -> A) : throws_only P (gets g).
Proof. intros w e. discriminate. Qed.

Lemma to_modify g : throws_only P (modify g).
Proof. intros w e. discriminate. Qed.

Lemma to_bind {A B} (m : M A) (k : A -> M B) :
  throws_only P m -> (forall a, throws_only P (k a)) ->
  throws_only P (bind m k).
Proof.
  intros Hm Hk w e. unfold bind. specialize (Hm w).
  destruct (m w) as [[a|e'] w1]; simpl in *.
  - apply Hk.
  - intros [= <-]. apply Hm. reflexivity.
Qed.

(** What the body throws is caught: only the handler counts. *)
Lemma to_try {A} (b : M A) (h : Exn -> M A) :
  (forall e, throws_only P (h e)) -> throws_only P (try_catch b h).
Proof.
  intros Hh w e. unfold try_catch.
  destruct (b w) as [[a|e'] w1]; simpl; [discriminate|]. apply Hh.
Qed.

End Throws.

Ltac unfold_model :=
  cbv [startExtraction getExtractionStatus tryKeys updateJobResult
       getJobFromCache extractDocument controller_getExtractionStatus
       updateExtractionResult parse read_tables post_extract get_status
       next_random next_uuid getExtractionJobById uploadFile getFileBuffer
       getFileStream fileExists send_PutObjectCommand send_GetObjectCommand
       send_HeadObjectCommand next_s3_fault next_db_fault emit logger_warn
       logger_error].

(** Descend into a computation, given that the relation is a preorder;
    [leaf] settles a [modify] and [call] a function kept folded. *)
Ltac steps_with refl trans leaf call :=
  repeat lazymatch goal with
  | |- steps _ (bind _ _) => apply (st_bind _ trans); [|intros ?]
  | |- steps _ (try_catch _ _) => apply (st_try _ trans); [|intros ?]
  | |- steps _ (ret _) => apply (st_ret _ refl)
  | |- steps _ (throw _) => apply (st_throw _ refl)
  | |- steps _ (gets _) => apply (st_gets _ refl)
  | |- steps _ (modify _) => apply st_modify; intros []; leaf
  | |- steps _ (match ?x with _ => _ end) => destruct x
  | |- _ => call
  end.

Ltac throws :=
  repeat lazymatch goal with
  | |- throws_only _ (bind _ _) => apply to_bind; [|intros ?]
  | |- throws_only _ (try_catch _ _) => apply to_try; intros ?
  | |- throws_only _ (ret _) => apply to_ret
  | |- throws_only _ (throw _) => apply to_throw
  | |- throws_only _ (gets _) => apply to_gets
  | |- throws_only _ (modify _) => apply to_modify
  | |- throws_only _ (match ?x with _ => _ end) => destruct x
  end.

Lemma eq_field_trans {X} (f : World -> X) w1 w2 w3 :
  f w2 = f w1 -> f w3 = f w2 -> f w3 = f w1.
Proof. congruence. Qed.

Ltac keeps_field f :=
  unfold_model; cbv [createExtractionJob updateExtractionJob];
  steps_with (fun w : World => @eq_refl _ (f w)) (eq_field_trans f)
             ltac:(reflexivity) ltac:(fail).

(** *** Nothing is lost *)

Lemma persists_refl w : persists w w.
Proof.
  split; [auto|]. split; [|auto].
  intros j r Hr. exists r. repeat split; auto.
Qed.

Lemma persists_trans w1 w2 w3 : persists w1 w2 -> persists w2 w3 -> persists w1 w3.
Proof.
  intros (Hb & Ht & Hc) (Hb' & Ht' & Hc'). split; [auto|]. split; [|auto].
  intros j r Hr. destruct (Ht _ _ Hr) as (r1 & Hr1 & H1 & H2 & H3 & H4).
  destruct (Ht' _ _ Hr1) as (r2 & Hr2 & H1' & H2' & H3' & H4').
  exists r2. split; [exact Hr2|]. repeat split; congruence.
Qed.

Lemma is_Some_insert {V} (m : gmap string V) k v k' :
  is_Some (m !! k') -> is_Some (<[k:=v]> m !! k').
Proof.
  intros H. rewrite lookup_insert. case_decide; [eauto|exact H].
Qed.

Lemma createExtractionJob_persists userId fileName fileUrl jobId :
  steps persists (createExtractionJob userId fileName fileUrl jobId).
Proof.
  intros w. world w. exec_snd.
  all: split; [auto|]; (split; [|auto]); simpl.
  all: intros j r Hr; exists r; split; [|repeat split; auto].
  all: first [ exact Hr | rewrite lookup_insert_ne; [exact Hr|congruence] ].
Qed.

Lemma updateExtractionJob_persists JSON_parse jobId status result error :
  steps persists (updateExtractionJob JSON_parse jobId status result error).
Proof.
  intros w. world w. exec_snd.
  all: split; [auto|]; (split; [|auto]); simpl.
  all: intros j r Hr.
  all: first
    [ exists r; split; [exact Hr|repeat split; auto]
    | rewrite lookup_insert; case_decide;
      [ subst; simplify_eq; eexists; split; [reflexivity|];
        repeat split; reflexivity
      | exists r; repeat split; auto ] ].
Qed.

(** *** Running a composed computation *)

Lemma bind_Return {A B} (m : M A) (k : A -> M B) w a w1 :
  m w = (Return a, w1) -> bind m k w = k a w1.
Proof. intros E. unfold bind. rewrite E. reflexivity. Qed.

Lemma bind_Throw {A B} (m : M A) (k : A -> M B) w e w1 :
  m w = (Throw e, w1) -> bind m k w = (Throw e, w1).
Proof. intros E. unfold bind. rewrite E. reflexivity. Qed.

Lemma try_Return {A} (b : M A) (h : Exn -> M A) w a w1 :
  b w = (Return a, w1) -> try_catch b h w = (Return a, w1).
Proof. intros E. unfold try_catch. rewrite E. reflexivity. Qed.

Lemma try_Throw {A} (b : M A) (h : Exn -> M A) w e w1 :
  b w = (Throw e, w1) -> try_catch b h w = h e w1.
Proof. intros E. unfold try_catch. rewrite E. reflexivity. Qed.

(** ** StorageService on its own *)

(** X1: upload, probe, read back: with S3 answering, what [uploadFile] stored
    under a key is what [fileExists] sees and [getFileBuffer] returns; the
    other two stores are not touched. *)
Theorem storage_round_trip key buffer contentType metadata w :
  quiet 3 (s3_faults w) ->
  exists w1,
    uploadFile key buffer contentType metadata w = (Return (urlOf w key), w1)
    /\ exists w2,
         fileExists key w1 = (Return true, w2)
         /\ exists w3,
              getFileBuffer key w2 = (Return buffer, w3)
              /\ bucket w3 = <[key := buffer]> (bucket w)
              /\ jobResultsMap w3 = jobResultsMap w
              /\ extractionJobs w3 = extractionJobs w.
Proof.
  intros Hq. world w. run. fwd; fwd; fwd; run; repeat split; reflexivity.
Qed.

(** X2: a missing object: [fileExists] answers [false], [getFileBuffer] throws
    a wrapped error; neither changes the bucket. *)
Theorem storage_missing_key key w :
  bucket w !! key = None ->
  quiet 1 (s3_faults w) ->
  (exists w', fileExists key w = (Return false, w') /\ bucket w' = bucket w)
  /\ (exists w',
        getFileBuffer key w
        = (Throw (new_Error
                    "Failed to get file: The specified key does not exist."),
           w')
        /\ bucket w' = bucket w).
Proof.
  intros Hb Hq. world w. run. split; fwd; run; reflexivity.
Qed.

(** X3: an S3 fault: [uploadFile] wraps it in a new [Error] with a prefixed
    message, logs it and stores nothing; [fileExists] lets it through as it
    is, unless it is named [NotFound], which it takes for an absent object
    even when the object is there. *)
Theorem storage_faults key buffer contentType metadata w e l :
  s3_faults w = Some e :: l ->
  (exists w',
     uploadFile key buffer contentType metadata w
     = (Throw (new_Error ("Failed to upload file: " +:+ exn_message e)), w')
     /\ bucket w' = bucket w
     /\ trace w'
        = (trace w ++
           [S3Put key buffer contentType metadata;
            LogError ("Failed to upload file: " +:+ exn_message e)])%list)
  /\ (exn_name e <> "NotFound" ->
      exists w', fileExists key w = (Throw e, w') /\ bucket w' = bucket w)
  /\ (exn_name e = "NotFound" ->
      exists w', fileExists key w = (Return false, w') /\ bucket w' = bucket w).
Proof.
  intros Hs. world w. run. subst. split; [|split].
  - fwd; run; rewrite <- ?app_assoc; repeat split; reflexivity.
  - intros Hn. apply String.eqb_neq in Hn. run.
    lazymatch goal with
    | |- exists w', ?t = _ /\ _ => destruct t as [? ?] eqn:E
    end.
    run. exec E; simplify_eq; eexists; split; reflexivity.
  - intros Hn. apply String.eqb_eq in Hn. run.
    lazymatch goal with
    | |- exists w', ?t = _ /\ _ => destruct t as [? ?] eqn:E
    end.
    run. exec E; simplify_eq; eexists; split; reflexivity.
Qed.

(** ** The job table on its own *)

(** X4: insert, then select: a created job is found again, as a [pending] row
    without result or error.  An id that is already taken makes the insert
    throw and leaves the row that was there. *)
Theorem createExtractionJob_then_get
    JSON_parse userId fileName fileUrl jobId w :
  jobId <> "" ->
  quiet 2 (db_faults w) ->
  (extractionJobs w !! jobId = None ->
   exists w1,
     createExtractionJob userId fileName fileUrl (Some jobId) w
     = (Return (ExtractedFile.mk jobId fileName fileUrl "pending" None None),
        w1)
     /\ exists w2,
          getExtractionJobById JSON_parse jobId w1
          = (Return (Some (ExtractedFile.mk jobId fileName fileUrl "pending"
                             None None)), w2)
          /\ extractionJobs w2
             = <[jobId := Row.mk jobId userId fileName fileUrl "pending" None
                            None]> (extractionJobs w))
  /\ (forall row,
        extractionJobs w !! jobId = Some row ->
        exists e w1,
          createExtractionJob userId fileName fileUrl (Some jobId) w
          = (Throw e, w1)
          /\ extractionJobs w1 = extractionJobs w).
Proof.
  intros Hj Hq. destruct jobId as [|c jobId]; [contradiction|]. split.
  - intros Hn. world w. run. fwd; fwd; run; reflexivity.
  - intros row Hr. world w. run.
    lazymatch goal with
    | |- exists e w', ?t = _ /\ _ => destruct t as [? ?] eqn:E
    end.
    run. exec E; simplify_eq; eexists _, _; split; reflexivity.
Qed.

(** X5: an update of a job that has no row is no upsert: it answers [null] and
    the table is as before. *)
Theorem updateExtractionJob_missing JSON_parse jobId status result error w :
  extractionJobs w !! jobId = None ->
  quiet 1 (db_faults w) ->
  exists w',
    updateExtractionJob JSON_parse jobId status result error w
    = (Return None, w')
    /\ extractionJobs w' = extractionJobs w.
Proof. intros Hn Hq. world w. run. fwd; run; reflexivity. Qed.

(** X6: an update rewrites [status], and [result] and [error] only when
    they are given; [id], [userId], [fileName] and [fileUrl] are never
    touched.  In particular an update to [completed] that gives no error
    keeps the error message of an earlier failure.  The record it returns
    is the stored row as drizzle reads it back: the text columns as they
    are stored, and the [jsonb] column parsed once more when it holds a
    string that parses as JSON. *)
Theorem updateExtractionJob_fields JSON_parse jobId status result error w row :
  extractionJobs w !! jobId = Some row ->
  quiet 1 (db_faults w) ->
  exists w' row' r,
    updateExtractionJob JSON_parse jobId status result error w
    = (Return (Some r), w')
    /\ extractionJobs w' = <[jobId := row']> (extractionJobs w)
    /\ Row.id row' = Row.id row /\ Row.userId row' = Row.userId row
    /\ Row.fileName row' = Row.fileName row
    /\ Row.fileUrl row' = Row.fileUrl row
    /\ Row.status row' = status
    /\ Row.result row'
       = match result with Some v => to_jsonb v | None => Row.result row end
    /\ Row.error row'
       = match error with Some m => Some m | None => Row.error row end
    /\ ExtractedFile.id r = Row.id row'
    /\ ExtractedFile.fileName r = Row.fileName row'
    /\ ExtractedFile.fileUrl r = Row.fileUrl row'
    /\ ExtractedFile.status r = Row.status row'
    /\ ExtractedFile.error r = Row.error row'
    /\ ExtractedFile.result r
       = match Row.result row' with
         | Some (JString s) =>
             match JSON_parse s with
             | inr v => to_jsonb v
             | inl _ => Some (JString s)
             end
         | stored => stored
         end.
Proof.
  intros Hr Hq. destruct row as [i u fn fu st rs er']. world w. run.
  lazymatch goal with
  | |- exists w' row' r, ?t = _ /\ _ => destruct t as [? ?] eqn:E
  end.
  run. exec E; simplify_eq.
  all: eexists _, (Row.mk _ _ _ _ _ _ _), (ExtractedFile.mk _ _ _ _ _ _);
    split; [reflexivity|]; run; repeat split; try reflexivity.
  all: unfold from_jsonb; destruct result as [[]|], rs as [[]|]; reflexivity.
Qed.

(** ** The key conventions *)

Lemma hexDigit_inj n m : n < 16 -> m < 16 -> hexDigit n = hexDigit m -> n = m.
Proof.
  intros Hn Hm. rewrite <- (N2Nat.id n), <- (N2Nat.id m).
  assert (Hn' : (N.to_nat n < 16)%nat) by lia.
  assert (Hm' : (N.to_nat m < 16)%nat) by lia.
  unfold hexDigit. rewrite !Nat2N.id.
  generalize dependent (N.to_nat m). generalize dependent (N.to_nat n).
  intros a Ha b Hb.
  do 16 (destruct a as [|a]; [do 16 (destruct b as [|b];
           [try reflexivity; vm_compute; discriminate|]); lia|]).
  lia.
Qed.

Lemma hex_pair_inj c c' :
  hexDigit (N_of_ascii c / 16) = hexDigit (N_of_ascii c' / 16) ->
  hexDigit (N_of_ascii c mod 16) = hexDigit (N_of_ascii c' mod 16) ->
  c = c'.
Proof.
  intros Hhi Hlo.
  assert (Hc := N_ascii_bounded c). assert (Hc' := N_ascii_bounded c').
  apply hexDigit_inj in Hhi;
    [|apply N.Div0.div_lt_upper_bound; lia..].
  apply hexDigit_inj in Hlo; [|apply N.mod_lt; lia..].
  rewrite <- (ascii_N_embedding c), <- (ascii_N_embedding c'). f_equal.
  rewrite (N.div_mod (N_of_ascii c) 16), (N.div_mod (N_of_ascii c') 16) by lia.
  congruence.
Qed.

Lemma encodeURIComponent_cons c s :
  encodeURIComponent (String c s)
  = if uriUnreserved c then String c (encodeURIComponent s)
    else String "%"
           (String (hexDigit (N_of_ascii c / 16))
              (String (hexDigit (N_of_ascii c mod 16))
                 (encodeURIComponent s))).
Proof. reflexivity. Qed.

Lemma append_cons c s t : String c s +:+ t = String c (s +:+ t).
Proof. reflexivity. Qed.

Lemma append_nil t : "" +:+ t = t.
Proof. reflexivity. Qed.

Lemma encodeURIComponent_inj s s' :
  encodeURIComponent s = encodeURIComponent s' -> s = s'.
Proof.
  revert s'. induction s as [|c s IH]; intros [|c' s'];
    rewrite ?encodeURIComponent_cons.
  - reflexivity.
  - destruct (uriUnreserved c'); discriminate.
  - destruct (uriUnreserved c); discriminate.
  - destruct (uriUnreserved c) eqn:Hc, (uriUnreserved c') eqn:Hc'.
    + intros [= -> H]. f_equal. apply IH, H.
    + intros [= -> _]. discriminate.
    + intros [= <- _]. discriminate.
    + intros [= Hhi Hlo H]. f_equal; [|apply IH, H].
      apply hex_pair_inj; assumption.
Qed.

Lemma append_inj_r s t t' : s +:+ t = s +:+ t' -> t = t'.
Proof.
  induction s; rewrite ?append_cons, ?append_nil; [auto|]. intros [= H]. auto.
Qed.

Lemma length_append s t :
  String.length (s +:+ t) = (String.length s + String.length t)%nat.
Proof.
  induction s as [|c s IH]; rewrite ?append_cons, ?append_nil;
    cbn [String.length]; [reflexivity|]. rewrite IH. reflexivity.
Qed.

Lemma append_json_inj s s' : s +:+ ".json" = s' +:+ ".json" -> s = s'.
Proof.
  revert s'. induction s as [|c s IH]; intros [|c' s'];
    rewrite ?append_cons, ?append_nil.
  - reflexivity.
  - intros H. apply (f_equal String.length) in H.
    cbn [String.length] in H. rewrite length_append in H.
    cbn [String.length] in H. lia.
  - intros H. apply (f_equal String.length) in H.
    cbn [String.length] in H. rewrite length_append in H.
    cbn [String.length] in H. lia.
  - intros [= -> H]. f_equal. apply IH, H.
Qed.

Lemma segment_inj a a' r r' :
  no_slash a = true -> no_slash a' = true ->
  a +:+ String "/" r = a' +:+ String "/" r' -> a = a' /\ r = r'.
Proof.
  revert a'. induction a as [|c a IH]; intros [|c' a'];
    rewrite ?append_cons, ?append_nil; cbn [no_slash]; intros Ha Ha'.
  - intros [= ->]. auto.
  - intros [= <- _]. discriminate.
  - intros [= -> _]. discriminate.
  - intros [= -> H]. apply andb_prop in Ha as [_ Ha].
    apply andb_prop in Ha' as [_ Ha'].
    destruct (IH _ Ha Ha' H) as [-> ->]. auto.
Qed.

Lemma encodeURIComponent_no_slash s : no_slash (encodeURIComponent s) = true.
Proof.
  induction s as [|c s IH]; [reflexivity|]. rewrite encodeURIComponent_cons.
  destruct (uriUnreserved c) eqn:Hc; cbn [no_slash].
  - rewrite IH, andb_true_r. destruct (Ascii.eqb_spec c "/"); [|reflexivity].
    subst. discriminate.
  - rewrite IH, andb_true_r.
    assert (H : forall n, n < 16 -> Ascii.eqb (hexDigit n) "/" = false).
    { intros n Hn. rewrite <- (N2Nat.id n). unfold hexDigit. rewrite Nat2N.id.
      assert (Hn' : (N.to_nat n < 16)%nat) by lia.
      generalize dependent (N.to_nat n). intros a Ha.
      do 16 (destruct a as [|a]; [reflexivity|]). lia. }
    assert (Hb := N_ascii_bounded c).
    rewrite !H; [reflexivity|apply N.mod_lt; lia
                |apply N.Div0.div_lt_upper_bound; lia].
Qed.

(** X7: objects never collide: for job ids that are one path segment, two
    uploads share a key under [originals/], or two results a key under
    [output/], only if they belong to the same job and the same file name,
    and no original shares a key with a result.  The file name may hold
    anything, slashes included: its encoding is one path segment. *)
Theorem keys_injective jobId fileName jobId' fileName' :
  no_slash jobId = true -> no_slash jobId' = true ->
  (originalKey jobId fileName = originalKey jobId' fileName' ->
   jobId = jobId' /\ fileName = fileName')
  /\ (outputKey jobId fileName = outputKey jobId' fileName' ->
      jobId = jobId' /\ fileName = fileName')
  /\ originalKey jobId fileName <> outputKey jobId' fileName'
  /\ no_slash (encodeURIComponent fileName) = true.
Proof.
  intros Hj Hj'. unfold originalKey, outputKey. split; [|split; [|split]].
  - intros H. apply append_inj_r in H.
    apply segment_inj in H as [-> H]; [|assumption..].
    split; [reflexivity|]. apply encodeURIComponent_inj, H.
  - intros H. apply append_inj_r in H.
    apply segment_inj in H as [-> H]; [|assumption..].
    split; [reflexivity|].
    apply encodeURIComponent_inj, append_json_inj, H.
  - cbv [String.append]. discriminate.
  - apply encodeURIComponent_no_slash.
Qed.

Lemma encodeURIComponent_length s :
  (String.length s <= String.length (encodeURIComponent s))%nat.
Proof.
  induction s as [|c s IH]; [reflexivity|]. rewrite encodeURIComponent_cons.
  destruct (uriUnreserved c); cbn [String.length]; lia.
Qed.

Lemma encodeURIComponent_fixed s :
  encodeURIComponent s = s <-> all_unreserved s = true.
Proof.
  induction s as [|c s IH]; [cbn; tauto|].
  rewrite encodeURIComponent_cons. cbn [all_unreserved].
  destruct (uriUnreserved c) eqn:Hc; cbn [andb].
  - rewrite <- IH. split; [intros [= H]; exact H|].
    intros H. rewrite H. reflexivity.
  - split; [|discriminate]. intros [= _ H].
    apply (f_equal String.length) in H. cbn [String.length] in H.
    pose proof (encodeURIComponent_length s). lia.
Qed.

(** X8: the two keys a status poll probes are one and the same exactly for the
    file names made of unreserved characters only; for every other name the
    legacy key is a different object. *)
Theorem legacy_key_coincides jobId fileName :
  outputKey jobId fileName = legacyKey jobId fileName
  <-> all_unreserved fileName = true.
Proof.
  rewrite <- encodeURIComponent_fixed. unfold outputKey, legacyKey. split.
  - intros H. do 3 apply append_inj_r in H. apply append_json_inj, H.
  - intros ->. reflexivity.
Qed.

(** ** The gateway *)

Section MoreProperties.

Variable JSON_stringify : Json -> string.
Variable JSON_parse : string -> Exn + Json.

(** ** Edges of [startExtraction] *)

(** X9: the engine answers [null]: reading [extractionResult.tables] throws, the
    job is recorded as failed with the [TypeError]'s message and the caller
    gets ['Document extraction failed']; the original stays in the bucket
    and no result object is written. *)
Theorem startExtraction_null_result
    fileBuffer fileName mimeType userId lang pn w rest :
  quiet 1 (s3_faults w) ->
  extract_replies w = inr JNull :: rest ->
  let jobId := generatedJobId w in
  exists w',
    startExtraction JSON_stringify fileBuffer fileName mimeType userId lang pn w
    = (Throw (InternalServerErrorException "Document extraction failed"), w')
    /\ jobResultsMap w'
       = <[jobId := CachedJob.mk failed "" (Some fileName) None
                      (Some "Cannot read properties of null (reading 'tables')")]>
           (jobResultsMap w)
    /\ bucket w' = <[originalKey jobId fileName := fileBuffer]> (bucket w).
Proof.
  intros Hq He jobId. subst jobId. world w. run. subst.
  fwd; run; repeat split; reflexivity.
Qed.

(** X10: the engine succeeds and the upload of the result fails: the job is
    recorded as failed, without the result the engine returned, and the
    caller gets ['Document extraction failed']; the original stays in the
    bucket. *)
Theorem startExtraction_result_upload_failure
    fileBuffer fileName mimeType userId lang pn w d rest e l :
  d <> JNull ->
  s3_faults w = None :: Some e :: l ->
  extract_replies w = inr d :: rest ->
  let jobId := generatedJobId w in
  exists w',
    startExtraction JSON_stringify fileBuffer fileName mimeType userId lang pn w
    = (Throw (InternalServerErrorException "Document extraction failed"), w')
    /\ jobResultsMap w'
       = <[jobId := CachedJob.mk failed "" (Some fileName) None
                      (Some ("Failed to upload file: " +:+ exn_message e))]>
           (jobResultsMap w)
    /\ bucket w' = <[originalKey jobId fileName := fileBuffer]> (bucket w)
    /\ extractionJobs w' = extractionJobs w.
Proof.
  intros Hd Hs He jobId. subst jobId. world w. run. subst.
  fwd; run; repeat split; reflexivity.
Qed.

(** X11: how an engine failure is surfaced: a response takes precedence and gives
    a [BadRequestException] with the engine's [detail], or ['Extraction
    failed'] when there is none; without a response the error code decides
    between the three [InternalServerErrorException]s. *)
Theorem startExtraction_error_mapping
    fileBuffer fileName mimeType userId lang pn w e rest :
  quiet 1 (s3_faults w) ->
  extract_replies w = inl e :: rest ->
  exists thrown w',
    startExtraction JSON_stringify fileBuffer fileName mimeType userId lang pn w
    = (Throw thrown, w')
    /\ (forall r,
          exn_response e = Some r ->
          thrown = BadRequestException
                     (or_default (resp_detail r) "Extraction failed"))
    /\ (exn_response e = None -> exn_code e = Some "ECONNREFUSED" ->
        thrown = InternalServerErrorException
                   "Python extraction service is not running. Please start the API service on port 8000.")
    /\ (exn_response e = None ->
        exn_code e = Some "ETIMEDOUT" \/ exn_code e = Some "ECONNABORTED" ->
        thrown = InternalServerErrorException
                   "Request to Python service timed out. Please try again.")
    /\ (exn_response e = None ->
        exn_code e <> Some "ECONNREFUSED" -> exn_code e <> Some "ETIMEDOUT" ->
        exn_code e <> Some "ECONNABORTED" ->
        thrown = InternalServerErrorException "Document extraction failed").
Proof.
  intros Hq He.
  exists (match exn_response e with
          | Some response =>
              BadRequestException
                (or_default (resp_detail response) "Extraction failed")
          | None =>
              if bool_decide (exn_code e = Some "ECONNREFUSED") then
                InternalServerErrorException
                  "Python extraction service is not running. Please start the API service on port 8000."
              else if bool_decide (exn_code e = Some "ETIMEDOUT")
                      || bool_decide (exn_code e = Some "ECONNABORTED") then
                InternalServerErrorException
                  "Request to Python service timed out. Please try again."
              else InternalServerErrorException "Document extraction failed"
          end).
  eexists (snd _). split; [apply run_pair|].
  - world w. simpl in Hq, He. subst.
    lazymatch goal with
    | |- fst ?t = _ => destruct t as [? ?] eqn:E
    end.
    run. exec E; simplify_eq; reflexivity.
  - split; [|split; [|split]].
    + intros r ->. reflexivity.
    + intros -> ->. reflexivity.
    + intros -> [-> | ->]; reflexivity.
    + intros -> H1 H2 H3.
      rewrite !bool_decide_eq_false_2 by assumption. reflexivity.
Qed.

(** ** Edges of a status poll *)

(** X12: the database is down during a poll: the failure is logged and
    swallowed, no S3 call is made, and the engine's answer is returned. *)
Theorem getExtractionStatus_db_failure jobId w e l reply rest :
  jobResultsMap w !! jobId = None ->
  db_faults w = Some e :: l ->
  status_replies w = inr reply :: rest ->
  exists w',
    getExtractionStatus JSON_parse jobId w = (Return reply, w')
    /\ trace w'
       = (trace w ++
          [DbSelect jobId;
           LogWarn ("Failed to get job from DB: " +:+ exn_message e);
           EngineStatus jobId])%list
    /\ jobResultsMap w' = jobResultsMap w.
Proof.
  intros Hc Hd Hs. world w. run. subst.
  fwd; run; rewrite <- ?app_assoc; repeat split; reflexivity.
Qed.

(** X13: a failure on the first key does not end the probe: when the object
    under the encoded key does not parse, or when S3 fails on the first
    [HEAD], a warning is logged and the legacy key is tried, and its content
    is served. *)
Theorem getExtractionStatus_first_key_failure jobId w row text' d :
  jobResultsMap w !! jobId = None ->
  quiet 1 (db_faults w) ->
  extractionJobs w !! jobId = Some row ->
  Row.fileName row <> "" ->
  bucket w !! legacyKey jobId (Row.fileName row) = Some text' ->
  JSON_parse text' = inr d ->
  let answer :=
    ExtractionStatusResponse.mk jobId completed (Some "") (Some d) None in
  (forall text pe,
     quiet 4 (s3_faults w) ->
     bucket w !! outputKey jobId (Row.fileName row) = Some text ->
     JSON_parse text = inl pe ->
     exists w',
       getExtractionStatus JSON_parse jobId w = (Return answer, w')
       /\ trace w'
          = (trace w ++
             [DbSelect jobId;
              S3Head (outputKey jobId (Row.fileName row));
              S3Get (outputKey jobId (Row.fileName row));
              LogWarn ("Failed to fetch from S3 with key "
                       +:+ outputKey jobId (Row.fileName row) +:+ ": "
                       +:+ exn_message pe);
              S3Head (legacyKey jobId (Row.fileName row));
              S3Get (legacyKey jobId (Row.fileName row))])%list)
  /\ (forall e l,
        s3_faults w = Some e :: l -> quiet 2 l ->
        exn_name e <> "NotFound" ->
        exists w',
          getExtractionStatus JSON_parse jobId w = (Return answer, w')
          /\ trace w'
             = (trace w ++
                [DbSelect jobId;
                 S3Head (outputKey jobId (Row.fileName row));
                 LogWarn ("Failed to fetch from S3 with key "
                          +:+ outputKey jobId (Row.fileName row) +:+ ": "
                          +:+ exn_message e);
                 S3Head (legacyKey jobId (Row.fileName row));
                 S3Get (legacyKey jobId (Row.fileName row))])%list).
Proof.
  intros Hc Hd Hrow Hfn Hb' Hp' answer. subst answer.
  destruct row as [i u fn fu st rs er']. split.
  - intros text pe Hq Hb Hp. world w. run. subst.
    fwd; run; rewrite <- ?app_assoc; repeat split; reflexivity.
  - intros e l Hs Hq Hn. apply String.eqb_neq in Hn. world w. run. subst.
    fwd; run; rewrite <- ?app_assoc; repeat split; reflexivity.
Qed.

(** X14: what the engine fallback surfaces for a job known nowhere else: an
    answer with HTTP status 404 becomes ['Job not found'], whatever the
    error code; otherwise a refused connection is told apart from any other
    failure. *)
Theorem getExtractionStatus_engine_errors jobId w e rest :
  jobResultsMap w !! jobId = None ->
  quiet 1 (db_faults w) ->
  extractionJobs w !! jobId = None ->
  status_replies w = inl e :: rest ->
  exists thrown w',
    getExtractionStatus JSON_parse jobId w = (Throw thrown, w')
    /\ jobResultsMap w' = jobResultsMap w
    /\ (forall r, exn_response e = Some r -> resp_status r = Some 404 ->
        thrown = BadRequestException "Job not found")
    /\ ((forall r, exn_response e = Some r -> resp_status r <> Some 404) ->
        exn_code e = Some "ECONNREFUSED" ->
        thrown = InternalServerErrorException
                   "Python extraction service is not running.")
    /\ ((forall r, exn_response e = Some r -> resp_status r <> Some 404) ->
        exn_code e <> Some "ECONNREFUSED" ->
        thrown = InternalServerErrorException
                   "Failed to get extraction status").
Proof.
  intros Hc Hd Hrow Hs.
  exists (if bool_decide ((exn_response e ≫= resp_status) = Some 404) then
            BadRequestException "Job not found"
          else if bool_decide (exn_code e = Some "ECONNREFUSED") then
            InternalServerErrorException
              "Python extraction service is not running."
          else
            InternalServerErrorException "Failed to get extraction status").
  eexists (snd _). split; [apply run_pair|split].
  - world w. simpl in Hc, Hd, Hrow, Hs. subst.
    lazymatch goal with
    | |- fst ?t = _ => destruct t as [? ?] eqn:E
    end.
    run. exec E; simplify_eq; reflexivity.
  - world w. simpl in Hc, Hd, Hrow, Hs. subst.
    lazymatch goal with
    | |- context [snd ?t] => destruct t as [? ?] eqn:E
    end.
    run. exec E; simplify_eq; reflexivity.
  - assert (H404 : (forall r, exn_response e = Some r -> resp_status r <> Some 404)
                   -> (exn_response e ≫= resp_status) <> Some 404).
    { intros H. destruct (exn_response e) as [r|] eqn:Er; simpl; [|discriminate].
      apply (H r eq_refl). }
    split; [|split].
    + intros r Hr H4. rewrite Hr. simpl. rewrite H4.
      rewrite bool_decide_eq_true_2 by reflexivity. reflexivity.
    + intros H Hcode. rewrite (bool_decide_eq_false_2 _ (H404 H)), Hcode.
      reflexivity.
    + intros H Hcode. rewrite (bool_decide_eq_false_2 _ (H404 H)).
      rewrite (bool_decide_eq_false_2 _ Hcode). reflexivity.
Qed.

(** ** The controller's status endpoint *)

(** What a poll of a cached job writes back: the result column gets the
    cached data, or NULL when there is none or it is falsy; the error
    column gets the cached message, and is kept when there is none or it
    is empty. *)
Lemma controller_poll_recorded jobId w row entry :
  extractionJobs w !! jobId = Some row ->
  quiet 1 (db_faults w) ->
  jobResultsMap w !! jobId = Some entry ->
  CachedJob.status entry = completed \/ CachedJob.status entry = failed ->
  exists w',
    controller_getExtractionStatus JSON_parse jobId w
    = (Return (view jobId entry), w')
    /\ extractionJobs w'
       = <[jobId := Row.mk (Row.id row) (Row.userId row) (Row.fileName row)
                      (Row.fileUrl row)
                      (status_string (CachedJob.status entry))
                      (match CachedJob.data entry with
                       | Some d => if falsy (Some d) then None else Some d
                       | None => None
                       end)
                      (match CachedJob.error entry with
                       | Some (String c s) => Some (String c s)
                       | _ => Row.error row
                       end)]> (extractionJobs w)
    /\ jobResultsMap w' = jobResultsMap w.
Proof.
  intros Hrow Hq Hc Hst. destruct row as [i u f fu st rs er'].
  destruct entry as [est eu efn eda eer]. world w. run. subst.
  destruct Hst as [-> | ->].
  all: fwd; run; (split; [|reflexivity]); f_equal; f_equal.
  all: try (destruct eda as [[|[]|[]|[]| |]|]; reflexivity).
  all: destruct eer as [[]|]; reflexivity.
Qed.

(** A poll of a cached job answers the cache entry and leaves the cache
    alone, whatever the database does. *)
Lemma controller_poll_hit jobId w entry :
  jobResultsMap w !! jobId = Some entry ->
  fst (controller_getExtractionStatus JSON_parse jobId w)
  = Return (view jobId entry)
  /\ jobResultsMap (snd (controller_getExtractionStatus JSON_parse jobId w))
     = jobResultsMap w.
Proof.
  intros Hc. destruct entry as [est eu efn eda eer]. world w.
  destruct (controller_getExtractionStatus JSON_parse jobId _) as [o w']
    eqn:E.
  run. subst. exec E; simplify_eq; split; reflexivity.
Qed.

(** It creates no row. *)
Lemma controller_poll_no_row jobId w entry :
  jobResultsMap w !! jobId = Some entry ->
  extractionJobs w !! jobId = None ->
  extractionJobs (snd (controller_getExtractionStatus JSON_parse jobId w))
  = extractionJobs w.
Proof.
  intros Hc Hrow. destruct entry as [est eu efn eda eer]. world w.
  destruct (controller_getExtractionStatus JSON_parse jobId _) as [o w']
    eqn:E.
  run. subst. exec E; simplify_eq; reflexivity.
Qed.

(** X15: a poll through the controller brings the durable record in line
    with the cache.  For a job that is cached as [completed] or [failed],
    with a row and the database answering, the poll answers the cache
    entry and the row gets the cached status; its result column gets the
    cached data, or NULL when there is none or it is falsy; its error
    column gets the cached error message, and is kept when there is none
    or it is empty.  The four creation-time columns are kept and the cache
    is unchanged. *)
Theorem controller_poll_syncs_record jobId w row entry :
  extractionJobs w !! jobId = Some row ->
  quiet 1 (db_faults w) ->
  jobResultsMap w !! jobId = Some entry ->
  CachedJob.status entry = completed \/ CachedJob.status entry = failed ->
  exists w',
    controller_getExtractionStatus JSON_parse jobId w
    = (Return (ExtractionStatusResponse.mk jobId (CachedJob.status entry)
                 (Some (CachedJob.fileUrl entry)) (CachedJob.data entry)
                 (CachedJob.error entry)), w')
    /\ extractionJobs w'
       = <[jobId := Row.mk (Row.id row) (Row.userId row) (Row.fileName row)
                      (Row.fileUrl row)
                      (status_string (CachedJob.status entry))
                      (match CachedJob.data entry with
                       | Some d => if falsy (Some d) then None else Some d
                       | None => None
                       end)
                      (match CachedJob.error entry with
                       | Some (String c s) => Some (String c s)
                       | _ => Row.error row
                       end)]> (extractionJobs w)
    /\ jobResultsMap w' = jobResultsMap w.
Proof. exact (controller_poll_recorded jobId w row entry). Qed.

(** X16: the write-back of a poll is best-effort, and only terminal statuses are
    written back: a database failure is logged and the status is returned
    all the same; for a job the engine reports as [pending] or [processing]
    the table is not touched at all. *)
Theorem controller_poll_write_back jobId w :
  (forall entry e l,
     jobResultsMap w !! jobId = Some entry ->
     CachedJob.status entry = completed \/ CachedJob.status entry = failed ->
     db_faults w = Some e :: l ->
     exists w',
       controller_getExtractionStatus JSON_parse jobId w
       = (Return (view jobId entry), w')
       /\ extractionJobs w' = extractionJobs w
       /\ trace w'
          = (trace w ++
             [DbUpdate jobId;
              LogWarn ("Failed to update job record in database: "
                       +:+ exn_message e)])%list)
  /\ (forall reply rest,
        jobResultsMap w !! jobId = None ->
        extractionJobs w !! jobId = None ->
        quiet 1 (db_faults w) ->
        status_replies w = inr reply :: rest ->
        ExtractionStatusResponse.status reply = pending
        \/ ExtractionStatusResponse.status reply = processing ->
        exists w',
          controller_getExtractionStatus JSON_parse jobId w
          = (Return reply, w')
          /\ trace w' = (trace w ++ [DbSelect jobId; EngineStatus jobId])%list
          /\ extractionJobs w' = extractionJobs w).
Proof.
  split.
  - intros entry e l Hc Hst Hd. destruct entry as [st fu fn da er'].
    world w. run. subst.
    destruct Hst as [-> | ->].
    all: fwd; run; rewrite <- ?app_assoc; repeat split; reflexivity.
  - intros reply rest Hc Hrow Hd Hs Hst. destruct reply as [j st fu da er'].
    world w. run. subst.
    destruct Hst as [-> | ->].
    all: fwd; run; rewrite <- ?app_assoc; repeat split; reflexivity.
Qed.

(** What a successful [POST extract] leaves in the cache. *)
Lemma extractDocument_Return_cache c file tl pn uid :
  cache_spec c (extractDocument JSON_stringify file tl pn uid)
    (fun o c' =>
       match o with
       | Return r =>
           exists jobId url fn,
             ExtractionResponse.job_id r = Some jobId
             /\ ExtractionResponse.file_url r = Some url
             /\ c' !! jobId
                = Some (CachedJob.mk completed url fn
                                     (Some (ExtractionResponse.data r)) None)
       | Throw _ => True
       end).
Proof.
  unfold_gateway. walk; auto.
  all: eexists _, _, _; repeat split; simpl; apply lookup_insert_eq.
Qed.

(** X17: extract, then poll: after a successful [POST extract], a poll
    through the controller for the returned job id answers [completed]
    with the returned result and file URL, whatever the database does, and
    leaves the cache alone.  When the job has a row and the database
    answers, the row is marked [completed] and gets the result (NULL when
    the result is falsy), keeping its other columns; when the job has no
    row, none is created. *)
Theorem extract_then_poll file tl pn uid w r w1 :
  extractDocument JSON_stringify file tl pn uid w = (Return r, w1) ->
  exists jobId,
    ExtractionResponse.job_id r = Some jobId
    /\ fst (controller_getExtractionStatus JSON_parse jobId w1)
       = Return (ExtractionStatusResponse.mk jobId completed
                   (ExtractionResponse.file_url r)
                   (Some (ExtractionResponse.data r)) None)
    /\ jobResultsMap (snd (controller_getExtractionStatus JSON_parse jobId w1))
       = jobResultsMap w1
    /\ (forall row,
          extractionJobs w1 !! jobId = Some row ->
          quiet 1 (db_faults w1) ->
          extractionJobs
            (snd (controller_getExtractionStatus JSON_parse jobId w1))
          = <[jobId := Row.mk (Row.id row) (Row.userId row)
                         (Row.fileName row) (Row.fileUrl row) "completed"
                         (if falsy (Some (ExtractionResponse.data r))
                          then None else Some (ExtractionResponse.data r))
                         (Row.error row)]> (extractionJobs w1))
    /\ (extractionJobs w1 !! jobId = None ->
        extractionJobs
          (snd (controller_getExtractionStatus JSON_parse jobId w1))
        = extractionJobs w1).
Proof.
  intros E.
  destruct (cs_run _ _ _ _ _ _ (extractDocument_Return_cache _ file tl pn uid)
              eq_refl E) as (jobId & url & fn & Hj & Hu & Hc).
  exists jobId. split; [exact Hj|].
  destruct (controller_poll_hit jobId w1 _ Hc) as [Hfst Hcache].
  rewrite Hu. split; [exact Hfst|]. split; [exact Hcache|]. split.
  - intros row Hrow Hq.
    destruct (controller_poll_recorded jobId w1 row _ Hrow Hq Hc
                (or_introl eq_refl)) as (w2 & E2 & Ht & _).
    rewrite E2. exact Ht.
  - intros Hrow. exact (controller_poll_no_row jobId w1 _ Hc Hrow).
Qed.

(** ** What the operations leave alone *)

Lemma getExtractionStatus_keeps_bucket jobId :
  steps (fun w w' => bucket w' = bucket w)
        (getExtractionStatus JSON_parse jobId).
Proof. keeps_field bucket. Qed.

Lemma getExtractionStatus_keeps_table jobId :
  steps (fun w w' => extractionJobs w' = extractionJobs w)
        (getExtractionStatus JSON_parse jobId).
Proof. keeps_field extractionJobs. Qed.

Lemma getExtractionStatus_cache_frame c jobId :
  cache_spec c (getExtractionStatus JSON_parse jobId)
    (fun _ c' => forall j, j <> jobId -> c' !! j = c !! j).
Proof.
  unfold_gateway. walk; auto.
  all: intros j Hj; apply lookup_insert_ne; congruence.
Qed.

(** X18: a status poll of the service is read-only on the durable stores: it
    writes neither the bucket nor the job table, and in the cache it touches
    at most the entry of the polled job, on every path. *)
Theorem getExtractionStatus_frame jobId w :
  let w' := snd (getExtractionStatus JSON_parse jobId w) in
  bucket w' = bucket w
  /\ extractionJobs w' = extractionJobs w
  /\ (forall j, j <> jobId -> jobResultsMap w' !! j = jobResultsMap w !! j).
Proof.
  split; [apply getExtractionStatus_keeps_bucket|].
  split; [apply getExtractionStatus_keeps_table|].
  exact (getExtractionStatus_cache_frame _ jobId w eq_refl).
Qed.

(** X19: [startExtraction] writes the bucket under its two keys only, leaves the
    job table alone and touches no cache entry but the one of the id it
    generated, on every path. *)
Theorem startExtraction_frame fileBuffer fileName mimeType userId lang pn w :
  let w' := snd (startExtraction JSON_stringify fileBuffer fileName mimeType
                   userId lang pn w) in
  extractionJobs w' = extractionJobs w
  /\ (forall k,
        k <> originalKey (generatedJobId w) fileName ->
        k <> outputKey (generatedJobId w) fileName ->
        bucket w' !! k = bucket w !! k)
  /\ (forall j, j <> generatedJobId w ->
        jobResultsMap w' !! j = jobResultsMap w !! j).
Proof.
  world w. cbv zeta. exec_snd.
  all: repeat split; intros;
    rewrite ?lookup_insert_ne by congruence; reflexivity.
Qed.

(** *** Only HTTP exceptions leave the gateway *)

Lemma http_exception_extraction_tail error :
  http_exception
    (match exn_response error with
     | Some response =>
         BadRequestException
           (or_default (resp_detail response) "Extraction failed")
     | None =>
         if bool_decide (exn_code error = Some "ECONNREFUSED") then
           InternalServerErrorException
             "Python extraction service is not running. Please start the API service on port 8000."
         else if bool_decide (exn_code error = Some "ETIMEDOUT")
                 || bool_decide (exn_code error = Some "ECONNABORTED") then
           InternalServerErrorException
             "Request to Python service timed out. Please try again."
         else
           InternalServerErrorException "Document extraction failed"
     end).
Proof. repeat case_match; exact I. Qed.

Lemma http_exception_status_tail error :
  http_exception
    (if bool_decide ((exn_response error ≫= resp_status) = Some 404) then
       BadRequestException "Job not found"
     else if bool_decide (exn_code error = Some "ECONNREFUSED") then
       InternalServerErrorException
         "Python extraction service is not running."
     else
       InternalServerErrorException "Failed to get extraction status").
Proof. repeat case_match; exact I. Qed.

(** X20: whatever fails underneath (S3, the database, the engine, a parse),
    [startExtraction] and [getExtractionStatus] of the service, the upload
    endpoint, and the edit endpoint for a request that has a body, throw
    nothing but a [BadRequestException] or an
    [InternalServerErrorException].  A [PUT] without a body is outside
    that: the read of [body.data] before the [try] block throws a
    [TypeError], and nothing else happens. *)
Theorem only_http_exceptions :
  (forall fileBuffer fileName mimeType userId lang pn,
     throws_only http_exception
       (startExtraction JSON_stringify fileBuffer fileName mimeType userId
                        lang pn))
  /\ (forall jobId,
        throws_only http_exception (getExtractionStatus JSON_parse jobId))
  /\ (forall file tl pn uid,
        throws_only http_exception
          (extractDocument JSON_stringify file tl pn uid))
  /\ (forall jobId data,
        throws_only http_exception
          (updateExtractionResult JSON_stringify JSON_parse jobId
                                  (Some data)))
  /\ (forall jobId w,
        updateExtractionResult JSON_stringify JSON_parse jobId None w
        = (Throw (Error "TypeError"
                    "Cannot read properties of undefined (reading 'data')"
                    None None), w)).
Proof.
  split; [|split; [|split; [|split]]]; intros; [..|reflexivity];
    unfold_model; cbv [createExtractionJob updateExtractionJob]; throws;
    first [ exact I | apply http_exception_extraction_tail
          | apply http_exception_status_tail ].
Qed.

(** *** Nothing is ever deleted *)

(** X21: no request deletes anything: after any of the three requests every blob,
    every row of the job table and every cache entry that was there is
    still there, and a row has kept its [id], [userId], [fileName] and
    [fileUrl]. *)
Theorem requests_persist rq w :
  persists w (handle JSON_stringify JSON_parse rq w).
Proof.
  assert (H : (forall file tl pn uid,
                 steps persists
                   (extractDocument JSON_stringify file tl pn uid))
              /\ (forall jobId,
                    steps persists
                      (controller_getExtractionStatus JSON_parse jobId))
              /\ (forall jobId body,
                    steps persists
                      (updateExtractionResult JSON_stringify JSON_parse jobId
                                              body))).
  { split; [|split]; intros; unfold_model;
      steps_with persists_refl persists_trans
        ltac:(first
                [ apply persists_refl
                | split; [|split]; simpl;
                  [ intros ?; first [ apply is_Some_insert | auto ]
                  | let Hr := fresh "Hr" in
                    intros ? ? Hr; eexists; split; [exact Hr|];
                    repeat split; reflexivity
                  | intros ?; first [ apply is_Some_insert | auto ] ] ])
        ltac:(first [ apply createExtractionJob_persists
                    | apply updateExtractionJob_persists ]). }
  destruct H as (Hpost & Hget & Hput). destruct rq; simpl.
  - apply Hpost.
  - apply Hget.
  - apply Hput.
Qed.

(** ** The edit endpoint and the upload endpoint, on every path *)

(** X22: an edit without a payload ([undefined], [null], [false], [0] or the
    empty string) is refused before any store is contacted: nothing but two
    log lines happens, and the message the client gets is the validation
    message behind the prefix of the outer handler. *)
Theorem updateExtractionResult_no_data jobId data w :
  falsy data = true ->
  exists w',
    updateExtractionResult JSON_stringify JSON_parse jobId (Some data) w
    = (Throw (BadRequestException
                "Failed to update extraction result: No data provided"), w')
    /\ w' = set_trace
              (fun t =>
                 (t ++ [LogError "No data provided in request body";
                        LogError ("Failed to update extraction result for job "
                                  +:+ jobId +:+ ": No data provided")])%list) w.
Proof.
  intros Hf. world w.
  lazymatch goal with
  | |- exists w', ?t = _ /\ _ => destruct t as [? ?] eqn:E
  end.
  run. exec E; simplify_eq.
  all: eexists; split; [reflexivity|]; run; rewrite <- ?app_assoc; reflexivity.
Qed.

(** What the three stores hold when the edit endpoint has answered. *)
Lemma updateExtractionResult_Return_inv jobId data w r w1 :
  updateExtractionResult JSON_stringify JSON_parse jobId
    (Some data) w = (Return r, w1) ->
  exists d row,
    data = Some d /\ falsy (Some d) = false
    /\ r = (true, "Extraction result updated successfully")
    /\ extractionJobs w1 !! jobId = Some row
    /\ Row.status row = "completed" /\ Row.result row = to_jsonb d
    /\ bucket w1 !! outputKey jobId (Row.fileName row)
       = Some (JSON_stringify d)
    /\ jobResultsMap w1 !! jobId
       = Some (CachedJob.mk completed (Row.fileUrl row)
                            (Some (Row.fileName row)) (Some d) None).
Proof.
  intros E. world w. run. exec E; simplify_eq.
  all: eexists _, (Row.mk _ _ _ _ _ _ _); split; [reflexivity|];
    split; [assumption|]; split; [reflexivity|];
    split; [apply lookup_insert_eq|];
    split; [reflexivity|]; split; [reflexivity|];
    split; apply lookup_insert_eq.
Qed.

(** X23: a successful edit is visible everywhere: whenever the edit endpoint
    answers, on whatever path, the payload was a real one, the result
    object of the job holds its serialisation, the job's row says
    [completed] and stores it, the cache entry is [completed] with it, and
    a status poll answers it. *)
Theorem updateExtractionResult_read_your_writes jobId data w r w1 :
  updateExtractionResult JSON_stringify JSON_parse jobId
    (Some data) w = (Return r, w1) ->
  exists d row,
    data = Some d /\ falsy (Some d) = false
    /\ r = (true, "Extraction result updated successfully")
    /\ extractionJobs w1 !! jobId = Some row
    /\ Row.status row = "completed" /\ Row.result row = to_jsonb d
    /\ bucket w1 !! outputKey jobId (Row.fileName row)
       = Some (JSON_stringify d)
    /\ jobResultsMap w1 !! jobId
       = Some (CachedJob.mk completed (Row.fileUrl row)
                            (Some (Row.fileName row)) (Some d) None)
    /\ getExtractionStatus JSON_parse jobId w1
       = (Return (ExtractionStatusResponse.mk jobId completed
                    (Some (Row.fileUrl row)) (Some d) None), w1).
Proof.
  intros E.
  destruct (updateExtractionResult_Return_inv _ _ _ _ _ E)
    as (d & row & H1 & H2 & H3 & H4 & H5 & H6 & H7 & H8).
  exists d, row. repeat (split; [assumption|]).
  exact (getExtractionStatus_hit JSON_parse jobId w1 _ H8).
Qed.

(** X24: a failed upload leaves no durable record: whenever [POST extract]
    throws, the job table is as it was and no insert was attempted. *)
Theorem extractDocument_failure_leaves_no_record file tl pn uid w e w1 :
  extractDocument JSON_stringify file tl pn uid w = (Throw e, w1) ->
  extractionJobs w1 = extractionJobs w
  /\ exists evs,
       trace w1 = (trace w ++ evs)%list
       /\ forall id, ~ In (DbInsert id) evs.
Proof.
  intros E. world w. run. exec E; simplify_eq.
  all: split; [reflexivity|]; run; rewrite <- ?app_assoc;
    eexists; (split; [try reflexivity; symmetry; apply app_nil_r|]);
    intros id Hin; simpl in Hin;
    repeat (destruct Hin as [Hin|Hin]; [discriminate|]); exact Hin.
Qed.

End MoreProperties.

Section RetrievalProperties.

Variable URL_pathname : string -> Exn + string.
Variable getSignedUrl : string -> string -> N -> Exn + string.
Variable JSON_parse : string -> Exn + Json.

(** ** Retrieval of the original *)

Lemma split_slash_cons s : exists p ps, split_slash s = p :: ps.
Proof.
  induction s as [|c s (p & ps & IH)]; cbn [split_slash]; [eauto|].
  destruct (Ascii.eqb c "/"); [eauto|]. rewrite IH. eauto.
Qed.

(** [split] and [join] are inverse to each other. *)
Lemma join_split s : join_slash (split_slash s) = s.
Proof.
  induction s as [|c s IH]; [reflexivity|]. cbn [split_slash].
  destruct (split_slash_cons s) as (p & ps & Hs). rewrite Hs in *.
  destruct (Ascii.eqb_spec c "/") as [->|_].
  - cbn [join_slash] in *. rewrite IH. reflexivity.
  - cbn [join_slash] in *. destruct ps; rewrite <- IH; reflexivity.
Qed.

Lemma split_segment b k :
  no_slash b = true -> split_slash (b +:+ String "/" k) = b :: split_slash k.
Proof.
  induction b as [|c b IH]; rewrite ?append_cons, ?append_nil;
    cbn [no_slash split_slash]; [reflexivity|].
  intros [Hc Hb]%andb_prop. apply negb_true_iff in Hc. rewrite Hc.
  rewrite (IH Hb). reflexivity.
Qed.

Lemma prefix_append p s : String.prefix p (p +:+ s) = true.
Proof.
  induction p as [|c p IH]; [destruct s; reflexivity|]. rewrite append_cons.
  cbn [String.prefix]. destruct (ascii_dec c c); [exact IH|contradiction].
Qed.

Lemma string_append_assoc a b c : a +:+ b +:+ c = (a +:+ b) +:+ c.
Proof.
  induction a as [|x a IH]; [reflexivity|].
  change (String x (a +:+ b +:+ c) = String x ((a +:+ b) +:+ c)).
  f_equal. exact IH.
Qed.

Lemma substring_from_append p s :
  substring_from (String.length p) (p +:+ s) = s.
Proof. induction p as [|c p IH]; [reflexivity|exact IH]. Qed.

Lemma replace_first_eq pat rep s :
  replace_first pat rep s
  = if String.prefix pat s then
      rep +:+ substring_from (String.length pat) s
    else match s with
         | EmptyString => EmptyString
         | String c s' => String c (replace_first pat rep s')
         end.
Proof. destruct s; reflexivity. Qed.

Lemma replace_first_prefix p r s : replace_first p r (p +:+ s) = r +:+ s.
Proof.
  rewrite replace_first_eq, prefix_append, substring_from_append.
  reflexivity.
Qed.

(** X25: an [s3://bucket/key] locator gives back its key, whatever the key
    holds, and the world is not consulted. *)
Theorem extractKeyFromUrl_s3 b key w :
  no_slash b = true ->
  extractKeyFromUrl URL_pathname ("s3://" +:+ b +:+ "/" +:+ key) w
  = (Return key, w).
Proof.
  intros Hb. unfold extractKeyFromUrl.
  rewrite prefix_append, replace_first_prefix, append_nil.
  change ("/" +:+ key) with (String "/" key).
  rewrite (split_segment _ _ Hb). cbn [tail]. rewrite join_split. reflexivity.
Qed.

Lemma prefix_slash_segment b s :
  b <> "" -> no_slash b = true -> String.prefix "/" (b +:+ s) = false.
Proof.
  destruct b as [|c b]; [contradiction|]. intros _. rewrite append_cons.
  cbn [no_slash String.prefix]. intros [Hc _]%andb_prop.
  destruct (ascii_dec "/" c) as [<-|_]; [discriminate|reflexivity].
Qed.

Lemma extractKeyFromUrl_plain url key w :
  String.prefix "s3://" url = false ->
  String.prefix "/" key = false ->
  String.prefix (bucketName w +:+ "/") key = false ->
  URL_pathname url = inr ("/" +:+ key) ->
  extractKeyFromUrl URL_pathname url w = (Return key, w).
Proof.
  intros Hs3 Hk Hbk Hp. unfold extractKeyFromUrl. rewrite Hs3, Hp.
  unfold bind, gets, ret.
  change (substring_from 1 ("/" +:+ key)) with key.
  rewrite Hk, Hbk. reflexivity.
Qed.

(** X26: the URL shapes of one object all name its key: virtual-hosted style,
    path style with the bucket as first segment, and either of them with a
    doubled leading slash.  The key must not itself begin with a slash or
    with the bucket's name and a slash. *)
Theorem extractKeyFromUrl_https url key w :
  String.prefix "s3://" url = false ->
  bucketName w <> "" -> no_slash (bucketName w) = true ->
  String.prefix "/" key = false ->
  String.prefix (bucketName w +:+ "/") key = false ->
  URL_pathname url = inr ("/" +:+ key)
  \/ URL_pathname url = inr ("//" +:+ key)
  \/ URL_pathname url = inr ("/" +:+ bucketName w +:+ "/" +:+ key)
  \/ URL_pathname url = inr ("//" +:+ bucketName w +:+ "/" +:+ key) ->
  extractKeyFromUrl URL_pathname url w = (Return key, w).
Proof.
  intros Hs3 Hne Hns Hk Hbk Hp.
  destruct Hp as [Hp | Hp]; [apply extractKeyFromUrl_plain; assumption|].
  unfold extractKeyFromUrl. rewrite Hs3.
  assert (Hb : String.prefix "/" (bucketName w +:+ "/" +:+ key) = false)
    by (apply prefix_slash_segment; assumption).
  assert (Hpre : String.prefix (bucketName w +:+ "/")
                   (bucketName w +:+ "/" +:+ key) = true)
    by (rewrite string_append_assoc; apply prefix_append).
  assert (Hsub : substring_from (String.length (bucketName w) + 1)
                   (bucketName w +:+ "/" +:+ key) = key).
  { change (bucketName w +:+ "/" +:+ key)
      with (bucketName w +:+ String "/" key).
    clear. induction (bucketName w) as [|c s IH];
      rewrite ?append_cons, ?append_nil; [reflexivity|exact IH]. }
  destruct Hp as [-> | [-> | ->]]; unfold bind, gets, ret.
  - change (substring_from 1 ("//" +:+ key)) with ("/" +:+ key).
    rewrite (prefix_append "/" key).
    change (substring_from 1 ("/" +:+ key)) with key.
    rewrite Hbk. reflexivity.
  - change (substring_from 1 ("/" +:+ bucketName w +:+ "/" +:+ key))
      with (bucketName w +:+ "/" +:+ key).
    rewrite Hb, Hpre, Hsub. reflexivity.
  - change (substring_from 1 ("//" +:+ bucketName w +:+ "/" +:+ key))
      with ("/" +:+ bucketName w +:+ "/" +:+ key).
    rewrite (prefix_append "/" (bucketName w +:+ "/" +:+ key)).
    change (substring_from 1 ("/" +:+ bucketName w +:+ "/" +:+ key))
      with (bucketName w +:+ "/" +:+ key).
    rewrite Hpre, Hsub. reflexivity.
Qed.

Lemma getOriginalFileUrl_no_throw jobId :
  throws_only (fun _ => False)
              (getOriginalFileUrl URL_pathname getSignedUrl JSON_parse jobId).
Proof.
  cbv [getOriginalFileUrl extractKeyFromUrl getSignedDownloadUrl].
  unfold_model. throws.
Qed.

Lemma getOriginalFileUrl_keeps {X} (f : World -> X) jobId :
  (forall g w, f (set_trace g w) = f w) ->
  (forall l w, f (set_db_faults l w) = f w) ->
  steps (fun w w' => f w' = f w)
        (getOriginalFileUrl URL_pathname getSignedUrl JSON_parse jobId).
Proof.
  intros Ht Hd.
  cbv [getOriginalFileUrl extractKeyFromUrl getSignedDownloadUrl].
  unfold_model.
  steps_with (fun w : World => @eq_refl _ (f w)) (eq_field_trans f)
    ltac:(first [ apply Ht | apply Hd ]) ltac:(fail).
Qed.

(** X27: [GET original-file/:jobId] never fails and never writes: whatever the
    database, the URL parser and the presigner do, it answers (with a URL
    or with [null]) and leaves cache, bucket and job table as they were. *)
Theorem getOriginalFileUrl_total jobId w :
  exists r w',
    getOriginalFileUrl URL_pathname getSignedUrl JSON_parse jobId w
    = (Return r, w')
    /\ jobResultsMap w' = jobResultsMap w
    /\ bucket w' = bucket w
    /\ extractionJobs w' = extractionJobs w.
Proof.
  pose proof (getOriginalFileUrl_no_throw jobId w) as Hn.
  pose proof (getOriginalFileUrl_keeps jobResultsMap jobId
                ltac:(intros ? []; reflexivity)
                ltac:(intros ? []; reflexivity) w) as Hc.
  pose proof (getOriginalFileUrl_keeps bucket jobId
                ltac:(intros ? []; reflexivity)
                ltac:(intros ? []; reflexivity) w) as Hb.
  pose proof (getOriginalFileUrl_keeps extractionJobs jobId
                ltac:(intros ? []; reflexivity)
                ltac:(intros ? []; reflexivity) w) as Ht.
  destruct (getOriginalFileUrl URL_pathname getSignedUrl JSON_parse jobId w)
    as [[r|e] w'].
  - exists r, w'. auto.
  - destruct (Hn e eq_refl).
Qed.

Lemma getExtractionJobById_quiet jobId w :
  quiet 1 (db_faults w) ->
  exists w1,
    getExtractionJobById JSON_parse jobId w
    = (Return (selected JSON_parse <$> extractionJobs w !! jobId), w1)
    /\ bucketName w1 = bucketName w.
Proof.
  intros Hq. world w. cbn [db_faults extractionJobs bucketName] in *.
  destruct dbf as [|[e|] l]; [|contradiction|]; eexists; split; reflexivity.
Qed.

Lemma getExtractionJobById_fault jobId w e l :
  db_faults w = Some e :: l ->
  exists w1, getExtractionJobById JSON_parse jobId w = (Throw e, w1).
Proof.
  intros Hd. world w. cbn [db_faults] in Hd. subst. eexists. reflexivity.
Qed.

(** [extractKeyFromUrl] reads nothing of the world but the bucket's name. *)
Lemma extractKeyFromUrl_bucketName url w w1 :
  bucketName w1 = bucketName w ->
  extractKeyFromUrl URL_pathname url w1
  = (fst (extractKeyFromUrl URL_pathname url w), w1).
Proof.
  intros Hb. unfold extractKeyFromUrl.
  destruct (String.prefix "s3://" url); [reflexivity|].
  destruct (URL_pathname url); [reflexivity|].
  unfold bind, gets, ret. rewrite Hb. reflexivity.
Qed.

Lemma getSignedDownloadUrl_ok key n w signed :
  getSignedUrl (bucketName w) key n = inr signed ->
  getSignedDownloadUrl getSignedUrl key n w = (Return signed, w).
Proof.
  intros H. unfold getSignedDownloadUrl, try_catch, bind, gets.
  rewrite H. reflexivity.
Qed.

(** X28: what [GET original-file/:jobId] answers.  For a job whose row holds the
    locator [uploadFile] returned for the original, it is the presigned URL
    of the original's key, in this bucket, valid for an hour; parser and
    presigner are taken at their word.  A job without a row, a row without
    locator (such as one rebuilt from the cache entry of a failed job) and
    a database failure give [null]. *)
Theorem getOriginalFileUrl_answers jobId w :
  (forall row fileName signed,
     quiet 1 (db_faults w) ->
     extractionJobs w !! jobId = Some row ->
     Row.fileUrl row = urlOf w (originalKey jobId fileName) ->
     URL_pathname (urlOf w (originalKey jobId fileName))
     = inr ("/" +:+ originalKey jobId fileName) ->
     String.prefix (bucketName w +:+ "/") (originalKey jobId fileName)
     = false ->
     getSignedUrl (bucketName w) (originalKey jobId fileName) 3600
     = inr signed ->
     fst (getOriginalFileUrl URL_pathname getSignedUrl JSON_parse jobId w)
     = Return (Some signed))
  /\ (quiet 1 (db_faults w) -> extractionJobs w !! jobId = None ->
      fst (getOriginalFileUrl URL_pathname getSignedUrl JSON_parse jobId w)
      = Return None)
  /\ (forall row,
        quiet 1 (db_faults w) -> extractionJobs w !! jobId = Some row ->
        Row.fileUrl row = "" ->
        fst (getOriginalFileUrl URL_pathname getSignedUrl JSON_parse jobId w)
        = Return None)
  /\ (forall e l,
        db_faults w = Some e :: l ->
        fst (getOriginalFileUrl URL_pathname getSignedUrl JSON_parse jobId w)
        = Return None).
Proof.
  split; [|split; [|split]].
  - intros row fileName signed Hq Hrow Hurl Hp Hb Hs.
    destruct (getExtractionJobById_quiet jobId w Hq) as (w1 & E1 & Hbn).
    rewrite Hrow in E1. unfold getOriginalFileUrl.
    erewrite try_Return; [reflexivity|].
    rewrite (bind_Return _ _ _ _ _ E1).
    cbn [fmap option_fmap option_map selected ExtractedFile.fileUrl].
    rewrite Hurl.
    change (urlOf w (originalKey jobId fileName))
      with (String "h" (substring_from 1 (urlOf w (originalKey jobId fileName)))).
    cbv iota.
    change (String "h" (substring_from 1 (urlOf w (originalKey jobId fileName))))
      with (urlOf w (originalKey jobId fileName)).
    assert (Hk : extractKeyFromUrl URL_pathname
                   (urlOf w (originalKey jobId fileName)) w1
                 = (Return (originalKey jobId fileName), w1)).
    { apply extractKeyFromUrl_plain;
        [reflexivity|reflexivity|rewrite Hbn; exact Hb|exact Hp]. }
    rewrite (bind_Return _ _ _ _ _ Hk).
    rewrite (bind_Return _ _ _ _ _
               (getSignedDownloadUrl_ok _ _ _ _
                  ltac:(rewrite Hbn; exact Hs))).
    reflexivity.
  - intros Hq Hrow.
    destruct (getExtractionJobById_quiet jobId w Hq) as (w1 & E1 & _).
    rewrite Hrow in E1. unfold getOriginalFileUrl.
    erewrite try_Return; [reflexivity|].
    rewrite (bind_Return _ _ _ _ _ E1). reflexivity.
  - intros row Hq Hrow Hurl.
    destruct (getExtractionJobById_quiet jobId w Hq) as (w1 & E1 & _).
    rewrite Hrow in E1. unfold getOriginalFileUrl.
    erewrite try_Return; [reflexivity|].
    rewrite (bind_Return _ _ _ _ _ E1).
    cbn [fmap option_fmap option_map selected ExtractedFile.fileUrl].
    rewrite Hurl. reflexivity.
  - intros e l Hd.
    destruct (getExtractionJobById_fault jobId w e l Hd) as (w1 & E1).
    unfold getOriginalFileUrl.
    erewrite try_Throw; [reflexivity|].
    apply (bind_Throw _ _ _ _ _ E1).
Qed.

End RetrievalProperties.

(** ** The further theorems at concrete inputs *)

Lemma storage_round_trip_witness :
  quiet 3 (s3_faults world0)
  /\ exists w1 w2 w3,
       uploadFile "output/j/a.json" "T" "application/json" [] world0
       = (Return "https://udayam-files.t3.storage.dev/output/j/a.json", w1)
       /\ fileExists "output/j/a.json" w1 = (Return true, w2)
       /\ getFileBuffer "output/j/a.json" w2 = (Return "T", w3).
Proof.
  split; [exact I|].
  destruct (storage_round_trip "output/j/a.json" "T" "application/json" []
              world0 I) as (w1 & E1 & w2 & E2 & w3 & E3 & _).
  exists w1, w2, w3. split; [exact E1|]. split; [exact E2|exact E3].
Defined.

Lemma storage_missing_key_witness :
  bucket world0 !! "output/j/a.json" = None
  /\ quiet 1 (s3_faults world0)
  /\ exists w', fileExists "output/j/a.json" world0 = (Return false, w').
Proof.
  split; [reflexivity|]. split; [exact I|].
  destruct (storage_missing_key "output/j/a.json" world0 eq_refl I)
    as ((w' & E & _) & _).
  exists w'. exact E.
Defined.

Lemma storage_faults_witness :
  s3_faults w_upload_down
  = [Some (Error "TimeoutError" "socket hang up" None None)]
  /\ (exists w',
        uploadFile "k" "T" "text/plain" [] w_upload_down
        = (Throw (new_Error "Failed to upload file: socket hang up"), w')
        /\ bucket w' = bucket w_upload_down)
  /\ exists w',
       fileExists "k" w_upload_down
       = (Throw (Error "TimeoutError" "socket hang up" None None), w').
Proof.
  split; [reflexivity|].
  destruct (storage_faults "k" "T" "text/plain" [] w_upload_down _ _ eq_refl)
    as ((w' & E & Hb & _) & Hother & _).
  split; [exists w'; split; [exact E|exact Hb]|].
  destruct Hother as (w'' & E' & _); [discriminate|].
  exists w''. exact E'.
Defined.

Lemma createExtractionJob_then_get_witness :
  J0 <> "" /\ quiet 2 (db_faults world0) /\ quiet 2 (db_faults w_legacy)
  /\ extractionJobs world0 !! J0 = None
  /\ extractionJobs w_legacy !! J0 = Some row0
  /\ (exists w1 w2,
        createExtractionJob "u1" "a b.pdf" "" (Some J0) world0
        = (Return (ExtractedFile.mk J0 "a b.pdf" "" "pending" None None), w1)
        /\ getExtractionJobById demo_parse J0 w1
           = (Return (Some (ExtractedFile.mk J0 "a b.pdf" "" "pending" None
                              None)), w2))
  /\ exists e w1,
       createExtractionJob "u1" "a b.pdf" "" (Some J0) w_legacy = (Throw e, w1)
       /\ extractionJobs w1 = extractionJobs w_legacy.
Proof.
  assert (Hj : J0 <> "") by discriminate.
  split; [exact Hj|]. split; [exact I|]. split; [exact I|].
  split; [reflexivity|]. split; [reflexivity|]. split.
  - destruct (createExtractionJob_then_get demo_parse "u1" "a b.pdf" "" J0
                world0 Hj I)
      as (Hnew & _).
    destruct (Hnew eq_refl) as (w1 & E1 & w2 & E2 & _).
    exists w1, w2. split; [exact E1|exact E2].
  - destruct (createExtractionJob_then_get demo_parse "u1" "a b.pdf" "" J0
                w_legacy Hj I)
      as (_ & Hdup).
    exact (Hdup row0 eq_refl).
Defined.

Lemma updateExtractionJob_missing_witness :
  extractionJobs world0 !! J0 = None
  /\ quiet 1 (db_faults world0)
  /\ exists w',
       updateExtractionJob demo_parse J0 "completed" (Some (JString "T")) None
                           world0
       = (Return None, w')
       /\ extractionJobs w' = extractionJobs world0.
Proof.
  split; [reflexivity|]. split; [exact I|].
  exact (updateExtractionJob_missing demo_parse J0 "completed"
           (Some (JString "T")) None world0 eq_refl I).
Defined.

Lemma updateExtractionJob_fields_witness :
  extractionJobs w_legacy !! J0 = Some row0
  /\ quiet 1 (db_faults w_legacy)
  /\ exists w' row' r,
       updateExtractionJob demo_parse J0 "failed" None (Some "boom") w_legacy
       = (Return (Some r), w')
       /\ Row.fileName row' = "a b.pdf"
       /\ Row.status row' = "failed"
       /\ Row.result row' = None
       /\ Row.error row' = Some "boom"
       /\ ExtractedFile.status r = Row.status row'
       /\ ExtractedFile.error r = Row.error row'.
Proof.
  split; [reflexivity|]. split; [exact I|].
  destruct (updateExtractionJob_fields demo_parse J0 "failed" None
              (Some "boom") w_legacy row0 eq_refl I)
    as (w' & row' & r & E & _ & _ & _ & Hfn & _ & Hst & Hrs & Her
        & _ & _ & _ & Hst' & Her' & _).
  exists w', row', r. split; [exact E|]. split; [exact Hfn|].
  split; [exact Hst|]. split; [exact Hrs|]. split; [exact Her|].
  split; [exact Hst'|exact Her'].
Defined.

Lemma startExtraction_null_result_witness :
  quiet 1 (s3_faults w_engine_null)
  /\ extract_replies w_engine_null = [inr JNull]
  /\ exists w',
       startExtraction demo_stringify "PDF" "a b.pdf" "application/pdf" "u1"
                       "en" true w_engine_null
       = (Throw (InternalServerErrorException "Document extraction failed"),
          w')
       /\ bucket w'
          = <[originalKey (generatedJobId w_engine_null) "a b.pdf" := "PDF"]>
              (bucket w_engine_null).
Proof.
  split; [exact I|]. split; [reflexivity|].
  destruct (startExtraction_null_result demo_stringify "PDF" "a b.pdf"
              "application/pdf" "u1" "en" true w_engine_null [] I eq_refl)
    as (w' & E & _ & Hb).
  exists w'. split; [exact E|exact Hb].
Defined.

Lemma startExtraction_result_upload_failure_witness :
  JString "T" <> JNull
  /\ s3_faults w_result_upload_down
     = [None; Some (Error "TimeoutError" "socket hang up" None None)]
  /\ extract_replies w_result_upload_down = [inr (JString "T")]
  /\ exists w',
       startExtraction demo_stringify "PDF" "a b.pdf" "application/pdf" "u1"
                       "en" true w_result_upload_down
       = (Throw (InternalServerErrorException "Document extraction failed"),
          w')
       /\ jobResultsMap w'
          = <[generatedJobId w_result_upload_down
              := CachedJob.mk failed "" (Some "a b.pdf") None
                   (Some ("Failed to upload file: " +:+ "socket hang up"))]>
              (jobResultsMap w_result_upload_down).
Proof.
  assert (Hd : JString "T" <> JNull) by discriminate.
  split; [exact Hd|]. split; [reflexivity|]. split; [reflexivity|].
  destruct (startExtraction_result_upload_failure demo_stringify "PDF"
              "a b.pdf" "application/pdf" "u1" "en" true w_result_upload_down
              (JString "T") [] _ [] Hd eq_refl eq_refl)
    as (w' & E & Hc & _).
  exists w'. split; [exact E|exact Hc].
Defined.

Lemma startExtraction_error_mapping_witness :
  quiet 1 (s3_faults w_engine_timeout)
  /\ exists w',
       startExtraction demo_stringify "PDF" "a b.pdf" "application/pdf" "u1"
                       "en" true w_engine_timeout
       = (Throw (InternalServerErrorException
                   "Request to Python service timed out. Please try again."),
          w').
Proof.
  split; [exact I|].
  destruct (startExtraction_error_mapping demo_stringify "PDF" "a b.pdf"
              "application/pdf" "u1" "en" true w_engine_timeout _ [] I eq_refl)
    as (thrown & w' & E & _ & _ & Htimeout & _).
  exists w'. rewrite <- (Htimeout eq_refl (or_intror eq_refl)). exact E.
Defined.

Lemma getExtractionStatus_db_failure_witness :
  jobResultsMap w_poll_db_down !! J0 = None
  /\ db_faults w_poll_db_down
     = [Some (Error "PostgresError" "connection terminated" None None)]
  /\ exists w',
       getExtractionStatus demo_parse J0 w_poll_db_down
       = (Return (ExtractionStatusResponse.mk J0 processing None None None),
          w')
       /\ jobResultsMap w' = jobResultsMap w_poll_db_down.
Proof.
  split; [reflexivity|]. split; [reflexivity|].
  destruct (getExtractionStatus_db_failure demo_parse J0 w_poll_db_down _ []
              (ExtractionStatusResponse.mk J0 processing None None None) []
              eq_refl eq_refl eq_refl) as (w' & E & _ & Hc).
  exists w'. split; [exact E|exact Hc].
Defined.

Lemma getExtractionStatus_first_key_failure_witness :
  (bucket w_garbled !! outputKey J0 "a b.pdf" = Some "?"
   /\ exists w',
        getExtractionStatus demo_parse J0 w_garbled
        = (Return (ExtractionStatusResponse.mk J0 completed (Some "")
                     (Some (JString "T")) None), w'))
  /\ (s3_faults w_head_fails
      = [Some (Error "TimeoutError" "socket hang up" None None)]
      /\ exists w',
           getExtractionStatus demo_parse J0 w_head_fails
           = (Return (ExtractionStatusResponse.mk J0 completed (Some "")
                        (Some (JString "T")) None), w')).
Proof.
  split.
  - split; [reflexivity|].
    destruct (getExtractionStatus_first_key_failure demo_parse J0 w_garbled
                row0 "T" (JString "T")) as (Hparse & _); [side..|].
    destruct (Hparse "?" (Error "SyntaxError" "Unexpected token ? in JSON"
                                None None)) as (w' & E & _); [side..|].
    exists w'. exact E.
  - split; [reflexivity|].
    destruct (getExtractionStatus_first_key_failure demo_parse J0 w_head_fails
                row0 "T" (JString "T")) as (_ & Hhead); [side..|].
    destruct (Hhead (Error "TimeoutError" "socket hang up" None None) [])
      as (w' & E & _); [side..|].
    exists w'. exact E.
Defined.

Lemma getExtractionStatus_engine_errors_witness :
  jobResultsMap w_engine_404 !! J0 = None
  /\ quiet 1 (db_faults w_engine_404)
  /\ extractionJobs w_engine_404 !! J0 = None
  /\ exists w',
       getExtractionStatus demo_parse J0 w_engine_404
       = (Throw (BadRequestException "Job not found"), w').
Proof.
  split; [reflexivity|]. split; [exact I|]. split; [reflexivity|].
  destruct (getExtractionStatus_engine_errors demo_parse J0 w_engine_404 _ []
              eq_refl I eq_refl eq_refl)
    as (thrown & w' & E & _ & H404 & _).
  exists w'. rewrite <- (H404 _ eq_refl eq_refl). exact E.
Defined.

Lemma controller_poll_syncs_record_witness :
  extractionJobs w_recorded !! J0 = Some row0
  /\ quiet 1 (db_faults w_recorded)
  /\ (exists w',
        controller_getExtractionStatus demo_parse J0 w_recorded
        = (Return (ExtractionStatusResponse.mk J0 completed
                     (Some "https://udayam-files.t3.storage.dev/originals/job_1700000000000_82mvyr/a%20b.pdf")
                     (Some (JString "T")) None), w')
        /\ extractionJobs w' !! J0
           = Some (Row.mk J0 "u1" "a b.pdf"
                          "https://udayam-files.t3.storage.dev/originals/a"
                          "completed" (Some (JString "T")) None))
  /\ exists w',
       controller_getExtractionStatus demo_parse J0 w_failed_recorded
       = (Return (ExtractionStatusResponse.mk J0 failed (Some "") None
                    (Some "Failed to upload file: socket hang up")), w')
       /\ extractionJobs w' !! J0
          = Some (Row.mk J0 "u1" "a b.pdf"
                         "https://udayam-files.t3.storage.dev/originals/a"
                         "failed" None
                         (Some "Failed to upload file: socket hang up")).
Proof.
  split; [reflexivity|]. split; [exact I|]. split.
  - destruct (controller_poll_syncs_record demo_parse J0 w_recorded row0
                (CachedJob.mk completed
                   "https://udayam-files.t3.storage.dev/originals/job_1700000000000_82mvyr/a%20b.pdf"
                   (Some "a b.pdf") (Some (JString "T")) None)
                eq_refl I eq_refl (or_introl eq_refl)) as (w' & E & Ht & _).
    exists w'. split; [exact E|]. rewrite Ht. apply lookup_insert_eq.
  - destruct (controller_poll_syncs_record demo_parse J0 w_failed_recorded
                row0
                (CachedJob.mk failed "" (Some "a b.pdf") None
                   (Some "Failed to upload file: socket hang up"))
                eq_refl I eq_refl (or_intror eq_refl)) as (w' & E & Ht & _).
    exists w'. split; [exact E|]. rewrite Ht. apply lookup_insert_eq.
Defined.

Lemma controller_poll_write_back_witness :
  (db_faults w_recorded_db_down
   = [Some (Error "PostgresError" "connection terminated" None None)]
   /\ exists w',
        controller_getExtractionStatus demo_parse J0 w_recorded_db_down
        = (Return (ExtractionStatusResponse.mk J0 completed
                     (Some "https://udayam-files.t3.storage.dev/originals/job_1700000000000_82mvyr/a%20b.pdf")
                     (Some (JString "T")) None), w')
        /\ extractionJobs w' = extractionJobs w_recorded_db_down)
  /\ (status_replies w_engine_pending
      = [inr (ExtractionStatusResponse.mk J0 pending None None None)]
      /\ exists w',
           controller_getExtractionStatus demo_parse J0 w_engine_pending
           = (Return (ExtractionStatusResponse.mk J0 pending None None None),
              w')
           /\ extractionJobs w' = extractionJobs w_engine_pending).
Proof.
  split.
  - split; [reflexivity|].
    destruct (controller_poll_write_back demo_parse J0 w_recorded_db_down)
      as (Hfail & _).
    destruct (Hfail (CachedJob.mk completed
                       "https://udayam-files.t3.storage.dev/originals/job_1700000000000_82mvyr/a%20b.pdf"
                       (Some "a b.pdf") (Some (JString "T")) None)
                    (Error "PostgresError" "connection terminated" None None)
                    [] eq_refl (or_introl eq_refl) eq_refl)
      as (w' & E & Ht & _).
    exists w'. split; [exact E|exact Ht].
  - split; [reflexivity|].
    destruct (controller_poll_write_back demo_parse J0 w_engine_pending)
      as (_ & Hpending).
    destruct (Hpending (ExtractionStatusResponse.mk J0 pending None None None)
                       [] eq_refl eq_refl I eq_refl (or_introl eq_refl))
      as (w' & E & _ & Ht).
    exists w'. split; [exact E|exact Ht].
Defined.

Lemma extract_then_poll_witness :
  exists jobId,
    Some J0 = Some jobId
    /\ fst (controller_getExtractionStatus demo_parse jobId w_extracted)
       = Return (ExtractionStatusResponse.mk jobId completed
                   (Some "https://udayam-files.t3.storage.dev/originals/job_1700000000000_82mvyr/a%20b.pdf")
                   (Some (JString "T")) None)
    /\ extractionJobs
         (snd (controller_getExtractionStatus demo_parse jobId w_extracted))
       !! jobId
       = Some (Row.mk J0 "u1" "a b.pdf"
                      "https://udayam-files.t3.storage.dev/originals/job_1700000000000_82mvyr/a%20b.pdf"
                      "completed" (Some (JString "T")) None).
Proof.
  assert (E : extractDocument demo_stringify (Some file0) None None
                (Some "u1") w_engine_ok
              = (Return (ExtractionResponse.mk true "Extraction completed"
                           (Some J0)
                           (Some "https://udayam-files.t3.storage.dev/originals/job_1700000000000_82mvyr/a%20b.pdf")
                           (JString "T")), w_extracted))
    by (vm_compute; reflexivity).
  destruct (extract_then_poll demo_stringify demo_parse _ _ _ _ _ _ _ E)
    as (jobId & Hj & Hfst & _ & Hrecorded & _).
  injection Hj as <-.
  assert (Hrow : extractionJobs w_extracted !! J0
                 = Some (Row.mk J0 "u1" "a b.pdf"
                           "https://udayam-files.t3.storage.dev/originals/job_1700000000000_82mvyr/a%20b.pdf"
                           "pending" None None))
    by (vm_compute; reflexivity).
  exists J0. split; [reflexivity|]. split; [exact Hfst|].
  rewrite (Hrecorded _ Hrow I). apply lookup_insert_eq.
Defined.

Lemma updateExtractionResult_no_data_witness :
  falsy (Some (JString "")) = true
  /\ exists w',
       updateExtractionResult demo_stringify demo_parse J0
         (Some (Some (JString ""))) w_recorded
       = (Throw (BadRequestException
                   "Failed to update extraction result: No data provided"),
          w')
       /\ extractionJobs w' = extractionJobs w_recorded.
Proof.
  split; [reflexivity|].
  destruct (updateExtractionResult_no_data demo_stringify demo_parse J0
              (Some (JString "")) w_recorded eq_refl) as (w' & E & ->).
  eexists. split; [exact E|reflexivity].
Defined.

Lemma updateExtractionResult_read_your_writes_witness :
  fst (updateExtractionResult demo_stringify demo_parse J0
         (Some (Some (JString "N")))
         w_recorded)
  = Return (true, "Extraction result updated successfully")
  /\ exists w1,
       getExtractionStatus demo_parse J0 w1
       = (Return (ExtractionStatusResponse.mk J0 completed
                    (Some "https://udayam-files.t3.storage.dev/originals/a")
                    (Some (JString "N")) None), w1)
       /\ bucket w1 !! outputKey J0 "a b.pdf" = Some "N".
Proof.
  split; [vm_compute; reflexivity|].
  assert (E : updateExtractionResult demo_stringify demo_parse J0
                (Some (Some (JString "N")))
                w_recorded
              = (Return (true, "Extraction result updated successfully"),
                 snd (updateExtractionResult demo_stringify demo_parse J0
                        (Some (Some (JString "N"))) w_recorded)))
    by (vm_compute; reflexivity).
  destruct (updateExtractionResult_read_your_writes demo_stringify demo_parse
              _ _ _ _ _ E)
    as (d & row & Hd & _ & _ & Hrow & _ & _ & Hb & _ & Hpoll).
  injection Hd as <-.
  assert (Hrow' : row = Row.mk J0 "u1" "a b.pdf"
                          "https://udayam-files.t3.storage.dev/originals/a"
                          "completed" (Some (JString "N")) None).
  { apply (inj Some). rewrite <- Hrow. vm_compute. reflexivity. }
  subst row. eexists. split; [exact Hpoll|exact Hb].
Defined.

Lemma extractDocument_failure_leaves_no_record_witness :
  fst (extractDocument demo_stringify (Some file0) None None (Some "u1")
         w_upload_down)
  = Throw (InternalServerErrorException "Document extraction failed")
  /\ extractionJobs
       (snd (extractDocument demo_stringify (Some file0) None None (Some "u1")
               w_upload_down))
     = extractionJobs w_upload_down.
Proof.
  split; [vm_compute; reflexivity|].
  assert (E : extractDocument demo_stringify (Some file0) None None
                (Some "u1") w_upload_down
              = (Throw (InternalServerErrorException
                          "Document extraction failed"),
                 snd (extractDocument demo_stringify (Some file0) None None
                        (Some "u1") w_upload_down)))
    by (vm_compute; reflexivity).
  exact (proj1 (extractDocument_failure_leaves_no_record demo_stringify
                  _ _ _ _ _ _ _ E)).
Defined.

Lemma keys_injective_witness :
  no_slash J0 = true
  /\ no_slash "job_1700000000001_k3x9ab" = true
  /\ outputKey J0 "a/b.pdf" <> outputKey "job_1700000000001_k3x9ab" "a/b.pdf"
  /\ no_slash (encodeURIComponent "a/b.pdf") = true.
Proof.
  split; [reflexivity|]. split; [reflexivity|].
  destruct (keys_injective J0 "a/b.pdf" "job_1700000000001_k3x9ab" "a/b.pdf"
              eq_refl eq_refl) as (_ & Hout & _ & Hseg).
  split; [|exact Hseg].
  intros H. destruct (Hout H) as [Hj _]. discriminate Hj.
Defined.

Lemma legacy_key_coincides_witness :
  all_unreserved "report.pdf" = true
  /\ outputKey J0 "report.pdf" = legacyKey J0 "report.pdf"
  /\ all_unreserved "a b.pdf" = false
  /\ outputKey J0 "a b.pdf" <> legacyKey J0 "a b.pdf".
Proof.
  split; [reflexivity|].
  split; [apply (proj2 (legacy_key_coincides J0 "report.pdf")); reflexivity|].
  split; [reflexivity|].
  intros H. apply (proj1 (legacy_key_coincides J0 "a b.pdf")) in H.
  discriminate H.
Defined.

Lemma extractKeyFromUrl_s3_witness :
  no_slash "udayam-files" = true
  /\ extractKeyFromUrl demo_URL_pathname
       "s3://udayam-files/originals/job_1/a%20b.pdf" world0
     = (Return "originals/job_1/a%20b.pdf", world0).
Proof.
  split; [reflexivity|].
  exact (extractKeyFromUrl_s3 demo_URL_pathname "udayam-files"
           "originals/job_1/a%20b.pdf" world0 eq_refl).
Defined.

Lemma extractKeyFromUrl_https_witness :
  demo_URL_pathname "https://t3.storage.dev/udayam-files/originals/job_1/a.pdf"
  = inr "/udayam-files/originals/job_1/a.pdf"
  /\ demo_URL_pathname "https://udayam-files.t3.storage.dev/originals/job_1/a.pdf"
     = inr "/originals/job_1/a.pdf"
  /\ extractKeyFromUrl demo_URL_pathname
       "https://t3.storage.dev/udayam-files/originals/job_1/a.pdf" world0
     = (Return "originals/job_1/a.pdf", world0)
  /\ extractKeyFromUrl demo_URL_pathname
       "https://udayam-files.t3.storage.dev/originals/job_1/a.pdf" world0
     = (Return "originals/job_1/a.pdf", world0).
Proof.
  split; [reflexivity|]. split; [reflexivity|]. split.
  - apply extractKeyFromUrl_https;
      [reflexivity|discriminate|reflexivity|reflexivity|reflexivity|].
    right. right. left. reflexivity.
  - apply extractKeyFromUrl_https;
      [reflexivity|discriminate|reflexivity|reflexivity|reflexivity|].
    left. reflexivity.
Defined.

Lemma getOriginalFileUrl_answers_witness :
  (extractionJobs w_extracted !! J0
   = Some (Row.mk J0 "u1" "a b.pdf"
             (urlOf w_extracted (originalKey J0 "a b.pdf")) "pending" None
             None)
   /\ fst (getOriginalFileUrl demo_URL_pathname demo_getSignedUrl demo_parse J0
             w_extracted)
      = Return (Some "https://udayam-files.t3.storage.dev/originals/job_1700000000000_82mvyr/a%20b.pdf?X-Amz-Expires=3600"))
  /\ (extractionJobs world0 !! J0 = None
      /\ fst (getOriginalFileUrl demo_URL_pathname demo_getSignedUrl demo_parse
                J0 world0)
         = Return None)
  /\ (db_faults w_poll_db_down
      = [Some (Error "PostgresError" "connection terminated" None None)]
      /\ fst (getOriginalFileUrl demo_URL_pathname demo_getSignedUrl demo_parse
                J0
                w_poll_db_down)
         = Return None).
Proof.
  split; [|split].
  - split; [vm_compute; reflexivity|].
    destruct (getOriginalFileUrl_answers demo_URL_pathname demo_getSignedUrl
                demo_parse
                J0 w_extracted) as (Hsigned & _).
    apply (Hsigned (Row.mk J0 "u1" "a b.pdf"
                      (urlOf w_extracted (originalKey J0 "a b.pdf"))
                      "pending" None None) "a b.pdf"); side.
  - split; [reflexivity|].
    destruct (getOriginalFileUrl_answers demo_URL_pathname demo_getSignedUrl
                demo_parse
                J0 world0) as (_ & Hnone & _).
    apply Hnone; side.
  - split; [reflexivity|].
    destruct (getOriginalFileUrl_answers demo_URL_pathname demo_getSignedUrl
                demo_parse
                J0 w_poll_db_down) as (_ & _ & _ & Hdown).
    exact (Hdown _ [] eq_refl).
Defined.
